(** * Kritis V5.0 / V6.0: structured extraction and knowledge-graph linker

    A shallow embedding of
      - [analysis/kritis_analyzer_v50.py]: [_extract_metadata],
        [_extract_preamble_and_articles], [run_kritis_v50_analyst_phase],
        [_analyze_content_v50], [_get_law_type_pt_translation],
        [_generate_slug], [_map_law_type],
        [_process_articles_with_relationships_v50],
        [_process_preamble_references], [_process_and_link_references],
        [_find_target_law_v50], [_find_target_article_v50],
        [_update_target_article_status_v50], [_aggregate_tags_v50];
      - [analysis/kritis_analyzer_v6.py]:
        [_analyze_content_v6_map_with_retry], [_analyze_content_v6_map],
        [_get_law_type_pt_translation], [_generate_slug], [_map_law_type],
        [_process_preamble_references], [_process_and_link_references],
        [_find_target_law], [_find_target_article],
        [_update_target_article_status].

    Conventions.
      - A Python [str] is a [string]; a character is read as a code point
        below 256.
      - A Python exception is a value [Raise e] of [result]; a [try]/[except
        Exception] block is a [match] on the result of its body.
      - The data store and the logger are explicit state ([World]).
      - The generative model, [json.loads], [str.upper] and the store's
        [ilike] operator are collaborators from outside the repository: they
        are Section variables, and concrete instances are given for the
        worked examples. So are [uuid.uuid4], the NFKD transliteration,
        [==] on tags, the store calls on tables that the linker does
        not touch, and [datetime.fromisoformat] on the texts that are not
        of the form [YYYY-MM-DD], which the versions of Python read
        differently.
      - A store call can fail in transport ([StoreFault]), before it
        reaches the store or after the store has applied it; an insert of
        a row already present is rejected ([UniqueViolation]).

    Layout: the embedding of the code, the instances of the collaborators,
    the vocabulary of the statements, then the properties: extraction
    (C1, C2, C8), internal references (C7), store failures (C10), target
    resolution and link kinds (C3, C9), status updates (C5), running the
    linker twice (C6), the temporal check (C4); then law types (X1 to X4),
    slugs (X5, X6), Stage 1 and the shape of the answers (X7 to X13),
    tag aggregation (X14 to X16), the retry wrapper (X17, X18), the effect
    of the linker on the store (X19 to X22), Stage 3 (X23, X24) and the
    analyst phase (X25 to X27). *)

From Stdlib Require Import List String Ascii ZArith Bool Lia Arith
  DecimalString.
Import ListNotations.

Local Open Scope string_scope.
Local Open Scope list_scope.
Local Open Scope Z_scope.

(* ================================================================== *)
(** * Exceptions and results *)

Inductive exn : Type :=
| BackendError        (* generate_content / response.text raised *)
| JSONDecodeError     (* json.loads *)
| TypeError
| ValueError          (* datetime.fromisoformat *)
| OverflowError       (* date - timedelta below date.min *)
| StoreFault          (* transport or server failure of a store call *)
| UniqueViolation.    (* duplicate key rejected by the store *)

Inductive result (A : Type) : Type :=
| Ok (a : A)
| Raise (e : exn).
Arguments Ok {A} a.
Arguments Raise {A} e.

Definition rbind {A B : Type} (r : result A) (k : A -> result B) : result B :=
  match r with
  | Ok a => k a
  | Raise e => Raise e
  end.

Declare Scope result_scope.
Delimit Scope result_scope with result.
Notation "x <- r ;; k" := (rbind r (fun x => k))
  (at level 100, r at next level, right associativity) : result_scope.

(* ================================================================== *)
(** * Python strings *)

Module PyStr.

(** [str.isspace] on one character, for code points below 256. *)
Definition isspace (c : ascii) : bool :=
  let n := nat_of_ascii c in
  ((9 <=? n) && (n <=? 13) || (28 <=? n) && (n <=? 32)
   || (n =? 133) || (n =? 160))%nat.

Fixpoint lstrip (s : string) : string :=
  match s with
  | EmptyString => EmptyString
  | String c s' => if isspace c then lstrip s' else s
  end.

Fixpoint rstrip (s : string) : string :=
  match s with
  | EmptyString => EmptyString
  | String c s' =>
      match rstrip s' with
      | EmptyString => if isspace c then EmptyString else String c EmptyString
      | r => String c r
      end
  end.

(** [s.strip()] *)
Definition strip (s : string) : string := rstrip (lstrip s).

(** [s.startswith(p)] *)
Definition startswith (p s : string) : bool := String.prefix p s.

(** [s[n:]] for [n >= 0] *)
Fixpoint drop (n : nat) (s : string) : string :=
  match n, s with
  | O, _ => s
  | S _, EmptyString => EmptyString
  | S n', String _ s' => drop n' s'
  end.

(** [s[:n]] for [n >= 0] *)
Fixpoint take (n : nat) (s : string) : string :=
  match n, s with
  | O, _ => EmptyString
  | S _, EmptyString => EmptyString
  | S n', String c s' => String c (take n' s')
  end.

(** [s.endswith(p)] *)
Definition endswith (p s : string) : bool :=
  (String.length p <=? String.length s)%nat
  && String.eqb (drop (String.length s - String.length p) s) p.

(** [s[:-n]] for [n > 0] *)
Definition drop_last (n : nat) (s : string) : string :=
  take (String.length s - n) s.

(** [needle in hay] on two strings *)
Fixpoint contains (needle hay : string) : bool :=
  String.prefix needle hay
  || match hay with
     | EmptyString => false
     | String _ hay' => contains needle hay'
     end.

(** Truth value of a string: [bool(s)]. *)
Definition truthy (s : string) : bool :=
  match s with EmptyString => false | _ => true end.

(** Truth value of an [Optional[str]]. *)
Definition otruthy (o : option string) : bool :=
  match o with Some s => truthy s | None => false end.

(** [a < b] on strings: lexicographic on code points. *)
Definition lt (a b : string) : bool := String.ltb a b.

Definition is_digit (c : ascii) : bool :=
  let n := nat_of_ascii c in ((48 <=? n) && (n <=? 57))%nat.

Definition digit_val (c : ascii) : Z := Z.of_nat (nat_of_ascii c) - 48.

(** ASCII upper-casing, the restriction of [str.upper] to ASCII text. *)
Definition ascii_upper_char (c : ascii) : ascii :=
  let n := nat_of_ascii c in
  if ((97 <=? n) && (n <=? 122))%nat then ascii_of_nat (n - 32) else c.

Fixpoint ascii_upper (s : string) : string :=
  match s with
  | EmptyString => EmptyString
  | String c s' => String (ascii_upper_char c) (ascii_upper s')
  end.

Definition ascii_lower_char (c : ascii) : ascii :=
  let n := nat_of_ascii c in
  if ((65 <=? n) && (n <=? 90))%nat then ascii_of_nat (n + 32) else c.

Fixpoint ascii_lower (s : string) : string :=
  match s with
  | EmptyString => EmptyString
  | String c s' => String (ascii_lower_char c) (ascii_lower s')
  end.

End PyStr.

(* ================================================================== *)
(** * JSON values as [json.loads] returns them *)

(** A [dict] is an association list in insertion order with distinct keys;
    an [int] is a [Z]; a [float] is carried by its [repr] text, which no
    operation of the modelled code inspects. *)
#[warnings="-register-all"]
Inductive json : Type :=
| JNull
| JBool (b : bool)
| JInt (z : Z)
| JFloat (repr : string)
| JStr (s : string)
| JArr (items : list json)
| JObj (fields : list (string * json)).

Module Dict.

Definition t : Type := list (string * json).

(** [k in d] *)
Definition contains (k : string) (d : t) : bool :=
  existsb (fun kv => String.eqb (fst kv) k) d.

(** [d.get(k)] *)
Fixpoint get (k : string) (d : t) : option json :=
  match d with
  | [] => None
  | (k', v) :: d' => if String.eqb k' k then Some v else get k d'
  end.

(** [d[k] = v]: overwrite in place, or append a new key. *)
Fixpoint set (k : string) (v : json) (d : t) : t :=
  match d with
  | [] => [(k, v)]
  | (k', v') :: d' =>
      if String.eqb k' k then (k', v) :: d' else (k', v') :: set k v d'
  end.

End Dict.

Module Py.

(** [k in v] for a string [k] and an arbitrary JSON value [v]. *)
Definition contains (k : string) (v : json) : result bool :=
  match v with
  | JObj d => Ok (Dict.contains k d)
  | JArr l =>
      Ok (existsb (fun x => match x with
                            | JStr s => String.eqb s k
                            | _ => false
                            end) l)
  | JStr s => Ok (PyStr.contains k s)
  | _ => Raise TypeError
  end.

(** [v[k] = x] for a string key [k]. *)
Definition setitem (k : string) (x : json) (v : json) : result json :=
  match v with
  | JObj d => Ok (JObj (Dict.set k x d))
  | _ => Raise TypeError
  end.

(** [if k not in v: v[k] = x], returning the updated [v]. *)
Definition fill_missing (k : string) (x : json) (v : json) : result json :=
  (present <- contains k v ;;
   if present then Ok v else setitem k x v)%result.

End Py.

(* ================================================================== *)
(** * Cross-references *)

(** One element of [cross_references], with the keys the linker reads.
    [None] in [number], [article_number] and [url] is an absent key or a
    JSON [null] ([ref.get(k)] gives [None] for both); [None] in
    [relationship] is an absent key. The values are strings, as the prompt
    asks for and as the signatures of the lookups declare. *)
Record CrossReference : Type := mkRef {
  relationship : option string;
  ref_type : option string;
  number : option string;
  article_number : option string;
  url : option string
}.

(* ================================================================== *)
(** * Logging *)

Inductive log_level : Type := DEBUG | INFO | WARNING | ERROR.

(** One constructor per message template of the modelled functions. *)
Inductive log_msg : Type :=
| MsgV50AnalysisFailed (e : exn)
| MsgV6MapAnalysisFailed (e : exn)
| MsgTemporalInconsistency
    (source_law_id source_date relationship target_law_id target_date : string)
| MsgLawRelationship (source_law_id target_law_id relationship : string)
| MsgPreambleLawRelationship (source_law_id target_law_id relationship : string)
| MsgLawRelationshipExistsOrFailed (e : exn)
| MsgTargetLawNotFound (ref : CrossReference)
| MsgArticleReference (source_article_id target_article_id : string)
| MsgArticleReferenceExistsOrFailed (e : exn)
| MsgFailedToProcessReference (ref : CrossReference) (e : exn)
| MsgFailedToProcessPreambleReference (ref : CrossReference) (e : exn)
| MsgErrorFindingTargetLaw (e : exn)
| MsgErrorFindingTargetArticle (e : exn)
| MsgUpdatedArticle (target_article_id new_status valid_to : string)
| MsgFailedToUpdateArticleStatus (e : exn).

Definition log_record : Type := (log_level * log_msg)%type.

(* ================================================================== *)
(** * Stage 2: the extraction operation *)

Definition empty_tags : json :=
  JObj [("person", JArr []); ("organization", JArr []); ("concept", JArr [])].

Definition empty_summary : json :=
  JObj [("informal_summary_title", JStr EmptyString);
        ("informal_summary", JStr EmptyString)].

(** The literal returned by the [except] branch of [_analyze_content_v50]. *)
Definition FALLBACK_V50 : json :=
  JObj [("tags", empty_tags);
        ("analysis", JObj [("pt", empty_summary); ("en", empty_summary)]);
        ("cross_references", JArr [])].

(** The literal returned by the [except] branch of [_analyze_content_v6_map]. *)
Definition FALLBACK_V6 : json :=
  JObj [("tags", empty_tags);
        ("informal_summary_title", JStr EmptyString);
        ("informal_summary", JStr EmptyString);
        ("cross_references", JArr [])].

(** The "Clean response" step shared by both analyzers. *)
Definition clean_response (analysis_text : string) : string :=
  let t1 := if PyStr.startswith "```json" analysis_text
            then PyStr.drop 7 analysis_text else analysis_text in
  if PyStr.endswith "```" t1 then PyStr.drop_last 3 t1 else t1.

(** "Validate and normalize structure" of [_analyze_content_v50]. *)
Definition normalize_v50 (analysis : json) : result json :=
  (analysis <- Py.fill_missing "tags" empty_tags analysis ;;
   analysis <- Py.fill_missing "cross_references" (JArr []) analysis ;;
   Ok analysis)%result.

(** "Validate structure" of [_analyze_content_v6_map]. *)
Definition normalize_v6 (analysis : json) : result json :=
  (analysis <- Py.fill_missing "tags" empty_tags analysis ;;
   analysis <- Py.fill_missing "cross_references" (JArr []) analysis ;;
   analysis <- Py.fill_missing "informal_summary_title" (JStr EmptyString)
                               analysis ;;
   analysis <- Py.fill_missing "informal_summary" (JStr EmptyString) analysis ;;
   Ok analysis)%result.

Section Extraction.

(** [self.model.generate_content(prompt)] followed by [response.text]. *)
Variable generate_content : string -> result string.
(** [json.loads]; [None] stands for [JSONDecodeError]. *)
Variable json_loads : string -> option json.
(** The text of the prompt template before and after [{content}]. *)
Variables prompt_head prompt_tail : string.

Definition analysis_prompt (content : string) : string :=
  (prompt_head ++ content ++ prompt_tail)%string.

Definition loads (s : string) : result json :=
  match json_loads s with
  | Some v => Ok v
  | None => Raise JSONDecodeError
  end.

(** The body of the [try] block of [_analyze_content_v50]. *)
Definition analyze_v50_try (content : string) : result json :=
  (text <- generate_content (analysis_prompt content) ;;
   let analysis_text := clean_response (PyStr.strip text) in
   analysis <- loads analysis_text ;;
   normalize_v50 analysis)%result.

(** [_analyze_content_v50]: returned value and the records logged. *)
Definition _analyze_content_v50
    (content content_type : string) (article_number : option string)
  : json * list log_record :=
  match analyze_v50_try content with
  | Ok analysis => (analysis, [])
  | Raise e => (FALLBACK_V50, [(ERROR, MsgV50AnalysisFailed e)])
  end.

(** The body of the [try] block of [_analyze_content_v6_map]. *)
Definition analyze_v6_map_try (content : string) : result json :=
  (text <- generate_content (analysis_prompt content) ;;
   let analysis_text := clean_response (PyStr.strip text) in
   analysis <- loads analysis_text ;;
   normalize_v6 analysis)%result.

Definition _analyze_content_v6_map
    (content content_type : string) (article_number : option string)
  : json * list log_record :=
  match analyze_v6_map_try content with
  | Ok analysis => (analysis, [])
  | Raise e => (FALLBACK_V6, [(ERROR, MsgV6MapAnalysisFailed e)])
  end.

End Extraction.

(* ================================================================== *)
(** * Calendar dates ([datetime.date]) *)

Module PyDate.

Record date : Type := mkDate { year : Z; month : Z; day : Z }.

Definition is_leap (y : Z) : bool :=
  (y mod 4 =? 0) && (negb (y mod 100 =? 0) || (y mod 400 =? 0)).

Definition days_in_month (y m : Z) : Z :=
  if m =? 2 then (if is_leap y then 29 else 28)
  else if (m =? 4) || (m =? 6) || (m =? 9) || (m =? 11) then 30
  else 31.

(** The range check of the [date] constructor. *)
Definition valid (d : date) : bool :=
  (1 <=? year d) && (year d <=? 9999)
  && (1 <=? month d) && (month d <=? 12)
  && (1 <=? day d) && (day d <=? days_in_month (year d) (month d)).





(** [d - timedelta(days=1)]. *)
Definition minus_one_day (d : date) : result date :=
  if 1 <? day d then Ok (mkDate (year d) (month d) (day d - 1))
  else if 1 <? month d
       then Ok (mkDate (year d) (month d - 1)
                       (days_in_month (year d) (month d - 1)))
       else if 1 <? year d then Ok (mkDate (year d - 1) 12 31)
            else Raise OverflowError.

Definition digit_char (n : Z) : ascii := ascii_of_nat (48 + Z.to_nat n).

(** [f"{n:02d}"] for [0 <= n < 100] and [f"{n:04d}"] for [0 <= n < 10000]. *)
Definition fmt2 (n : Z) : string :=
  String (digit_char (n / 10)) (String (digit_char (n mod 10)) EmptyString).

Definition fmt4 (n : Z) : string :=
  (fmt2 (n / 100) ++ fmt2 (n mod 100))%string.

(** [d.isoformat()] *)
Definition isoformat (d : date) : string :=
  (fmt4 (year d) ++ "-" ++ fmt2 (month d) ++ "-" ++ fmt2 (day d))%string.

Definition digits2 (a b : ascii) : option Z :=
  if PyStr.is_digit a && PyStr.is_digit b
  then Some (10 * PyStr.digit_val a + PyStr.digit_val b) else None.

Definition digits4 (a b c d : ascii) : option Z :=
  match digits2 a b, digits2 c d with
  | Some h, Some l => Some (100 * h + l)
  | _, _ => None
  end.

(** The year, month and day that a text of the form [YYYY-MM-DD]
    writes: ten characters, ASCII digits around two hyphens. *)
Definition date_only (s : string) : option (Z * Z * Z) :=
  match s with
  | String y1 (String y2 (String y3 (String y4 (String s1
    (String m1 (String m2 (String s2
    (String d1 (String d2 EmptyString))))))))) =>
      if Ascii.eqb s1 "-" && Ascii.eqb s2 "-" then
        match digits4 y1 y2 y3 y4, digits2 m1 m2, digits2 d1 d2 with
        | Some y, Some m, Some d => Some (y, m, d)
        | _, _, _ => None
        end
      else None
  | _ => None
  end.

Section FromIsoFormat.

(** [datetime.fromisoformat(s).date()] on a text that is not of the
    form [YYYY-MM-DD]. Which of these texts are read (a date followed
    by a time, the basic form [YYYYMMDD], week dates) depends on the
    version of Python. *)
Variable fromisoformat_other : string -> result date.

(** [datetime.fromisoformat(s).date()]. On a text of the form
    [YYYY-MM-DD] every version gives the date written, or raises
    [ValueError] when there is no such day. [_extract_metadata]
    writes every enactment date in this form, as
    [f"{year:04d}-{month:02d}-{day:02d}"] from four, at most two and
    at most two digits. *)
Definition fromisoformat (s : string) : result date :=
  match date_only s with
  | Some (y, m, d) =>
      let dt := mkDate y m d in
      if valid dt then Ok dt else Raise ValueError
  | None => fromisoformat_other s
  end.

End FromIsoFormat.

(** For the worked examples, whose dates all have the form
    [YYYY-MM-DD]: a [datetime.fromisoformat] that reads no other
    form. *)
Definition no_other_format : string -> result date :=
  fun _ => Raise ValueError.

End PyDate.

(* ================================================================== *)
(** * The data store *)

Record law_row : Type := mkLaw {
  law_id : string;
  law_slug : option string;
  law_official_number : option string;
  law_enactment_date : option string
}.

Record article_row : Type := mkArticle {
  article_id : string;
  article_law_id : string;
  article_order : Z;
  article_status_id : string;
  article_valid_to : option string
}.

Record relationship_row : Type := mkRelationship {
  source_law_id : string;
  target_law_id : string;
  relationship_type : string
}.

Record reference_row : Type := mkReference {
  source_article_id : string;
  target_article_id : string;
  reference_type : string
}.

(** The outcome of a store call as far as transport goes. [execute()]
    sends a request and waits for the reply: it raises when the request
    does not reach the store, and also when the store has applied the
    request and the reply does not come back. *)
Inductive transport : Type :=
| Delivered    (* the call reaches the store and its reply comes back *)
| Refused      (* the call raises before it reaches the store *)
| ReplyLost.   (* the store applies the call, then the call raises *)

(** The four tables the linker touches, and [faults]: the outcomes of the
    coming store calls, in order. Beyond the end of the plan every call
    is delivered. *)
Record Store : Type := mkStore {
  laws : list law_row;
  law_articles : list article_row;
  law_relationships : list relationship_row;
  law_article_references : list reference_row;
  faults : list transport
}.

Definition relationship_eqb (a b : relationship_row) : bool :=
  String.eqb (source_law_id a) (source_law_id b)
  && String.eqb (target_law_id a) (target_law_id b)
  && String.eqb (relationship_type a) (relationship_type b).

Definition reference_eqb (a b : reference_row) : bool :=
  String.eqb (source_article_id a) (source_article_id b)
  && String.eqb (target_article_id a) (target_article_id b)
  && String.eqb (reference_type a) (reference_type b).

Definition opt_is (o : option string) (s : string) : bool :=
  match o with Some x => String.eqb x s | None => false end.

Module Db.

Definition set_faults (f : list transport) (st : Store) : Store :=
  mkStore (laws st) (law_articles st) (law_relationships st)
          (law_article_references st) f.

Definition add_relationship (row : relationship_row) (st : Store) : Store :=
  mkStore (laws st) (law_articles st) (law_relationships st ++ [row])
          (law_article_references st) (faults st).

Definition add_reference (row : reference_row) (st : Store) : Store :=
  mkStore (laws st) (law_articles st) (law_relationships st)
          (law_article_references st ++ [row]) (faults st).

Definition set_articles (arts : list article_row) (st : Store) : Store :=
  mkStore (laws st) arts (law_relationships st)
          (law_article_references st) (faults st).

(** Every store call goes through the transport. A refused call raises
    and leaves the tables as they are; a call whose reply is lost
    raises too, the store having done what the call asks. *)
Definition call {A : Type} (body : Store -> result A * Store) (st : Store)
  : result A * Store :=
  match faults st with
  | Refused :: rest => (Raise StoreFault, set_faults rest st)
  | ReplyLost :: rest => (Raise StoreFault, snd (body (set_faults rest st)))
  | Delivered :: rest => body (set_faults rest st)
  | [] => body st
  end.

(** Rows selected by [.eq('slug', slug)]. *)
Definition slug_matches (slug : string) (ls : list law_row) : list law_row :=
  filter (fun l => opt_is (law_slug l) slug) ls.

(** Rows selected by [.eq('official_number', n)]. *)
Definition number_matches (n : string) (ls : list law_row) : list law_row :=
  filter (fun l => opt_is (law_official_number l) n) ls.

(** Rows selected by [.ilike('official_number', pattern)]. *)
Definition ilike_matches (ilike : string -> string -> bool)
    (pattern : string) (ls : list law_row) : list law_row :=
  filter (fun l => match law_official_number l with
                   | Some x => ilike pattern x
                   | None => false
                   end) ls.

(** Rows selected by [.eq('law_id', l).eq('article_order', o)
    .eq('status_id', s)]. *)
Definition article_matches (l : string) (o : Z) (s : string)
    (arts : list article_row) : list article_row :=
  filter (fun a => String.eqb (article_law_id a) l
                   && (article_order a =? o)
                   && String.eqb (article_status_id a) s) arts.

(** [table('laws').select('id, enactment_date').eq('slug', slug)] *)
Definition laws_eq_slug (slug : string)
  : Store -> result (list law_row) * Store :=
  call (fun st => (Ok (slug_matches slug (laws st)), st)).

(** [table('laws').select('id, enactment_date').eq('official_number', n)] *)
Definition laws_eq_official_number (n : string)
  : Store -> result (list law_row) * Store :=
  call (fun st => (Ok (number_matches n (laws st)), st)).

(** [table('laws').select(...).ilike('official_number', pattern)] *)
Definition laws_ilike_official_number
    (ilike : string -> string -> bool) (pattern : string)
  : Store -> result (list law_row) * Store :=
  call (fun st => (Ok (ilike_matches ilike pattern (laws st)), st)).

(** [table('law_articles').select('id').eq('law_id', l)
      .eq('article_order', o).eq('status_id', s)] *)
Definition articles_eq (l : string) (o : Z) (s : string)
  : Store -> result (list article_row) * Store :=
  call (fun st => (Ok (article_matches l o s (law_articles st)), st)).

(** Modelled from the spec: the constraint of [law_relationships] that
    rejects a row already present (same source, target and kind); the
    schema is not part of the sources. *)
Definition insert_relationship (row : relationship_row)
  : Store -> result unit * Store :=
  call (fun st =>
          if existsb (relationship_eqb row) (law_relationships st)
          then (Raise UniqueViolation, st)
          else (Ok tt, add_relationship row st)).

(** Modelled from the spec: the same constraint on
    [law_article_references]. *)
Definition insert_reference (row : reference_row)
  : Store -> result unit * Store :=
  call (fun st =>
          if existsb (reference_eqb row) (law_article_references st)
          then (Raise UniqueViolation, st)
          else (Ok tt, add_reference row st)).

Definition update_article (id status valid_to : string) (a : article_row)
  : article_row :=
  if String.eqb (article_id a) id
  then mkArticle (article_id a) (article_law_id a) (article_order a)
                 status (Some valid_to)
  else a.

(** [table('law_articles').update({'status_id': s, 'valid_to': v})
      .eq('id', id)] *)
Definition articles_update (id status valid_to : string)
  : Store -> result unit * Store :=
  call (fun st =>
          (Ok tt, set_articles (map (update_article id status valid_to)
                                    (law_articles st)) st)).

End Db.

(** The store together with what has been logged, oldest record first. *)
Record World : Type := mkWorld {
  store : Store;
  log : list log_record
}.

Definition logger (lvl : log_level) (m : log_msg) (w : World) : World :=
  mkWorld (store w) (log w ++ [(lvl, m)]).

Definition with_store (st : Store) (w : World) : World :=
  mkWorld st (log w).

(** The counters of one call of the linker. *)
Record LinkStats : Type := mkStats {
  law_relationships_count : Z;
  article_references_count : Z
}.

(* ================================================================== *)
(** * Regular expressions of the linker *)

Module Re.

Fixpoint after_last_slash (s : string) : option string :=
  match s with
  | EmptyString => None
  | String c s' =>
      match after_last_slash s' with
      | Some r => Some r
      | None => if Ascii.eqb c "/" then Some s' else None
      end
  end.

(** [re.search(r'/([^/]+)$', url)] and [group(1)]: the text after the last
    slash, when there is a slash and that text is not empty. *)
Definition url_slug (url : string) : option string :=
  match after_last_slash url with
  | Some (String c r) => Some (String c r)
  | _ => None
  end.

Fixpoint take_digits (s : string) : string :=
  match s with
  | EmptyString => EmptyString
  | String c s' =>
      if PyStr.is_digit c then String c (take_digits s') else EmptyString
  end.

(** [re.search(r'(\d+)', s)] and [group(1)]: the first run of digits. *)
Fixpoint search_digits (s : string) : option string :=
  match s with
  | EmptyString => None
  | String c s' =>
      if PyStr.is_digit c then Some (take_digits s) else search_digits s'
  end.

Fixpoint int_of_digits_from (acc : Z) (s : string) : Z :=
  match s with
  | EmptyString => acc
  | String c s' => int_of_digits_from (10 * acc + PyStr.digit_val c) s'
  end.

(** [int(digits)] *)
Definition int_of_digits (s : string) : Z := int_of_digits_from 0 s.

End Re.

(* ================================================================== *)
(** * Stage 3: the knowledge-graph linker *)

Definition is_amends_or_revokes (relationship : string) : bool :=
  String.eqb relationship "amends" || String.eqb relationship "revokes".

Section Linker.

(** [str.upper] *)
Variable str_upper : string -> string.
(** The store's [ilike] operator: pattern, then column value. *)
Variable ilike : string -> string -> bool.
(** [datetime.fromisoformat(s).date()] on a text that is not of the
    form [YYYY-MM-DD]. *)
Variable fromisoformat_other : string -> result PyDate.date.

(** "Priority 2: Number-based matching" of [_find_target_law_v50]. *)
Definition find_by_number (number : option string) (st : Store)
  : result (option law_row) * Store :=
  match number with
  | Some n =>
      if PyStr.truthy n then
        match Db.laws_eq_official_number n st with
        | (Raise e, st1) => (Raise e, st1)
        | (Ok (l :: _), st1) => (Ok (Some l), st1)
        | (Ok [], st1) =>
            match Db.laws_ilike_official_number
                    ilike ("%" ++ n ++ "%")%string st1 with
            | (Raise e, st2) => (Raise e, st2)
            | (Ok (l :: _), st2) => (Ok (Some l), st2)
            | (Ok [], st2) => (Ok None, st2)
            end
        end
      else (Ok None, st)
  | None => (Ok None, st)
  end.

(** The body of the [try] block of [_find_target_law_v50]. *)
Definition find_target_law_try (url number : option string) (st : Store)
  : result (option law_row) * Store :=
  match url with
  | Some u =>
      if PyStr.truthy u then
        match Re.url_slug u with
        | Some slug =>
            match Db.laws_eq_slug slug st with
            | (Raise e, st1) => (Raise e, st1)
            | (Ok (l :: _), st1) => (Ok (Some l), st1)
            | (Ok [], st1) => find_by_number number st1
            end
        | None => find_by_number number st
        end
      else find_by_number number st
  | None => find_by_number number st
  end.

Definition _find_target_law_v50 (url number : option string) (w : World)
  : option law_row * World :=
  match find_target_law_try url number (store w) with
  | (Ok r, st) => (r, with_store st w)
  | (Raise e, st) =>
      (None, logger DEBUG (MsgErrorFindingTargetLaw e) (with_store st w))
  end.

Definition _find_target_article_v50
    (target_law_id article_number : string) (w : World)
  : option string * World :=
  match Re.search_digits article_number with
  | None => (None, w)
  | Some digits =>
      let article_order := Re.int_of_digits digits in
      match Db.articles_eq target_law_id article_order "ACTIVE" (store w) with
      | (Ok (a :: _), st) => (Some (article_id a), with_store st w)
      | (Ok [], st) => (None, with_store st w)
      | (Raise e, st) =>
          (None,
           logger DEBUG (MsgErrorFindingTargetArticle e) (with_store st w))
      end
  end.

(** "Determine new status" *)
Definition new_status_of (relationship : string) : option string :=
  if String.eqb relationship "revokes" then Some "REVOKED"
  else if String.eqb relationship "amends" then Some "SUPERSEDED"
  else None.

(** "Calculate valid_to (day before source enactment)" *)
Definition valid_to_of (source_enactment_date : string) : result string :=
  (enactment <- PyDate.fromisoformat fromisoformat_other
                                     source_enactment_date ;;
   before <- PyDate.minus_one_day enactment ;;
   Ok (PyDate.isoformat before))%result.

Definition _update_target_article_status_v50
    (target_article_id relationship source_enactment_date : string)
    (w : World) : World :=
  match new_status_of relationship with
  | None => w
  | Some new_status =>
      match valid_to_of source_enactment_date with
      | Raise e => logger WARNING (MsgFailedToUpdateArticleStatus e) w
      | Ok valid_to =>
          match Db.articles_update target_article_id new_status valid_to
                                   (store w) with
          | (Ok _, st) =>
              logger INFO
                (MsgUpdatedArticle target_article_id new_status valid_to)
                (with_store st w)
          | (Raise e, st) =>
              logger WARNING (MsgFailedToUpdateArticleStatus e)
                     (with_store st w)
          end
      end
  end.

(** "Sanity check: temporal consistency" *)
Definition temporal_check
    (source_law_id : string) (source_enactment_date : option string)
    (relationship target_law_id : string)
    (target_enactment_date : option string) (w : World) : World :=
  match source_enactment_date, target_enactment_date with
  | Some s, Some t =>
      if is_amends_or_revokes relationship
         && PyStr.truthy s && PyStr.truthy t && PyStr.lt s t
      then logger WARNING
             (MsgTemporalInconsistency source_law_id s relationship
                                       target_law_id t) w
      else w
  | _, _ => w
  end.

(** "A) Insert law-to-law relationship" *)
Definition link_law
    (source_law_id : string) (source_enactment_date : option string)
    (relationship target_law_id : string)
    (target_enactment_date : option string)
    (s : World * LinkStats) : World * LinkStats :=
  let '(w, n) := s in
  let w1 := temporal_check source_law_id source_enactment_date relationship
                           target_law_id target_enactment_date w in
  match Db.insert_relationship
          (mkRelationship source_law_id target_law_id
                          (str_upper relationship)) (store w1) with
  | (Ok _, st) =>
      (logger DEBUG
         (MsgLawRelationship source_law_id target_law_id relationship)
         (with_store st w1),
       mkStats (law_relationships_count n + 1) (article_references_count n))
  | (Raise e, st) =>
      (logger DEBUG (MsgLawRelationshipExistsOrFailed e) (with_store st w1),
       n)
  end.

(** "B) Insert article-to-article relationship" and
    "C) Update target article status", for a resolved target article. *)
Definition link_article
    (source_article_id : string) (source_enactment_date : option string)
    (relationship target_article_id : string)
    (s : World * LinkStats) : World * LinkStats :=
  let '(w, n) := s in
  match Db.insert_reference
          (mkReference source_article_id target_article_id
                       (str_upper relationship)) (store w) with
  | (Ok _, st) =>
      let w1 := logger DEBUG
                  (MsgArticleReference source_article_id target_article_id)
                  (with_store st w) in
      let n1 := mkStats (law_relationships_count n)
                        (article_references_count n + 1) in
      match source_enactment_date with
      | Some d =>
          if is_amends_or_revokes relationship && PyStr.truthy d
          then (_update_target_article_status_v50
                  target_article_id relationship d w1, n1)
          else (w1, n1)
      | None => (w1, n1)
      end
  | (Raise e, st) =>
      (logger DEBUG (MsgArticleReferenceExistsOrFailed e) (with_store st w),
       n)
  end.

Definition relationship_of (ref : CrossReference) : string :=
  match relationship ref with Some r => r | None => "cites" end.

(** "Skip internal-only references" *)
Definition is_internal (ref : CrossReference) : bool :=
  negb (PyStr.otruthy (url ref)) && negb (PyStr.otruthy (number ref)).

(** The body of the loop of [_process_and_link_references]. Every call in
    it handles its own exceptions, so for references of this type the
    outer [except] is never entered. *)
Definition link_reference
    (source_article_id source_law_id : string)
    (source_enactment_date : option string)
    (s : World * LinkStats) (ref : CrossReference) : World * LinkStats :=
  let rel := relationship_of ref in
  if is_internal ref then s
  else
    let '(target_law, w1) :=
      _find_target_law_v50 (url ref) (number ref) (fst s) in
    match target_law with
    | None => (logger DEBUG (MsgTargetLawNotFound ref) w1, snd s)
    | Some target =>
        let s2 := link_law source_law_id source_enactment_date rel
                           (law_id target) (law_enactment_date target)
                           (w1, snd s) in
        match article_number ref with
        | Some art =>
            if PyStr.truthy art then
              let '(target_article, w3) :=
                _find_target_article_v50 (law_id target) art (fst s2) in
              match target_article with
              | Some id =>
                  if PyStr.truthy id
                  then link_article source_article_id source_enactment_date
                                    rel id (w3, snd s2)
                  else (w3, snd s2)
              | None => (w3, snd s2)
              end
            else s2
        | None => s2
        end
    end.

Definition _process_and_link_references
    (source_article_id source_law_id : string)
    (source_enactment_date : option string)
    (cross_references : list CrossReference) (w : World)
  : World * LinkStats :=
  fold_left (link_reference source_article_id source_law_id
                            source_enactment_date)
            cross_references (w, mkStats 0 0).

(** "Create law-to-law relationship" of [_process_preamble_references]. *)
Definition link_law_preamble
    (source_law_id relationship target_law_id : string)
    (s : World * Z) : World * Z :=
  let '(w, n) := s in
  match Db.insert_relationship
          (mkRelationship source_law_id target_law_id
                          (str_upper relationship)) (store w) with
  | (Ok _, st) =>
      (logger INFO
         (MsgPreambleLawRelationship source_law_id target_law_id relationship)
         (with_store st w),
       n + 1)
  | (Raise e, st) =>
      (logger DEBUG (MsgLawRelationshipExistsOrFailed e) (with_store st w), n)
  end.

(** The body of the loop of [_process_preamble_references]. *)
Definition link_preamble_reference
    (source_law_id : string) (source_enactment_date : option string)
    (s : World * Z) (ref : CrossReference) : World * Z :=
  if is_internal ref then s
  else
    let '(target_law, w1) :=
      _find_target_law_v50 (url ref) (number ref) (fst s) in
    match target_law with
    | None => (w1, snd s)
    | Some target =>
        let rel := relationship_of ref in
        let w2 := temporal_check source_law_id source_enactment_date rel
                                 (law_id target) (law_enactment_date target)
                                 w1 in
        link_law_preamble source_law_id rel (law_id target) (w2, snd s)
    end.

Definition _process_preamble_references
    (source_law_id : string) (source_enactment_date : option string)
    (cross_references : list CrossReference) (w : World) : World * Z :=
  fold_left (link_preamble_reference source_law_id source_enactment_date)
            cross_references (w, 0).

End Linker.

(* ================================================================== *)
(** * Instances of the collaborators, for the worked examples *)

(** A reader for the part of JSON made of objects, arrays, strings without
    escapes, integers, [true], [false] and [null]. On these texts it agrees
    with [json.loads]; it rejects everything else, including fractions,
    exponents and escaped strings, which [json.loads] reads. *)
Module JsonLite.

Definition dq : ascii := "034".

Definition is_ws (c : ascii) : bool :=
  let n := nat_of_ascii c in
  ((n =? 32) || (n =? 9) || (n =? 10) || (n =? 13))%nat.

Fixpoint skip_ws (s : string) : string :=
  match s with
  | String c s' => if is_ws c then skip_ws s' else s
  | EmptyString => EmptyString
  end.

(** The characters of a string literal after its opening quote. *)
Fixpoint read_string (s : string) : option (string * string) :=
  match s with
  | EmptyString => None
  | String c s' =>
      if Ascii.eqb c dq then Some (EmptyString, s')
      else if Ascii.eqb c "\" then None
      else if (nat_of_ascii c <? 32)%nat then None
      else match read_string s' with
           | Some (str, rest) => Some (String c str, rest)
           | None => None
           end
  end.

Fixpoint read_digits (acc : Z) (s : string) : Z * string :=
  match s with
  | String c s' =>
      if PyStr.is_digit c
      then read_digits (10 * acc + PyStr.digit_val c) s'
      else (acc, s)
  | EmptyString => (acc, s)
  end.

Definition starts_fraction (s : string) : bool :=
  match s with
  | String c _ => Ascii.eqb c "." || Ascii.eqb c "e" || Ascii.eqb c "E"
  | EmptyString => false
  end.

(** An integer literal without its sign. *)
Definition read_nat (s : string) : option (Z * string) :=
  match s with
  | String c s' =>
      if Ascii.eqb c "0"
      then (if starts_fraction s' then None else Some (0, s'))
      else if PyStr.is_digit c
           then let '(n, rest) := read_digits 0 s in
                if starts_fraction rest then None else Some (n, rest)
           else None
  | EmptyString => None
  end.

Definition read_literal (lit : string) (v : json) (s : string)
  : option (json * string) :=
  if String.prefix lit s
  then Some (v, PyStr.drop (String.length lit) s) else None.

(** Elements after [[], given the reader of one value. *)
Fixpoint read_elements (value : string -> option (json * string))
    (fuel : nat) (acc : list json) (s : string) : option (json * string) :=
  match fuel with
  | O => None
  | S fuel' =>
      match value s with
      | Some (v, rest) =>
          match skip_ws rest with
          | String c rest' =>
              if Ascii.eqb c "," then read_elements value fuel' (acc ++ [v]) rest'
              else if Ascii.eqb c "]" then Some (JArr (acc ++ [v]), rest')
              else None
          | EmptyString => None
          end
      | None => None
      end
  end.

(** Members after [{], given the reader of one value. *)
Fixpoint read_members (value : string -> option (json * string))
    (fuel : nat) (acc : Dict.t) (s : string) : option (json * string) :=
  match fuel with
  | O => None
  | S fuel' =>
      match skip_ws s with
      | String q s1 =>
          if Ascii.eqb q dq then
            match read_string s1 with
            | Some (k, s2) =>
                match skip_ws s2 with
                | String c s3 =>
                    if Ascii.eqb c ":" then
                      match value s3 with
                      | Some (v, rest) =>
                          match skip_ws rest with
                          | String c' rest' =>
                              if Ascii.eqb c' ","
                              then read_members value fuel'
                                                (Dict.set k v acc) rest'
                              else if Ascii.eqb c' "}"
                                   then Some (JObj (Dict.set k v acc), rest')
                                   else None
                          | EmptyString => None
                          end
                      | None => None
                      end
                    else None
                | EmptyString => None
                end
            | None => None
            end
          else None
      | EmptyString => None
      end
  end.

Fixpoint read_value (fuel : nat) (s : string) : option (json * string) :=
  match fuel with
  | O => None
  | S fuel' =>
      match skip_ws s with
      | EmptyString => None
      | String c r =>
          if Ascii.eqb c "{" then
            match skip_ws r with
            | String c' r' =>
                if Ascii.eqb c' "}" then Some (JObj [], r')
                else read_members (read_value fuel') fuel' [] r
            | EmptyString => None
            end
          else if Ascii.eqb c "[" then
            match skip_ws r with
            | String c' r' =>
                if Ascii.eqb c' "]" then Some (JArr [], r')
                else read_elements (read_value fuel') fuel' [] r
            | EmptyString => None
            end
          else if Ascii.eqb c dq then
            match read_string r with
            | Some (str, rest) => Some (JStr str, rest)
            | None => None
            end
          else if Ascii.eqb c "-" then
            match read_nat r with
            | Some (n, rest) => Some (JInt (- n), rest)
            | None => None
            end
          else if PyStr.is_digit c then
            match read_nat (String c r) with
            | Some (n, rest) => Some (JInt n, rest)
            | None => None
            end
          else match read_literal "true" (JBool true) (String c r) with
               | Some x => Some x
               | None =>
                   match read_literal "false" (JBool false) (String c r) with
                   | Some x => Some x
                   | None => read_literal "null" JNull (String c r)
                   end
               end
      end
  end.

Definition loads (s : string) : option json :=
  match read_value (S (String.length s)) s with
  | Some (v, rest) =>
      match skip_ws rest with
      | EmptyString => Some v
      | _ => None
      end
  | None => None
  end.

(** [q s] is [s] between double quotes. *)
Definition q (s : string) : string :=
  (String dq s ++ String dq EmptyString)%string.

End JsonLite.

(** The [ilike] of PostgreSQL on ASCII text without escape characters:
    [%] stands for any run of characters, [_] for any one character, and
    letter case is ignored. *)
Module Like.

Fixpoint like (p s : string) : bool :=
  match p with
  | EmptyString => match s with EmptyString => true | _ => false end
  | String c p' =>
      if Ascii.eqb c "%" then
        (fix any (s : string) : bool :=
           like p' s
           || match s with
              | EmptyString => false
              | String _ s' => any s'
              end) s
      else
        match s with
        | EmptyString => false
        | String d s' =>
            (Ascii.eqb c "_" || Ascii.eqb c d) && like p' s'
        end
  end.

Definition ilike (pattern value : string) : bool :=
  like (PyStr.ascii_lower pattern) (PyStr.ascii_lower value).

End Like.

(* ================================================================== *)
(** * Vocabulary of the statements *)

(** The ways the [try] block of an analyzer can fail on the prompt [p],
    [normalize] being its validation step. *)
Inductive extraction_failure
    (generate_content : string -> result string)
    (json_loads : string -> option json)
    (normalize : json -> result json) (p : string) : Prop :=
| backend_failure (e : exn) :
    generate_content p = Raise e ->
    extraction_failure generate_content json_loads normalize p
| malformed_json (text : string) :
    generate_content p = Ok text ->
    json_loads (clean_response (PyStr.strip text)) = None ->
    extraction_failure generate_content json_loads normalize p
| validation_failure (text : string) (v : json) (e : exn) :
    generate_content p = Ok text ->
    json_loads (clean_response (PyStr.strip text)) = Some v ->
    normalize v = Raise e ->
    extraction_failure generate_content json_loads normalize p.

(** The keys [normalize_v50] adds to an object [d] that lacks them. *)
Definition missing_defaults_v50 (d : Dict.t) : Dict.t :=
  (if Dict.contains "tags" d then [] else [("tags", empty_tags)])
  ++ (if Dict.contains "cross_references" d
      then [] else [("cross_references", JArr [])]).

(** A backend that answers every prompt with the same text. *)
Definition answers (text : string) : string -> result string :=
  fun _ => Ok text.

(** A backend that is unreachable. *)
Definition unreachable : string -> result string :=
  fun _ => Raise BackendError.

(** The response [{"cross_references": []}] inside a code fence. *)
Definition response_without_tags : string :=
  ("```json" ++ "{" ++ JsonLite.q "cross_references" ++ ": []}" ++ "```")%string.

(** The response [{"tags": {}, "cross_references": [], "note": 7}]. *)
Definition response_conforming : string :=
  ("{" ++ JsonLite.q "tags" ++ ": {}, " ++ JsonLite.q "cross_references"
   ++ ": [], " ++ JsonLite.q "note" ++ ": 7}")%string.

(** ** Target resolution, in the words of the specification *)

Section Resolution.

Variable ilike : string -> string -> bool.

(** Step 1: the final path segment of the URL, matched against slugs. *)
Definition resolve_by_url (ls : list law_row) (url : option string)
  : option law_row :=
  match url with
  | Some u =>
      match Re.url_slug u with
      | Some slug => hd_error (Db.slug_matches slug ls)
      | None => None
      end
  | None => None
  end.

(** Step 2: the number, exactly; failing that, as a part. *)
Definition resolve_by_number (ls : list law_row) (number : option string)
  : option law_row :=
  match number with
  | Some n =>
      if PyStr.truthy n then
        match hd_error (Db.number_matches n ls) with
        | Some l => Some l
        | None =>
            hd_error (Db.ilike_matches ilike ("%" ++ n ++ "%")%string ls)
        end
      else None
  | None => None
  end.

(** Steps 1 to 3 in priority order. *)
Definition resolve_target (ls : list law_row) (url number : option string)
  : option law_row :=
  match resolve_by_url ls url with
  | Some l => Some l
  | None => resolve_by_number ls number
  end.

End Resolution.

(** The ACTIVE article of a law at the ordinal read from a designator. *)
Definition resolve_article (arts : list article_row)
    (target_law_id article_number : string) : option string :=
  match Re.search_digits article_number with
  | Some digits =>
      option_map article_id
        (hd_error (Db.article_matches target_law_id (Re.int_of_digits digits)
                                      "ACTIVE" arts))
  | None => None
  end.

(** The [law_articles] table after the status update that the reference
    kind [relationship] and the source date [d] ask for on the article
    [id], when the store accepts it. *)
Definition updated_articles
    (fromisoformat_other : string -> result PyDate.date)
    (id relationship d : string)
    (arts : list article_row) : list article_row :=
  match new_status_of relationship, valid_to_of fromisoformat_other d with
  | Some new_status, Ok valid_to =>
      map (Db.update_article id new_status valid_to) arts
  | _, _ => arts
  end.

(** A law has one ACTIVE article at an ordinal: ACTIVE rows with the same
    law and ordinal carry the same id. *)
Definition articles_keyed (arts : list article_row) : Prop :=
  forall a b, In a arts -> In b arts ->
    article_status_id a = "ACTIVE" -> article_status_id b = "ACTIVE" ->
    article_law_id a = article_law_id b ->
    article_order a = article_order b ->
    article_id a = article_id b.

(** [b] is the row [a] after some status updates: an update never touches
    the key of a row and never makes it ACTIVE. *)
Definition article_later (a b : article_row) : Prop :=
  article_id b = article_id a
  /\ article_law_id b = article_law_id a
  /\ article_order b = article_order a
  /\ (article_status_id b = "ACTIVE" -> b = a).

(** [st'] is [st] after some store calls of the linker, none of which met
    a transport failure. *)
Definition evolves (st st' : Store) : Prop :=
  laws st' = laws st
  /\ faults st' = [] /\ faults st = []
  /\ incl (law_relationships st) (law_relationships st')
  /\ incl (law_article_references st) (law_article_references st')
  /\ Forall2 article_later (law_articles st) (law_articles st').

(** The four tables of two stores are the same. *)
Definition same_tables (a b : Store) : Prop :=
  laws a = laws b
  /\ law_articles a = law_articles b
  /\ law_relationships a = law_relationships b
  /\ law_article_references a = law_article_references b.

(** The log holds a temporal-inconsistency warning. *)
Definition warns_temporal (l : list log_record) : bool :=
  existsb (fun r => match r with
                    | (WARNING, MsgTemporalInconsistency _ _ _ _ _) => true
                    | _ => false
                    end) l.

(** ** Data of the worked examples *)

Module Ex.

Definition law_41_2023 : law_row :=
  mkLaw "law-41-2023" (Some "41-2023-213881448") (Some "41/2023")
        (Some "2023-06-02").

Definition law_3_2004 : law_row :=
  mkLaw "law-3-2004" (Some "3-2004-603478") (Some "3/2004")
        (Some "2004-01-15").

Definition article_5 : article_row :=
  mkArticle "art-41-2023-5" "law-41-2023" 5 "ACTIVE" None.

Definition article_6 : article_row :=
  mkArticle "art-41-2023-6" "law-41-2023" 6 "ACTIVE" None.

Definition st0 : Store :=
  mkStore [law_41_2023; law_3_2004] [article_5; article_6] [] [] [].

Definition w0 : World := mkWorld st0 [].

(** The same store when the next store call fails in transport. *)
Definition w_down : World :=
  mkWorld (Db.set_faults [Refused] st0) [].

(** [{relationship: "revokes", number: "41/2023", article_number: "5",
     url: null}] *)
Definition ref_revokes : CrossReference :=
  mkRef (Some "revokes") (Some "Decreto-Lei") (Some "41/2023") (Some "5")
        None.

(** [{relationship: "amends", number: "41/2023"}] *)
Definition ref_amends : CrossReference :=
  mkRef (Some "amends") (Some "Decreto-Lei") (Some "41/2023") None None.

(** A reference whose URL names one law and whose number names another. *)
Definition ref_url_and_number : CrossReference :=
  mkRef (Some "cites") (Some "Lei") (Some "41/2023") None
        (Some "https://diariodarepublica.pt/dr/detalhe/lei/3-2004-603478").

(** [{relationship: "references_internal", article_number: "2",
     url: null}] *)
Definition ref_internal : CrossReference :=
  mkRef (Some "references_internal") None None (Some "2") None.

(** A reference with a kind outside the four of the prompt. *)
Definition ref_modifies : CrossReference :=
  mkRef (Some "modifies") (Some "Decreto-Lei") (Some "41/2023") None None.

(** A reference without a kind. *)
Definition ref_no_kind : CrossReference :=
  mkRef None (Some "Decreto-Lei") (Some "41/2023") None None.

Definition source_article : string := "art-new-1".
Definition source_law : string := "law-new".

(** A reference whose URL ends in the slug of no law and whose number
    is a part of the number of Decreto-Lei 41/2023. *)
Definition ref_partial_number : CrossReference :=
  mkRef (Some "cites") (Some "Decreto-Lei") (Some "41/20") None
        (Some "https://diariodarepublica.pt/dr/detalhe/lei/0-0000-0").

(** The store when the first two store calls are delivered and the
    reply to the third is lost. *)
Definition w_third_reply_lost : World :=
  mkWorld (Db.set_faults [Delivered; Delivered; ReplyLost] st0) [].


(** The same when the status update is refused. *)
Definition w_update_refused : World :=
  mkWorld (Db.set_faults [Delivered; Delivered; Delivered; Delivered;
                          Refused] st0) [].

(** The same when the reply to the insert of the article link is
    lost. *)
Definition w_link_reply_lost : World :=
  mkWorld (Db.set_faults [Delivered; Delivered; Delivered; ReplyLost]
                         st0) [].

End Ex.

(** The reference is already recorded in the store: the rows its
    processing would insert from the source article and law are there. *)
Definition linked
    (str_upper : string -> string) (ilike : string -> string -> bool)
    (source_article_id source_law_id : string)
    (st : Store) (ref : CrossReference) : Prop :=
  is_internal ref = false ->
  forall target,
    resolve_target ilike (laws st) (url ref) (number ref) = Some target ->
    In (mkRelationship source_law_id (law_id target)
                       (str_upper (relationship_of ref)))
       (law_relationships st)
    /\ forall art id,
         article_number ref = Some art -> PyStr.truthy art = true ->
         resolve_article (law_articles st) (law_id target) art = Some id ->
         PyStr.truthy id = true ->
         In (mkReference source_article_id id
                         (str_upper (relationship_of ref)))
            (law_article_references st).

(** The text has a slash. *)
Definition has_slash (s : string) : bool :=
  existsb (Ascii.eqb "/") (list_ascii_of_string s).

(** The store once its next call has gone through the transport. *)
Definition after_call (st : Store) : Store :=
  Db.set_faults (tl (faults st)) st.

(** The next store call does not fail in transport. *)
Definition next_call_ok (st : Store) : bool :=
  match faults st with
  | Refused :: _ | ReplyLost :: _ => false
  | _ => true
  end.

Module Ex2.



(** A store in which law 41/2023 has two ACTIVE articles at ordinal 5. *)
Definition w_two_active : World :=
  mkWorld
    (mkStore [Ex.law_41_2023]
             [Ex.article_5;
              mkArticle "art-41-2023-5-bis" "law-41-2023" 5 "ACTIVE" None]
             [] [] [])
    [].

End Ex2.

(** The law-to-law link of the reference is already recorded. *)
Definition law_linked
    (str_upper : string -> string) (ilike : string -> string -> bool)
    (source_law_id : string) (st : Store) (ref : CrossReference) : Prop :=
  is_internal ref = false ->
  forall target,
    resolve_target ilike (laws st) (url ref) (number ref) = Some target ->
    In (mkRelationship source_law_id (law_id target)
                       (str_upper (relationship_of ref)))
       (law_relationships st).

(* ================================================================== *)
(** ** The transport plan, call by call *)

(** The outcome of the store call number [i] from now, counting from 0. *)
Definition outcome_at (i : nat) (st : Store) : transport :=
  nth i (faults st) Delivered.

(** The call reaches the store and its reply comes back. *)
Definition delivered (t : transport) : bool :=
  match t with
  | Delivered => true
  | _ => false
  end.


(** The store once its next [n] calls have gone through the transport. *)
Definition after_calls (n : nat) (st : Store) : Store :=
  Db.set_faults (skipn n (faults st)) st.

(** The number of coming store calls whose reply is lost. *)
Definition lost_replies (st : Store) : Z :=
  Z.of_nat (List.length (filter (fun t => match t with
                                          | ReplyLost => true
                                          | _ => false
                                          end) (faults st))).

(** The slug that the resolution reads from the URL of a reference. *)
Definition slug_of (url : option string) : option string :=
  match url with
  | Some u => Re.url_slug u
  | None => None
  end.

(** The lookup by slug that the resolution of a reference makes, as the
    rows it selects among the laws [ls]; none without a slug. *)
Definition slug_lookup (ls : list law_row) (url : option string)
  : list (list law_row) :=
  match slug_of url with
  | Some slug => [Db.slug_matches slug ls]
  | None => []
  end.

(** The lookups by number, exact then partial; none without a number. *)
Definition number_lookups (ilike : string -> string -> bool)
    (ls : list law_row) (number : option string) : list (list law_row) :=
  match number with
  | Some n =>
      if PyStr.truthy n
      then [Db.number_matches n ls;
            Db.ilike_matches ilike ("%" ++ n ++ "%")%string ls]
      else []
  | None => []
  end.

(** The store lookups of the resolution of [(url, number)], in the order
    in which the resolution makes them, each as the rows it selects. The
    resolution stops at the first lookup that raises or selects a row. *)
Definition lookups (ilike : string -> string -> bool) (ls : list law_row)
    (url number : option string) : list (list law_row) :=
  slug_lookup ls url ++ number_lookups ilike ls number.

(** The first [k] of the lookups [selected] are delivered and select no
    row, [plan] giving the outcomes of the coming store calls. *)
Fixpoint misses (k : nat) (selected : list (list law_row))
    (plan : list transport) : bool :=
  match k, selected with
  | O, _ => true
  | S k', [] :: rest => delivered (hd Delivered plan) && misses k' rest (tl plan)
  | S _, _ => false
  end.

(* ================================================================== *)
(** * Text operations of the other stages *)

(** Messages of the functions below, one constructor per template. *)
Inductive stage_msg : Type :=
| MsgExtractionFailed (e : exn)
| MsgUnknownLawType (type_str : string)
| MsgAggregatedTags (persons organizations concepts : nat)
| MsgRateLimitHit (retry_delay : Z) (attempt : nat) (max_retries : Z)
| MsgProcessingPreambleReferences (count : nat).

Definition stage_record : Type := (log_level * stage_msg)%type.

Module PyText.

(** [str.lower] on one character, for code points below 256. *)
Definition lower_char (c : ascii) : ascii :=
  let n := nat_of_ascii c in
  if ((65 <=? n) && (n <=? 90) || (192 <=? n) && (n <=? 214)
      || (216 <=? n) && (n <=? 222))%nat
  then ascii_of_nat (n + 32) else c.

(** [s.lower()] *)
Fixpoint lower (s : string) : string :=
  match s with
  | EmptyString => EmptyString
  | String c s' => String (lower_char c) (lower s')
  end.

(** [s.split()]: the maximal runs of characters that are not
    whitespace. A character that is not whitespace starts a run when it
    is the last of the text or whitespace follows it, and otherwise
    joins the run that starts after it. *)
Fixpoint split (s : string) : list string :=
  match s with
  | EmptyString => []
  | String c s' =>
      if PyStr.isspace c then split s'
      else
        match s' with
        | EmptyString => [String c EmptyString]
        | String d _ =>
            if PyStr.isspace d then String c EmptyString :: split s'
            else match split s' with
                 | w :: ws => String c w :: ws
                 | [] => [String c EmptyString]
                 end
        end
  end.

(** [sep.join(parts)] *)
Fixpoint join (sep : string) (parts : list string) : string :=
  match parts with
  | [] => EmptyString
  | [p] => p
  | p :: rest => (p ++ sep ++ join sep rest)%string
  end.

(** The class [\w] of [re] on one character, for code points below 256:
    the underscore and what [str.isalnum] accepts. *)
Definition is_word (c : ascii) : bool :=
  let n := nat_of_ascii c in
  ((48 <=? n) && (n <=? 57) || (65 <=? n) && (n <=? 90) || (n =? 95)
   || (97 <=? n) && (n <=? 122)
   || (n =? 170) || (n =? 178) || (n =? 179) || (n =? 181)
   || (n =? 185) || (n =? 186) || (188 <=? n) && (n <=? 190)
   || (192 <=? n) && (n <=? 214) || (216 <=? n) && (n <=? 246)
   || (248 <=? n) && (n <=? 255))%nat.

(** The characters of [s] that satisfy [keep]. *)
Fixpoint filter (keep : ascii -> bool) (s : string) : string :=
  match s with
  | EmptyString => EmptyString
  | String c s' =>
      if keep c then String c (filter keep s') else filter keep s'
  end.

(** Every character of [s] satisfies [p]. *)
Fixpoint all (p : ascii -> bool) (s : string) : bool :=
  match s with
  | EmptyString => true
  | String c s' => p c && all p s'
  end.

(** [s.rstrip('-')] *)
Fixpoint rstrip_hyphen (s : string) : string :=
  match s with
  | EmptyString => EmptyString
  | String c s' =>
      match rstrip_hyphen s' with
      | EmptyString =>
          if Ascii.eqb c "-" then EmptyString else String c EmptyString
      | r => String c r
      end
  end.

End PyText.

(** The accented letters of the tables, by code point. *)
Module Latin1.

Definition letter (n : nat) : string := String (ascii_of_nat n) EmptyString.

Definition a_acute : string := letter 225.
Definition a_circ : string := letter 226.
Definition a_tilde : string := letter 227.
Definition c_cedilla : string := letter 231.
Definition o_acute : string := letter 243.
Definition u_acute : string := letter 250.
Definition ordinal_o : string := letter 186.

End Latin1.

(* ================================================================== *)
(** * Law types *)

Import Latin1.

(** [d.get(k)] on a table of strings. *)
Fixpoint table_get (k : string) (d : list (string * string)) : option string :=
  match d with
  | [] => None
  | (k', v) :: d' => if String.eqb k' k then Some v else table_get k d'
  end.

(** [type_mapping] of [_map_law_type], in the order of the literal. *)
Definition type_mapping : list (string * string) :=
  [
     ("Decreto-Lei", "DECRETO_LEI");
     ("Lei", "LEI");
     ("Lei Constitucional", "LEI_CONSTITUCIONAL");
     (("Lei Org" ++ a_circ ++ "nica")%string, "LEI_ORGANICA");
     ("Decreto", "DECRETO");
     ("Decreto Legislativo Regional", "DECRETO_LEGISLATIVO_REGIONAL");
     ("Decreto Regional", "DECRETO_REGIONAL");
     ("Decreto Regulamentar", "DECRETO_REGULAMENTAR");
     ("Decreto Regulamentar Regional", "DECRETO_REGULAMENTAR_REGIONAL");
     ("Decreto do Governo", "DECRETO_GOVERNO");
     (("Decreto do Presidente da Rep" ++ u_acute ++ "blica")%string,
      "DECRETO_PR");
     (("Decreto de Aprova" ++ c_cedilla ++ a_tilde ++ "o da Constitui" ++ c_cedilla ++ a_tilde ++ "o")%string,
      "DECRETO_APROVACAO_CONSTITUICAO");
     ("Portaria", "PORTARIA");
     ("Despacho", "DESPACHO");
     ("Despacho Conjunto", "DESPACHO_CONJUNTO");
     ("Despacho Normativo", "DESPACHO_NORMATIVO");
     ("Aviso", "AVISO");
     ("Aviso do Banco de Portugal", "AVISO_BP");
     ("Edital", "EDITAL");
     (("Alvar" ++ a_acute)%string, "ALVARA");
     (("Resolu" ++ c_cedilla ++ a_tilde ++ "o")%string, "RESOLUCAO");
     (("Resolu" ++ c_cedilla ++ a_tilde ++ "o da Assembleia da Rep" ++ u_acute ++ "blica")%string,
      "RESOLUCAO_AR");
     (("Resolu" ++ c_cedilla ++ a_tilde ++ "o do Conselho de Ministros")%string,
      "RESOLUCAO_CM");
     (("Ac" ++ o_acute ++ "rd" ++ a_tilde ++ "o")%string, "ACORDAO");
     (("Ac" ++ o_acute ++ "rd" ++ a_tilde ++ "o do Tribunal Constitucional")%string,
      "ACORDAO_TC");
     (("Ac" ++ o_acute ++ "rd" ++ a_tilde ++ "o do Supremo Tribunal de Justi" ++ c_cedilla ++ "a")%string,
      "ACORDAO_STJ");
     (("Ac" ++ o_acute ++ "rd" ++ a_tilde ++ "o do Supremo Tribunal Administrativo")%string,
      "ACORDAO_STA");
     (("Ac" ++ o_acute ++ "rd" ++ a_tilde ++ "o do Tribunal de Contas")%string,
      "ACORDAO_T_CONTAS");
     (("Ac" ++ o_acute ++ "rd" ++ a_tilde ++ "o doutrin" ++ a_acute ++ "rio")%string,
      "ACORDAO_DOUTRINARIO");
     ("Assento", "ASSENTO");
     (("Constitui" ++ c_cedilla ++ a_tilde ++ "o")%string, "CONSTITUTION");
     ("Carta Constitucional", "CARTA_CONSTITUCIONAL");
     (("Revis" ++ a_tilde ++ "o Constitucional")%string,
      "CONSTITUTIONAL_REVISION");
     ("Tratado", "TRATADO");
     (("Conven" ++ c_cedilla ++ a_tilde ++ "o")%string, "CONVENCAO");
     ("Acordo", "ACORDO");
     ("Protocolo", "PROTOCOLO");
     ("Protocolo de acordo", "PROTOCOLO");
     ("Regulamento", "REGULAMENTO");
     ("Regimento", "REGIMENTO");
     (("Instru" ++ c_cedilla ++ a_tilde ++ "o")%string, "INSTRUCAO");
     ("Circular", "CIRCULAR");
     (("Delibera" ++ c_cedilla ++ a_tilde ++ "o")%string, "DELIBERACAO");
     (("Decis" ++ a_tilde ++ "o")%string, "DECISAO");
     (("Declara" ++ c_cedilla ++ a_tilde ++ "o")%string, "DECLARACAO");
     (("Declara" ++ c_cedilla ++ a_tilde ++ "o de Retifica" ++ c_cedilla ++ a_tilde ++ "o")%string,
      "DECLARACAO_RETIFICACAO");
     ("Errata", "ERRATA");
     (("Comunica" ++ c_cedilla ++ a_tilde ++ "o")%string, "COMUNICACAO");
     (("An" ++ u_acute ++ "ncio")%string, "ANUNCIO");
     (("Mo" ++ c_cedilla ++ a_tilde ++ "o")%string, "MOCAO");
     (("Mo" ++ c_cedilla ++ a_tilde ++ "o de Confian" ++ c_cedilla ++ "a")%string,
      "MOCAO_CONFIANCA");
     (("Mo" ++ c_cedilla ++ a_tilde ++ "o de Censura")%string, "MOCAO_CENSURA");
     ("Parecer", "PARECER");
     ("Programa", "PROGRAMA");
     (("Carta de Ades" ++ a_tilde ++ "o")%string, "CARTA_ADESAO");
     (("Carta de Ratifica" ++ c_cedilla ++ a_tilde ++ "o")%string,
      "CARTA_RATIFICACAO");
     ("Contrato", "CONTRATO");
     ("Aditamento", "ADITAMENTO");
     (("Altera" ++ c_cedilla ++ a_tilde ++ "o")%string, "ALTERACAO");
     ("Lista", "LISTA");
     ("Mapa", "MAPA");
     ("Mapa Oficial", "MAPA_OFICIAL");
     ("Constitution", "CONSTITUTION");
     ("Decree-Law", "DECRETO_LEI");
     ("Law", "LEI");
     ("Ordinance", "PORTARIA");
     ("Resolution", "RESOLUCAO");
     ("Regulation", "REGULAMENTO");
     ("Treaty", "TRATADO");
     ("Agreement", "ACORDO")
  ].

(** [type_mapping_pt] of [_get_law_type_pt_translation]. *)
Definition type_mapping_pt : list (string * string) :=
  [
     ("DECRETO_LEI", "Decreto-Lei");
     ("LEI", "Lei");
     ("LEI_CONSTITUCIONAL", "Lei Constitucional");
     ("LEI_ORGANICA", ("Lei Org" ++ a_circ ++ "nica")%string);
     ("DECRETO", "Decreto");
     ("DECRETO_LEGISLATIVO_REGIONAL", "Decreto Legislativo Regional");
     ("DECRETO_REGIONAL", "Decreto Regional");
     ("DECRETO_REGULAMENTAR", "Decreto Regulamentar");
     ("DECRETO_REGULAMENTAR_REGIONAL", "Decreto Regulamentar Regional");
     ("DECRETO_GOVERNO", "Decreto do Governo");
     ("DECRETO_PR",
      ("Decreto do Presidente da Rep" ++ u_acute ++ "blica")%string);
     ("DECRETO_APROVACAO_CONSTITUICAO",
      ("Decreto de Aprova" ++ c_cedilla ++ a_tilde ++ "o da Constitui" ++ c_cedilla ++ a_tilde ++ "o")%string);
     ("PORTARIA", "Portaria");
     ("DESPACHO", "Despacho");
     ("DESPACHO_CONJUNTO", "Despacho Conjunto");
     ("DESPACHO_NORMATIVO", "Despacho Normativo");
     ("AVISO", "Aviso");
     ("AVISO_BP", "Aviso do Banco de Portugal");
     ("RESOLUCAO", ("Resolu" ++ c_cedilla ++ a_tilde ++ "o")%string);
     ("RESOLUCAO_AR",
      ("Resolu" ++ c_cedilla ++ a_tilde ++ "o da Assembleia da Rep" ++ u_acute ++ "blica")%string);
     ("RESOLUCAO_CM",
      ("Resolu" ++ c_cedilla ++ a_tilde ++ "o do Conselho de Ministros")%string);
     ("ACORDAO", ("Ac" ++ o_acute ++ "rd" ++ a_tilde ++ "o")%string);
     ("REGULAMENTO", "Regulamento");
     ("TRATADO", "Tratado");
     ("ACORDO", "Acordo")
  ].

(** [' '.join(type_str.split()).strip()] *)
Definition type_str_normalized (type_str : string) : string :=
  PyStr.strip (PyText.join " " (PyText.split type_str)).

(** "Try case-insensitive match": the value of the first key, in the order
    of the table, whose lower-case form is [type_str_lower]. *)
Fixpoint first_lower_match (type_str_lower : string)
    (d : list (string * string)) : option string :=
  match d with
  | [] => None
  | (key, value) :: d' =>
      if String.eqb (PyText.lower key) type_str_lower then Some value
      else first_lower_match type_str_lower d'
  end.

(** [_map_law_type]: the type id and the records logged. *)
Definition _map_law_type (type_str : string) : string * list stage_record :=
  let normalized := type_str_normalized type_str in
  match table_get normalized type_mapping with
  | Some value => (value, [])
  | None =>
      match first_lower_match (PyText.lower normalized) type_mapping with
      | Some value => (value, [])
      | None => ("OTHER", [(WARNING, MsgUnknownLawType type_str)])
      end
  end.

(** [_get_law_type_pt_translation] *)
Definition _get_law_type_pt_translation (law_type : string) : string :=
  if existsb (String.eqb law_type) (map snd type_mapping_pt) then law_type
  else match table_get law_type type_mapping_pt with
       | Some name => name
       | None => "Lei"
       end.

(* ================================================================== *)
(** * Slugs *)

(** A character that [re.sub(r'[^\w\s-]', '', s)] keeps. *)
Definition slug_keeps (c : ascii) : bool :=
  PyText.is_word c || PyStr.isspace c || Ascii.eqb c "-".

(** A character of the class [[-\s]]. *)
Definition slug_separator (c : ascii) : bool :=
  Ascii.eqb c "-" || PyStr.isspace c.

(** [re.sub(r'[-\s]+', '-', s)]: every maximal run of separators becomes
    one hyphen, written when the last character of the run is met. *)
Fixpoint sub_separators (s : string) : string :=
  match s with
  | EmptyString => EmptyString
  | String c s' =>
      if slug_separator c then
        match s' with
        | EmptyString => "-"
        | String d _ =>
            if slug_separator d then sub_separators s'
            else String "-" (sub_separators s')
        end
      else String c (sub_separators s')
  end.

(** [_generate_slug] of V5.0; [uuid_hex] is [uuid.uuid4().hex]. *)
Definition _generate_slug (uuid_hex official_number : string) : string :=
  let slug := PyText.filter slug_keeps (PyText.lower official_number) in
  let slug := sub_separators slug in
  (slug ++ "-" ++ PyStr.take 8 uuid_hex)%string.

(** One of [a-z], [0-9], [_] and [-]. *)
Definition url_safe (c : ascii) : bool :=
  let n := nat_of_ascii c in
  ((97 <=? n) && (n <=? 122) || (48 <=? n) && (n <=? 57)
   || (n =? 95) || (n =? 45))%nat.

Definition is_ascii (c : ascii) : bool := (nat_of_ascii c <? 128)%nat.

Module V6.

(** [type_mapping] of V6.0. *)
Definition type_mapping : list (string * string) :=
  [("Decreto-Lei", "DECRETO_LEI");
   ("Lei", "LEI");
   ("Lei Constitucional", "LEI_CONSTITUCIONAL");
   (("Lei Org" ++ a_circ ++ "nica")%string, "LEI_ORGANICA");
   ("Decreto", "DECRETO");
   ("Portaria", "PORTARIA");
   (("Resolu" ++ c_cedilla ++ a_tilde ++ "o")%string, "RESOLUCAO")].

(** [_map_law_type] of V6.0 *)
Definition _map_law_type (type_str : string) : string :=
  match table_get type_str type_mapping with
  | Some value => value
  | None => "OTHER"
  end.

(** [type_mapping_pt] of V6.0. *)
Definition type_mapping_pt : list (string * string) :=
  [("DECRETO_LEI", "Decreto-Lei");
   ("LEI", "Lei");
   ("LEI_CONSTITUCIONAL", "Lei Constitucional");
   ("LEI_ORGANICA", ("Lei Org" ++ a_circ ++ "nica")%string);
   ("DECRETO", "Decreto");
   ("PORTARIA", "Portaria");
   ("RESOLUCAO", ("Resolu" ++ c_cedilla ++ a_tilde ++ "o")%string)].

(** [_get_law_type_pt_translation] of V6.0 *)
Definition _get_law_type_pt_translation (law_type : string) : string :=
  if existsb (String.eqb law_type) (map snd type_mapping_pt) then law_type
  else match table_get law_type type_mapping_pt with
       | Some name => name
       | None => "Lei"
       end.

Section Slug.

(** [unicodedata.normalize('NFKD', s).encode('ascii', 'ignore')
    .decode('ascii')] *)
Variable nfkd_ascii : string -> string.

(** [_generate_slug] of V6.0 *)
Definition _generate_slug (official_title : string) : string :=
  let ascii_text := nfkd_ascii official_title in
  let slug := PyText.filter slug_keeps (PyText.lower ascii_text) in
  let slug := sub_separators slug in
  PyText.rstrip_hyphen (PyStr.take 150 slug).

End Slug.

End V6.

(** The restriction of the NFKD transliteration to ASCII text, which it
    leaves as it is; other characters are dropped here. *)
Definition ascii_only (s : string) : string := PyText.filter is_ascii s.

(** The type id read off the lower-case form alone. *)
Definition type_of_lower (type_str_lower : string) : string :=
  match first_lower_match type_str_lower type_mapping with
  | Some value => value
  | None => "OTHER"
  end.

(** Case analysis on the 256 characters. *)
Ltac each_char c := destruct c as [[] [] [] [] [] [] [] []].

(* ================================================================== *)
(** * Stage 1: metadata, preamble and articles *)

(** The regular expressions of [_extract_metadata], each written as the
    matcher it denotes: a part of a pattern takes the matcher [k] of what
    follows it and the text, and tries its own ways of matching in the
    order of [re], most greedy first. *)
Module MetaRe.

(** Two characters that differ at most in case ([re.IGNORECASE]). *)
Definition same_letter (a c : ascii) : bool :=
  Ascii.eqb (PyText.lower_char c) (PyText.lower_char a).

(** A literal, ignoring case. *)
Fixpoint lit {A : Type} (l : string) (k : string -> option A) (s : string)
  : option A :=
  match l with
  | EmptyString => k s
  | String a l' =>
      match s with
      | String c s' => if same_letter a c then lit l' k s' else None
      | EmptyString => None
      end
  end.

(** [\s*] *)
Fixpoint spaces {A : Type} (k : string -> option A) (s : string)
  : option A :=
  match s with
  | String c s' =>
      if PyStr.isspace c
      then match spaces k s' with
           | Some r => Some r
           | None => k s
           end
      else k s
  | EmptyString => k s
  end.

(** [\s+] *)
Definition spaces1 {A : Type} (k : string -> option A) (s : string)
  : option A :=
  match s with
  | String c s' => if PyStr.isspace c then spaces k s' else None
  | EmptyString => None
  end.

(** [(\d{1,2})]: two digits are tried before one. *)
Definition digits_1_2 {A : Type} (k : string -> string -> option A)
    (s : string) : option A :=
  match s with
  | String a r1 =>
      if PyStr.is_digit a then
        match r1 with
        | String b r2 =>
            if PyStr.is_digit b
            then match k (String a (String b EmptyString)) r2 with
                 | Some r => Some r
                 | None => k (String a EmptyString) r1
                 end
            else k (String a EmptyString) r1
        | EmptyString => k (String a EmptyString) r1
        end
      else None
  | EmptyString => None
  end.

(** [(\d{4})] *)
Definition digits_4 {A : Type} (k : string -> string -> option A)
    (s : string) : option A :=
  match s with
  | String a (String b (String c (String d r))) =>
      if PyStr.is_digit a && PyStr.is_digit b && PyStr.is_digit c
         && PyStr.is_digit d
      then k (String a (String b (String c (String d EmptyString)))) r
      else None
  | _ => None
  end.

(** [(a1|a2|...)], ignoring case: the alternatives in their order; the
    group is the text matched. *)
Fixpoint alternatives {A : Type} (alts : list string)
    (k : string -> string -> option A) (s : string) : option A :=
  match alts with
  | [] => None
  | a :: rest =>
      match lit a (k (PyStr.take (String.length a) s)) s with
      | Some r => Some r
      | None => alternatives rest k s
      end
  end.

(** [re.search]: the match at the leftmost position that has one. *)
Fixpoint search {A : Type} (at_start : string -> option A) (s : string)
  : option A :=
  match at_start s with
  | Some r => Some r
  | None =>
      match s with
      | String _ s' => search at_start s'
      | EmptyString => None
      end
  end.

Definition month_names : list string :=
  ["janeiro"; "fevereiro"; ("mar" ++ c_cedilla ++ "o")%string; "abril";
   "maio"; "junho"; "julho"; "agosto"; "setembro"; "outubro"; "novembro";
   "dezembro"].

(** [date_pattern] at one position; the groups 1, 2 and 3. *)
Definition date_at : string -> option (string * string * string) :=
  lit "de" (spaces1 (digits_1_2 (fun day =>
    spaces1 (lit "de" (spaces1 (alternatives month_names (fun month =>
      spaces1 (lit "de" (spaces1 (digits_4 (fun year _ =>
        Some (day, month, year)))))))))))).

Definition line_feed : ascii := "010".

(** The text before the first line feed. *)
Fixpoint first_line (s : string) : string :=
  match s with
  | EmptyString => EmptyString
  | String c s' =>
      if Ascii.eqb c line_feed then EmptyString
      else String c (first_line s')
  end.

(** [re.search(r'^(.+?)(?=\n|$)', s)] and [group(1)]: the first line,
    when it is not empty. *)
Definition title_line (s : string) : option string :=
  match s with
  | EmptyString => None
  | String c _ =>
      if Ascii.eqb c line_feed then None else Some (first_line s)
  end.

End MetaRe.

(** [months] of [_extract_metadata]. *)
Definition months : list (string * Z) :=
  [("janeiro", 1);
   ("fevereiro", 2);
   (("mar" ++ c_cedilla ++ "o")%string, 3);
   ("abril", 4);
   ("maio", 5);
   ("junho", 6);
   ("julho", 7);
   ("agosto", 8);
   ("setembro", 9);
   ("outubro", 10);
   ("novembro", 11);
   ("dezembro", 12)].

(** [months.get(k, 1)] *)
Fixpoint months_get (k : string) (d : list (string * Z)) : Z :=
  match d with
  | [] => 1
  | (k', v) :: d' => if String.eqb k' k then v else months_get k d'
  end.

(** The dictionary that [_extract_metadata] returns; [None] is a key that
    was not set. *)
Record Metadata : Type := mkMetadata {
  md_type : option string;
  md_official_number : option string;
  md_enactment_date : option string;
  md_official_title : option string
}.

(** "Extract date" *)
Definition extract_enactment_date (text : string) : option string :=
  match MetaRe.search MetaRe.date_at text with
  | Some (g1, g2, g3) =>
      let day := Re.int_of_digits g1 in
      let month := months_get (PyText.lower g2) months in
      let year := Re.int_of_digits g3 in
      Some (PyDate.fmt4 year ++ "-" ++ PyDate.fmt2 month ++ "-"
            ++ PyDate.fmt2 day)%string
  | None => None
  end.

(** "Extract title" *)
Definition extract_official_title (text : string) : option string :=
  option_map PyStr.strip (MetaRe.title_line (PyStr.strip text)).

Section Metadata.

(** [re.search(type_pattern, text, re.IGNORECASE)] and its groups 1
    and 2. *)
Variable search_type : string -> option (string * string).

Definition _extract_metadata (text : string) : Metadata :=
  mkMetadata
    (option_map (fun g => PyStr.strip (fst g)) (search_type text))
    (option_map (fun g => PyStr.strip (snd g)) (search_type text))
    (extract_enactment_date text)
    (extract_official_title text).

End Metadata.

(** The literal returned by the [except] branch of
    [_extract_preamble_and_articles]. *)
Definition FALLBACK_EXTRACTION : json :=
  JObj [("preamble_text", JStr EmptyString); ("articles", JArr [])].

(** "Validate structure" of [_extract_preamble_and_articles]. *)
Definition normalize_extraction (extracted : json) : result json :=
  (extracted <- Py.fill_missing "preamble_text" (JStr EmptyString) extracted ;;
   extracted <- Py.fill_missing "articles" (JArr []) extracted ;;
   Ok extracted)%result.

(** The bound of [full_text[:8000]]. *)
Definition DOCUMENT_LIMIT : nat := Z.to_nat 8000.

Section Stage1.

Variable generate_content : string -> result string.
Variable json_loads : string -> option json.
(** The text of the prompt template before and after the document. *)
Variables extraction_head extraction_tail : string.

Definition extraction_prompt (full_text : string) : string :=
  (extraction_head ++ PyStr.take DOCUMENT_LIMIT full_text
   ++ extraction_tail)%string.

(** The body of the [try] block of [_extract_preamble_and_articles]. *)
Definition extract_try (full_text : string) : result json :=
  (text <- generate_content (extraction_prompt full_text) ;;
   let extraction_text := clean_response (PyStr.strip text) in
   extracted <- loads json_loads extraction_text ;;
   normalize_extraction extracted)%result.

Definition _extract_preamble_and_articles (full_text : string)
  : json * list stage_record :=
  match extract_try full_text with
  | Ok extracted => (extracted, [])
  | Raise e => (FALLBACK_EXTRACTION, [(ERROR, MsgExtractionFailed e)])
  end.

End Stage1.

(** The keys [normalize_extraction] adds to an object [d] that lacks
    them. *)
Definition missing_defaults_extraction (d : Dict.t) : Dict.t :=
  (if Dict.contains "preamble_text" d
   then [] else [("preamble_text", JStr EmptyString)])
  ++ (if Dict.contains "articles" d then [] else [("articles", JArr [])]).

(** The keys [normalize_v6] adds to an object [d] that lacks them. *)
Definition missing_defaults_v6 (d : Dict.t) : Dict.t :=
  (if Dict.contains "tags" d then [] else [("tags", empty_tags)])
  ++ (if Dict.contains "cross_references" d
      then [] else [("cross_references", JArr [])])
  ++ (if Dict.contains "informal_summary_title" d
      then [] else [("informal_summary_title", JStr EmptyString)])
  ++ (if Dict.contains "informal_summary" d
      then [] else [("informal_summary", JStr EmptyString)]).

(** A JSON value that is not an object. *)
Definition not_object (v : json) : bool :=
  match v with JObj _ => false | _ => true end.

(** [k in v] for a string or an array [v]; [false] for the values on
    which the test raises. *)
Definition holds_key (k : string) (v : json) : bool :=
  match Py.contains k v with
  | Ok b => b
  | Raise _ => false
  end.

(** A text of [n] letters [x]. *)
Fixpoint filler (n : nat) : string :=
  match n with
  | O => EmptyString
  | S n' => String "x" (filler n')
  end.

(* ================================================================== *)
(** * Stage 3: aggregation of the tags of a law *)

Module PyVal.

(** [bool(v)]; the zeros of [float] are written [0.0] and [-0.0]. *)
Definition truthy (v : json) : bool :=
  match v with
  | JNull => false
  | JBool b => b
  | JInt z => negb (z =? 0)
  | JFloat r => negb (String.eqb r "0.0" || String.eqb r "-0.0")
  | JStr s => PyStr.truthy s
  | JArr [] => false
  | JArr (_ :: _) => true
  | JObj [] => false
  | JObj (_ :: _) => true
  end.

(** [hash(v)] does not raise: [list] and [dict] are not hashable. *)
Definition hashable (v : json) : bool :=
  match v with
  | JArr _ | JObj _ => false
  | _ => true
  end.

End PyVal.

Definition CATEGORIES : list string := ["person"; "organization"; "concept"].

(** [aggregated_tags]: the list of each category. The sets of
    [unique_tags] hold the elements of these lists at every moment, so
    membership in a set is membership in the list. *)
Definition tag_lists : Type := string -> list json.

Definition no_tags : tag_lists := fun _ => [].

Definition set_tags (category : string) (l : list json) (agg : tag_lists)
  : tag_lists :=
  fun c => if String.eqb c category then l else agg c.

(** The dictionary written to the law. *)
Definition tags_json (agg : tag_lists) : json :=
  JObj [("person", JArr (agg "person"));
        ("organization", JArr (agg "organization"));
        ("concept", JArr (agg "concept"))].

(** [article.get('tags')] when it is true and a [dict]. *)
Definition article_tags (article : Dict.t) : option Dict.t :=
  match Dict.get "tags" article with
  | Some tags =>
      if PyVal.truthy tags
      then match tags with JObj d => Some d | _ => None end
      else None
  | None => None
  end.

(** [tags[category]] when the key is present and the value is a [list]. *)
Definition category_list (category : string) (tags : Dict.t)
  : option (list json) :=
  match Dict.get category tags with
  | Some (JArr l) => Some l
  | _ => None
  end.

Section Aggregate.

(** [a == b] on hashable values, [a] an element of the set and [b] the
    tag looked up. *)
Variable py_eqb : json -> json -> bool.

(** [if tag and tag not in unique_tags[category]: ...] *)
Definition add_tag (seen : list json) (tag : json) : result (list json) :=
  if PyVal.truthy tag then
    if PyVal.hashable tag then
      if existsb (fun x => py_eqb x tag) seen then Ok seen
      else Ok (seen ++ [tag])
    else Raise TypeError
  else Ok seen.

(** [for tag in tags[category]: ...] *)
Fixpoint add_tags (seen : list json) (tags : list json)
  : result (list json) :=
  match tags with
  | [] => Ok seen
  | tag :: rest =>
      match add_tag seen tag with
      | Ok seen' => add_tags seen' rest
      | Raise e => Raise e
      end
  end.

(** The body of [for category in ['person', 'organization', 'concept']]. *)
Definition add_category (tags : Dict.t) (acc : result tag_lists)
    (category : string) : result tag_lists :=
  match acc with
  | Raise e => Raise e
  | Ok agg =>
      match category_list category tags with
      | Some l =>
          match add_tags (agg category) l with
          | Ok l' => Ok (set_tags category l' agg)
          | Raise e => Raise e
          end
      | None => Ok agg
      end
  end.

(** The body of [for article in articles_response.data]. *)
Definition add_article (acc : result tag_lists) (article : Dict.t)
  : result tag_lists :=
  match acc with
  | Raise e => Raise e
  | Ok agg =>
      match article_tags article with
      | Some tags => fold_left (add_category tags) CATEGORIES (Ok agg)
      | None => Ok agg
      end
  end.

(** The loop of [_aggregate_tags_v50] over the rows selected. *)
Definition aggregate_tags (articles : list Dict.t) : result tag_lists :=
  fold_left add_article articles (Ok no_tags).

(** The state of the data store, and the two calls made on it. *)
Variable DB : Type.
(** [table('law_articles').select('tags').eq('law_id', law_id)] *)
Variable select_tags : string -> DB -> result (list Dict.t) * DB.
(** [table('laws').update({'tags': tags}).eq('id', law_id)] *)
Variable update_tags : string -> json -> DB -> result unit * DB.

(** [_aggregate_tags_v50]: the records logged, or the exception. *)
Definition _aggregate_tags_v50 (law_id : string) (db : DB)
  : result (list stage_record) * DB :=
  match select_tags law_id db with
  | (Raise e, db1) => (Raise e, db1)
  | (Ok articles, db1) =>
      match aggregate_tags articles with
      | Raise e => (Raise e, db1)
      | Ok agg =>
          match update_tags law_id (tags_json agg) db1 with
          | (Raise e, db2) => (Raise e, db2)
          | (Ok _, db2) =>
              (Ok [(INFO, MsgAggregatedTags
                            (List.length (agg "person"))
                            (List.length (agg "organization"))
                            (List.length (agg "concept")))],
               db2)
          end
      end
  end.

End Aggregate.

(** The tags of a category in the order the loop meets them: article by
    article, and in each article the list of the category. *)
Definition category_tags (category : string) (articles : list Dict.t)
  : list json :=
  flat_map (fun article =>
              match article_tags article with
              | Some tags =>
                  match category_list category tags with
                  | Some l => l
                  | None => []
                  end
              | None => []
              end) articles.

(** [==] on strings, integers, booleans and [None], where [True == 1] and
    [False == 0]; two floats are compared by their text here. *)
Definition scalar_eqb (a b : json) : bool :=
  match a, b with
  | JStr x, JStr y => String.eqb x y
  | JInt x, JInt y => x =? y
  | JBool x, JBool y => Bool.eqb x y
  | JBool x, JInt y | JInt y, JBool x => y =? (if x then 1 else 0)
  | JNull, JNull => true
  | JFloat x, JFloat y => String.eqb x y
  | _, _ => false
  end.

(** A store of tag rows by law, for the worked examples. *)
Definition tag_rows : Type := list (string * list Dict.t).

Definition rows_of (law_id : string) (db : tag_rows) : list Dict.t :=
  flat_map (fun r => if String.eqb (fst r) law_id then snd r else []) db.

Module ExTags.

Definition article_a : Dict.t :=
  [("tags", JObj [("person", JArr [JStr "Ana"; JStr EmptyString]);
                  ("concept", JArr [JStr "imposto"; JStr "Ana"])])].

Definition article_b : Dict.t :=
  [("tags", JObj [("person", JArr [JStr "Rui"; JStr "Ana"; JNull]);
                  ("organization", JStr "AT");
                  ("concept", JArr [JStr "imposto"])])].

(** An article with a tag that is a list. *)
Definition article_bad : Dict.t :=
  [("tags", JObj [("person", JArr [JArr [JStr "Ana"]])])].

End ExTags.

(* ================================================================== *)
(** * V6.0: the retry wrapper of the map phase *)

Module RetryRe.

(** A literal. *)
Fixpoint lit {A : Type} (l : string) (k : string -> option A) (s : string)
  : option A :=
  match l with
  | EmptyString => k s
  | String a l' =>
      match s with
      | String c s' => if Ascii.eqb c a then lit l' k s' else None
      | EmptyString => None
      end
  end.

(** [(\d+)] at the end of a pattern: the longest run of digits. *)
Definition digits (s : string) : option string :=
  match Re.take_digits s with
  | EmptyString => None
  | g => Some g
  end.

(** [re.search(r'seconds:\s*(\d+)', s)] and [group(1)] *)
Definition search_seconds (s : string) : option string :=
  MetaRe.search (lit "seconds:" (MetaRe.spaces digits)) s.

End RetryRe.

(** How a call of the wrapper ends. *)
Inductive retry_result (A : Type) : Type :=
| Returned (a : A)
| Reraised (e : exn)
| MaxRetriesExceeded.
Arguments Returned {A} a.
Arguments Reraised {A} e.
Arguments MaxRetriesExceeded {A}.

(** "Extract retry delay from error if available" *)
Definition retry_delay_of (error_str : string) : Z :=
  if PyStr.contains "retry_delay" error_str
     || PyStr.contains "seconds:" error_str
  then match RetryRe.search_seconds error_str with
       | Some g => Re.int_of_digits g
       | None => 10
       end
  else 10.

Section Retry.

Variable A : Type.
(** [str(e)] *)
Variable exn_text : exn -> string.
(** The wrapped call as made at the attempt of each index. *)
Variable callee : nat -> result A.
Variable max_retries : Z.

(** The iterations of [for attempt in range(max_retries)] from
    [attempt] on, [todo] of them being left: how the call ends, the
    arguments of [time.sleep] and the records logged. *)
Fixpoint attempts (todo attempt : nat)
  : retry_result A * list Z * list stage_record :=
  match todo with
  | O => (MaxRetriesExceeded, [], [])
  | S todo' =>
      match callee attempt with
      | Ok a => (Returned a, [], [])
      | Raise e =>
          let error_str := exn_text e in
          if PyStr.contains "429" error_str
             && (Z.of_nat attempt <? max_retries - 1)
          then
            let retry_delay := retry_delay_of error_str in
            let '(r, slept, logged) := attempts todo' (S attempt) in
            (r, retry_delay :: slept,
             (WARNING, MsgRateLimitHit retry_delay (attempt + 1) max_retries)
               :: logged)
          else (Reraised e, [], [])
      end
  end.

Definition with_retry : retry_result A * list Z * list stage_record :=
  attempts (Z.to_nat max_retries) 0.

End Retry.

Section MapPhaseRetry.

Variable exn_text : exn -> string.
(** The generative model at its call of each index. *)
Variable backend : nat -> string -> result string.
Variable json_loads : string -> option json.
Variables prompt_head prompt_tail : string.

(** [_analyze_content_v6_map_with_retry]; the wrapped function returns
    its value together with its log records. *)
Definition _analyze_content_v6_map_with_retry
    (content content_type : string) (article_number : option string)
    (max_retries : Z)
  : retry_result (json * list log_record) * list Z * list stage_record :=
  with_retry (json * list log_record) exn_text
    (fun attempt =>
       Ok (_analyze_content_v6_map (backend attempt) json_loads
                                   prompt_head prompt_tail
                                   content content_type article_number))
    max_retries.

End MapPhaseRetry.

(** A backend that is rate-limited at its first call and answers from the
    second call on. *)
Definition limited_once (text : string) (call : nat) : string -> result string :=
  match call with
  | O => unreachable
  | S _ => answers text
  end.

(** An error text for the worked examples. *)
Definition error_text (e : exn) : string :=
  match e with
  | BackendError => "429 quota exceeded, retry_delay { seconds: 7 }"
  | _ => "error"
  end.

(* ================================================================== *)
(** * Vocabulary: what a run of the linker does to the store *)

(** The counters [n'] against the rows added since the counters were
    [n], [links] rows in [law_relationships] and [refs] rows in
    [law_article_references]. A counter grows by one when an insert
    returns, so by no more than the rows added to its table; a row that
    no counter counts was added by an insert whose reply was lost, and
    these rows are at most [lost]. *)
Definition counted (n n' : LinkStats) (links refs : nat) (lost : Z) : Prop :=
  law_relationships_count n <= law_relationships_count n'
  /\ law_relationships_count n' <= law_relationships_count n + Z.of_nat links
  /\ article_references_count n <= article_references_count n'
  /\ article_references_count n'
     <= article_references_count n + Z.of_nat refs
  /\ (law_relationships_count n + Z.of_nat links
      - law_relationships_count n')
     + (article_references_count n + Z.of_nat refs
        - article_references_count n')
     <= lost.

(** From the store [st] and the counters [n] to the store [st'] and the
    counters [n']: the laws are the same; the articles are the same rows
    in the same order, each with its id, law and ordinal, a row that is
    ACTIVE being as it was; each link table has grown at its end, by rows
    that satisfy [P] and [Q]; and the counters count the rows added, up
    to the replies lost between [st] and [st']. *)
Definition linker_effect
    (P : relationship_row -> Prop) (Q : reference_row -> Prop)
    (st : Store) (n : LinkStats) (st' : Store) (n' : LinkStats) : Prop :=
  laws st' = laws st
  /\ Forall2 article_later (law_articles st) (law_articles st')
  /\ exists links refs,
       law_relationships st' = law_relationships st ++ links
       /\ Forall P links
       /\ law_article_references st' = law_article_references st ++ refs
       /\ Forall Q refs
       /\ counted n n' (List.length links) (List.length refs)
                  (lost_replies st - lost_replies st').

(** A law-to-law link from [source_law] whose kind is the upper-case
    form of the kind of one of the references. *)
Definition link_of
    (str_upper : string -> string) (source_law : string)
    (refs : list CrossReference) (r : relationship_row) : Prop :=
  source_law_id r = source_law
  /\ exists ref, In ref refs
                 /\ relationship_type r = str_upper (relationship_of ref).

(** The same for an article-to-article link from [source_article]. *)
Definition reference_of
    (str_upper : string -> string) (source_article : string)
    (refs : list CrossReference) (r : reference_row) : Prop :=
  source_article_id r = source_article
  /\ exists ref, In ref refs
                 /\ reference_type r = str_upper (relationship_of ref).

(* ================================================================== *)
(** * V6.0: the linker *)

Module V6Linker.

(** One constructor per message template of the V6.0 linker. *)
Inductive msg : Type :=
| MsgLawRelationshipExists (e : exn)
| MsgLawRelationshipExistsOrFailed (e : exn)
| MsgArticleReferenceExists (e : exn)
| MsgErrorFindingTargetLaw (e : exn)
| MsgErrorFindingTargetArticle (e : exn)
| MsgUpdatedArticle (target_article_id new_status : string)
| MsgFailedToUpdateArticleStatus (e : exn).

(** The store together with what has been logged, oldest record first. *)
Record State : Type := mkState {
  db : Store;
  logged : list (log_level * msg)
}.

Definition note (lvl : log_level) (m : msg) (s : State) : State :=
  mkState (db s) (logged s ++ [(lvl, m)]).

Definition with_db (st : Store) (s : State) : State :=
  mkState st (logged s).

(** The lookup by number of [_find_target_law]: exact match only. *)
Definition find_by_number (number : option string) (st : Store)
  : result (option law_row) * Store :=
  match number with
  | Some n =>
      if PyStr.truthy n then
        match Db.laws_eq_official_number n st with
        | (Raise e, st1) => (Raise e, st1)
        | (Ok (l :: _), st1) => (Ok (Some l), st1)
        | (Ok [], st1) => (Ok None, st1)
        end
      else (Ok None, st)
  | None => (Ok None, st)
  end.

(** The body of the [try] block of [_find_target_law]. *)
Definition find_target_law_try (url number : option string) (st : Store)
  : result (option law_row) * Store :=
  match url with
  | Some u =>
      if PyStr.truthy u then
        match Re.url_slug u with
        | Some slug =>
            match Db.laws_eq_slug slug st with
            | (Raise e, st1) => (Raise e, st1)
            | (Ok (l :: _), st1) => (Ok (Some l), st1)
            | (Ok [], st1) => find_by_number number st1
            end
        | None => find_by_number number st
        end
      else find_by_number number st
  | None => find_by_number number st
  end.

Definition _find_target_law (url number : option string) (s : State)
  : option law_row * State :=
  match find_target_law_try url number (db s) with
  | (Ok r, st) => (r, with_db st s)
  | (Raise e, st) =>
      (None, note DEBUG (MsgErrorFindingTargetLaw e) (with_db st s))
  end.

Definition _find_target_article
    (target_law_id article_number : string) (s : State)
  : option string * State :=
  match Re.search_digits article_number with
  | None => (None, s)
  | Some digits =>
      let article_order := Re.int_of_digits digits in
      match Db.articles_eq target_law_id article_order "ACTIVE" (db s) with
      | (Ok (a :: _), st) => (Some (article_id a), with_db st s)
      | (Ok [], st) => (None, with_db st s)
      | (Raise e, st) =>
          (None, note DEBUG (MsgErrorFindingTargetArticle e) (with_db st s))
      end
  end.

Section Linker.

Variable str_upper : string -> string.
(** [datetime.fromisoformat(s).date()] on a text that is not of the
    form [YYYY-MM-DD]. *)
Variable fromisoformat_other : string -> result PyDate.date.

Definition _update_target_article_status
    (target_article_id relationship source_enactment_date : string)
    (s : State) : State :=
  match new_status_of relationship with
  | None => s
  | Some new_status =>
      match valid_to_of fromisoformat_other source_enactment_date with
      | Raise e => note WARNING (MsgFailedToUpdateArticleStatus e) s
      | Ok valid_to =>
          match Db.articles_update target_article_id new_status valid_to
                                   (db s) with
          | (Ok _, st) =>
              note INFO (MsgUpdatedArticle target_article_id new_status)
                   (with_db st s)
          | (Raise e, st) =>
              note WARNING (MsgFailedToUpdateArticleStatus e) (with_db st s)
          end
      end
  end.

(** "Create law-to-law relationship" *)
Definition link_law (source_law_id relationship target_law_id : string)
    (s : State * LinkStats) : State * LinkStats :=
  let '(w, n) := s in
  match Db.insert_relationship
          (mkRelationship source_law_id target_law_id
                          (str_upper relationship)) (db w) with
  | (Ok _, st) =>
      (with_db st w,
       mkStats (law_relationships_count n + 1)
               (article_references_count n))
  | (Raise e, st) =>
      (note DEBUG (MsgLawRelationshipExists e) (with_db st w), n)
  end.

(** "Create article-to-article relationship", for a resolved target
    article. *)
Definition link_article
    (source_article_id : string) (source_enactment_date : option string)
    (relationship target_article_id : string)
    (s : State * LinkStats) : State * LinkStats :=
  let '(w, n) := s in
  match Db.insert_reference
          (mkReference source_article_id target_article_id
                       (str_upper relationship)) (db w) with
  | (Ok _, st) =>
      let w1 := with_db st w in
      let n1 := mkStats (law_relationships_count n)
                        (article_references_count n + 1) in
      match source_enactment_date with
      | Some d =>
          if is_amends_or_revokes relationship && PyStr.truthy d
          then (_update_target_article_status
                  target_article_id relationship d w1, n1)
          else (w1, n1)
      | None => (w1, n1)
      end
  | (Raise e, st) =>
      (note DEBUG (MsgArticleReferenceExists e) (with_db st w), n)
  end.

(** The body of the loop of [_process_and_link_references]. *)
Definition link_reference
    (source_article_id source_law_id : string)
    (source_enactment_date : option string)
    (s : State * LinkStats) (ref : CrossReference) : State * LinkStats :=
  let rel := relationship_of ref in
  if is_internal ref then s
  else
    let '(target_law, w1) :=
      _find_target_law (url ref) (number ref) (fst s) in
    match target_law with
    | None => (w1, snd s)
    | Some target =>
        let s2 := link_law source_law_id rel (law_id target) (w1, snd s) in
        match article_number ref with
        | Some art =>
            if PyStr.truthy art then
              let '(target_article, w3) :=
                _find_target_article (law_id target) art (fst s2) in
              match target_article with
              | Some id =>
                  if PyStr.truthy id
                  then link_article source_article_id
                                    source_enactment_date rel id
                                    (w3, snd s2)
                  else (w3, snd s2)
              | None => (w3, snd s2)
              end
            else s2
        | None => s2
        end
    end.

Definition _process_and_link_references
    (source_article_id source_law_id : string)
    (source_enactment_date : option string)
    (cross_references : list CrossReference) (s : State)
  : State * LinkStats :=
  fold_left (link_reference source_article_id source_law_id
                            source_enactment_date)
            cross_references (s, mkStats 0 0).

(** The body of the loop of [_process_preamble_references]. *)
Definition link_preamble_reference (source_law_id : string)
    (s : State * Z) (ref : CrossReference) : State * Z :=
  if is_internal ref then s
  else
    let '(target_law, w1) :=
      _find_target_law (url ref) (number ref) (fst s) in
    match target_law with
    | None => (w1, snd s)
    | Some target =>
        match Db.insert_relationship
                (mkRelationship source_law_id (law_id target)
                                (str_upper (relationship_of ref)))
                (db w1) with
        | (Ok _, st) => (with_db st w1, snd s + 1)
        | (Raise e, st) =>
            (note DEBUG (MsgLawRelationshipExistsOrFailed e)
                  (with_db st w1), snd s)
        end
    end.

Definition _process_preamble_references
    (source_law_id : string) (source_enactment_date : option string)
    (cross_references : list CrossReference) (s : State) : State * Z :=
  fold_left (link_preamble_reference source_law_id)
            cross_references (s, 0).

End Linker.

(** The resolution of V6.0 on the laws [ls]: the URL's last segment
    against the slugs, then the number, exactly. *)
Definition resolve (ls : list law_row) (url number : option string)
  : option law_row :=
  match resolve_by_url ls url with
  | Some l => Some l
  | None =>
      match number with
      | Some n => if PyStr.truthy n
                  then hd_error (Db.number_matches n ls) else None
      | None => None
      end
  end.

End V6Linker.

(* ================================================================== *)
(** * Stage 3: the articles of a law and their relationships *)

(** The exceptions that leave [_process_articles_with_relationships_v50]. *)
Inductive stage3_exn : Type :=
| KeyError (key : string)
| IndexError
| AttributeError
| StoreError (e : exn).

(** One element of [analysis_results] as the analyst phase stores it, with
    the keys this stage reads. [item_cross_references] is
    [analysis.get('cross_references', [])] with references typed as for
    the linker; [None] is an analysis that is not an object, on which
    [get] raises [AttributeError]. *)
Record AnalysisItem : Type := mkItem {
  item_content_type : string;
  item_article_order : Z;
  item_cross_references : option (list CrossReference)
}.

(** The official text found for an article. *)
Inductive official_text : Type :=
| Text (text : string)
| TextNotFound (article_order : Z).

(** "Get official text". [articles] holds, for each extracted article,
    its ['official_text'] or [None] when it has no such key; a negative
    index counts from the end, as list indexing does. *)
Definition official_text_of (articles : list (option string))
    (article_order : Z) : official_text + stage3_exn :=
  let i := article_order - 1 in
  let len := Z.of_nat (List.length articles) in
  if i <? len then
    let j := if 0 <=? i then i else i + len in
    if 0 <=? j then
      match nth_error articles (Z.to_nat j) with
      | Some (Some text) => inl (Text text)
      | Some None => inr (KeyError "official_text")
      | None => inr IndexError
      end
    else inr IndexError
  else inl (TextNotFound article_order).

(** [table('law_articles').insert(row)] *)
Definition insert_law_article (row : article_row)
  : Store -> result unit * Store :=
  Db.call (fun st =>
             (Ok tt,
              mkStore (laws st) (law_articles st ++ [row])
                      (law_relationships st) (law_article_references st)
                      (faults st))).

(** The state of a call: the world, the number of UUIDs drawn, the two
    counters, the records the function logs itself, and the exception
    that has ended the call, if any. *)
Record Stage3 : Type := mkStage3 {
  s3_world : World;
  s3_drawn : nat;
  s3_counts : LinkStats;
  s3_log : list stage_record;
  s3_raised : option stage3_exn
}.

Definition raise3 (e : stage3_exn) (s : Stage3) : Stage3 :=
  mkStage3 (s3_world s) (s3_drawn s) (s3_counts s) (s3_log s) (Some e).

Section Stage3.

Variable str_upper : string -> string.
Variable ilike : string -> string -> bool.
Variable fromisoformat_other : string -> result PyDate.date.
(** [str(uuid.uuid4())] at its call of each index. *)
Variable uuid4 : nat -> string.

Variable law_id : string.
Variable law_enactment_date : option string.
Variable articles : list (option string).

(** The body of the first loop over [analysis_results]. *)
Definition process_article (s : Stage3) (item : AnalysisItem) : Stage3 :=
  match s3_raised s with
  | Some _ => s
  | None =>
      if negb (String.eqb (item_content_type item) "article") then s
      else
        match official_text_of articles (item_article_order item) with
        | inr e => raise3 e s
        | inl _ =>
            let article_id := uuid4 (s3_drawn s) in
            let drawn := S (s3_drawn s) in
            match item_cross_references item with
            | None =>
                mkStage3 (s3_world s) drawn (s3_counts s) (s3_log s)
                         (Some AttributeError)
            | Some cross_references =>
                match insert_law_article
                        (mkArticle article_id law_id
                                   (item_article_order item) "ACTIVE" None)
                        (store (s3_world s)) with
                | (Raise e, st) =>
                    mkStage3 (with_store st (s3_world s)) drawn
                             (s3_counts s) (s3_log s) (Some (StoreError e))
                | (Ok _, st) =>
                    let '(w, stats) :=
                      _process_and_link_references
                        str_upper ilike fromisoformat_other article_id
                        law_id law_enactment_date
                        cross_references (with_store st (s3_world s)) in
                    mkStage3 w drawn
                      (mkStats (law_relationships_count (s3_counts s)
                                + law_relationships_count stats)
                               (article_references_count (s3_counts s)
                                + article_references_count stats))
                      (s3_log s) None
                end
            end
        end
  end.

(** The body of the second loop over [analysis_results]. *)
Definition process_preamble (s : Stage3) (item : AnalysisItem) : Stage3 :=
  match s3_raised s with
  | Some _ => s
  | None =>
      if String.eqb (item_content_type item) "preamble" then
        match item_cross_references item with
        | None => raise3 AttributeError s
        | Some [] => s
        | Some cross_refs =>
            let '(w, count) :=
              _process_preamble_references
                str_upper ilike law_id law_enactment_date cross_refs
                (s3_world s) in
            mkStage3 w (s3_drawn s)
              (mkStats (law_relationships_count (s3_counts s) + count)
                       (article_references_count (s3_counts s)))
              (s3_log s
               ++ [(INFO, MsgProcessingPreambleReferences
                            (List.length cross_refs))])
              None
        end
      else s
  end.

(** [_process_articles_with_relationships_v50], from the world [w] and
    [drawn] UUIDs drawn: when [s3_raised] is [None] the call returns
    [s3_counts]. *)
Definition _process_articles_with_relationships_v50
    (analysis_results : list AnalysisItem) (w : World) (drawn : nat)
  : Stage3 :=
  let s1 := fold_left process_article analysis_results
                      (mkStage3 w drawn (mkStats 0 0) [] None) in
  fold_left process_preamble analysis_results s1.

(** The rows inserted for the article items [items], the first of them
    with the UUID of index [drawn]. *)
Fixpoint new_rows (drawn : nat) (items : list AnalysisItem)
  : list article_row :=
  match items with
  | [] => []
  | item :: rest =>
      mkArticle (uuid4 drawn) law_id (item_article_order item) "ACTIVE" None
      :: new_rows (S drawn) rest
  end.

End Stage3.

(** The items of [analysis_results] that are articles. *)
Definition article_items (analysis_results : list AnalysisItem)
  : list AnalysisItem :=
  filter (fun item => String.eqb (item_content_type item) "article")
         analysis_results.

(** From the store [st] and the counters [n] to [st'] and [n']: the laws
    are the same, the articles are those of [st] followed by [rows], up
    to later status updates, each link table has grown at its end, and
    the counters count the rows added to the link tables, up to the
    replies lost between [st] and [st']. *)
Definition grows (st : Store) (n : LinkStats) (rows : list article_row)
    (st' : Store) (n' : LinkStats) : Prop :=
  laws st' = laws st
  /\ Forall2 article_later (law_articles st ++ rows) (law_articles st')
  /\ exists links refs,
       law_relationships st' = law_relationships st ++ links
       /\ law_article_references st' = law_article_references st ++ refs
       /\ counted n n' (List.length links) (List.length refs)
                  (lost_replies st - lost_replies st').

Module ExStage3.

Definition uuid4 (k : nat) : string :=
  match k with
  | O => "uuid-0"
  | S O => "uuid-1"
  | _ => "uuid-n"
  end.

(** A preamble that cites law 3/2004 and two articles, the second of
    which revokes article 5 of law 41/2023. *)
Definition analysis_results : list AnalysisItem :=
  [mkItem "preamble" 0 (Some [Ex.ref_url_and_number]);
   mkItem "article" 1 (Some []);
   mkItem "article" 2 (Some [Ex.ref_revokes])].

Definition articles : list (option string) :=
  [Some "Artigo 1"; Some "Artigo 2"].

End ExStage3.

(* ================================================================== *)
(** * Stage 2: the analyst phase *)

(** An article of the extraction data, with the keys the phase reads;
    [None] is an absent key. *)
Record ExtractedArticle : Type := mkExtracted {
  ex_article_number : option string;
  ex_official_text : option string
}.

(** The extraction data: [extraction_data.get('preamble_text', '')] and
    [extraction_data.get('articles', [])]. *)
Record ExtractionData : Type := mkExtraction {
  ex_preamble_text : string;
  ex_articles : list ExtractedArticle
}.

(** One element of [analysis_results]. *)
Record AnalysisResult : Type := mkResult {
  ar_content_type : string;
  ar_article_order : Z;
  ar_article_number : option string;
  ar_analysis : json
}.

(** The records of the phase: its own, and those of the analysis it
    calls. *)
Inductive analyst_msg : Type :=
| MsgAnalystPhase (source_id : string)
| MsgAnalyzingPreamble
| MsgAnalyzing (label : string)
| MsgArticleAnalysisFailed (position : Z) (e : stage3_exn)
| MsgAnalysisCompleted (successful total : Z)
| MsgOfAnalysis (m : log_msg).

Definition analyst_record : Type := (log_level * analyst_msg)%type.

(** [str(n)] *)
Definition decimal (n : Z) : string := NilZero.string_of_int (Z.to_int n).

(** [completion_rate]: the integer 0, or the float of
    [successful / total * 100]. *)
Inductive completion_rate : Type :=
| RateZero
| RateOf (successful total : Z).

(** What the phase has gathered so far. *)
Record Analyst : Type := mkAnalyst {
  analysis_results : list AnalysisResult;
  total_items : Z;
  successful_analyses : Z;
  analyst_log : list analyst_record
}.

Definition rate_of (a : Analyst) : completion_rate :=
  if total_items a >? 0
  then RateOf (successful_analyses a) (total_items a) else RateZero.

Section AnalystPhase.

Variable generate_content : string -> result string.
Variable json_loads : string -> option json.
Variables prompt_head prompt_tail : string.

Definition of_analysis (l : list log_record) : list analyst_record :=
  map (fun r => (fst r, MsgOfAnalysis (snd r))) l.

(** "Analyze preamble if exists" *)
Definition analyze_preamble (data : ExtractionData) (a : Analyst) : Analyst :=
  if PyStr.truthy (PyStr.strip (ex_preamble_text data)) then
    let '(preamble_analysis, l) :=
      _analyze_content_v50 generate_content json_loads prompt_head
                           prompt_tail (ex_preamble_text data) "preamble"
                           None in
    mkAnalyst (analysis_results a
               ++ [mkResult "preamble" 0 None preamble_analysis])
              (total_items a + 1) (successful_analyses a + 1)
              (analyst_log a ++ [(INFO, MsgAnalyzingPreamble)]
               ++ of_analysis l)
  else a.

(** The body of [for i, article in enumerate(articles)], [i] being the
    index of [article]. *)
Definition analyze_article (a : Analyst) (i : nat)
    (article : ExtractedArticle) : Analyst :=
  let position := Z.of_nat i + 1 in
  let label := match ex_article_number article with
               | Some number => number
               | None => ("Article " ++ decimal position)%string
               end in
  let log1 := analyst_log a ++ [(INFO, MsgAnalyzing label)] in
  match ex_official_text article with
  | Some text =>
      let '(article_analysis, l) :=
        _analyze_content_v50
          generate_content json_loads prompt_head prompt_tail text "article"
          (Some match ex_article_number article with
                | Some number => number
                | None => ("Artigo " ++ decimal position ++ "."
                           ++ ordinal_o)%string
                end) in
      mkAnalyst (analysis_results a
                 ++ [mkResult "article" position
                              (ex_article_number article) article_analysis])
                (total_items a + 1) (successful_analyses a + 1)
                (log1 ++ of_analysis l)
  | None =>
      mkAnalyst (analysis_results a) (total_items a + 1)
                (successful_analyses a)
                (log1 ++ [(ERROR, MsgArticleAnalysisFailed
                                    position (KeyError "official_text"))])
  end.

(** The loop over the articles from index [i] on. *)
Fixpoint analyze_articles (i : nat) (articles : list ExtractedArticle)
    (a : Analyst) : Analyst :=
  match articles with
  | [] => a
  | article :: rest =>
      analyze_articles (S i) rest (analyze_article a i article)
  end.

(** The phase between reading the extraction data and storing the
    results. *)
Definition analyze_extraction (data : ExtractionData) : Analyst :=
  analyze_articles 0 (ex_articles data)
                   (analyze_preamble data (mkAnalyst [] 0 0 [])).

(** The state of the data store, and the calls made on it. *)
Variable DB : Type.
(** The latest row of [pending_extractions] for the source, if any. *)
Variable select_extraction : string -> DB -> result (option ExtractionData) * DB.
(** [table('source_ai_analysis').delete()...] *)
Variable delete_analysis : string -> DB -> result unit * DB.
(** [table('source_ai_analysis').insert(...)], with the results, the
    timestamp, the two counts and the rate. *)
Variable insert_analysis :
  string -> list AnalysisResult -> string -> Z -> Z -> completion_rate ->
  DB -> result unit * DB.
(** [datetime.utcnow().isoformat()] *)
Variable utcnow : string.

(** [run_kritis_v50_analyst_phase]: the dictionary returned, or the
    exception; the store; the records logged. *)
Definition run_kritis_v50_analyst_phase (source_id : string) (db : DB)
  : result (Z * Z * completion_rate) * DB * list analyst_record :=
  let log0 := [(INFO, MsgAnalystPhase source_id)] in
  match select_extraction source_id db with
  | (Raise e, db1) => (Raise e, db1, log0)
  | (Ok None, db1) => (Raise ValueError, db1, log0)
  | (Ok (Some data), db1) =>
      let a := analyze_extraction data in
      match delete_analysis source_id db1 with
      | (Raise e, db2) => (Raise e, db2, log0 ++ analyst_log a)
      | (Ok _, db2) =>
          match insert_analysis source_id (analysis_results a) utcnow
                                (total_items a) (successful_analyses a)
                                (rate_of a) db2 with
          | (Raise e, db3) => (Raise e, db3, log0 ++ analyst_log a)
          | (Ok _, db3) =>
              (Ok (total_items a, successful_analyses a, rate_of a), db3,
               log0 ++ analyst_log a
               ++ [(INFO, MsgAnalysisCompleted (successful_analyses a)
                                               (total_items a))])
          end
      end
  end.

End AnalystPhase.

(** The results that are articles. *)
Definition article_results (results : list AnalysisResult)
  : list AnalysisResult :=
  filter (fun r => String.eqb (ar_content_type r) "article") results.

(** The number of articles without the key ['official_text']. *)
Definition without_text (articles : list ExtractedArticle) : Z :=
  Z.of_nat (List.length
              (filter (fun x => match ex_official_text x with
                                | None => true
                                | Some _ => false
                                end) articles)).

Section AnalystResults.

Variable generate_content : string -> result string.
Variable json_loads : string -> option json.
Variables prompt_head prompt_tail : string.

(** The result that the phase stores for the article at index [i]. *)
Definition result_of (i : nat) (article : ExtractedArticle) (text : string)
  : AnalysisResult :=
  mkResult "article" (Z.of_nat i + 1) (ex_article_number article)
    (fst (_analyze_content_v50
            generate_content json_loads prompt_head prompt_tail text
            "article"
            (Some match ex_article_number article with
                  | Some number => number
                  | None => ("Artigo " ++ decimal (Z.of_nat i + 1) ++ "."
                             ++ ordinal_o)%string
                  end))).

(** The results for the articles from index [i] on: one for each
    article that has a text. *)
Fixpoint results_of (i : nat) (articles : list ExtractedArticle)
  : list AnalysisResult :=
  match articles with
  | [] => []
  | article :: rest =>
      match ex_official_text article with
      | Some text => result_of i article text :: results_of (S i) rest
      | None => results_of (S i) rest
      end
  end.

End AnalystResults.

Module ExAnalyst.

(** Three articles, the second without its text. *)
Definition data : ExtractionData :=
  mkExtraction "Preambulo"
    [mkExtracted (Some "Artigo 1") (Some "Texto 1");
     mkExtracted None None;
     mkExtracted None (Some "Texto 3")].

(** A preamble and one article, with its text. *)
Definition data_with_texts : ExtractionData :=
  mkExtraction "Preambulo" [mkExtracted None (Some "Texto 1")].

(** A row of [source_ai_analysis] for the model version of this
    analyzer: the source and the analysis data. *)
Record analysis_row : Type := mkAnalysisRow {
  row_source_id : string;
  row_analysis_results : list AnalysisResult;
  row_analysis_timestamp : string;
  row_total_items_analyzed : Z;
  row_successful_analyses : Z;
  row_completion_rate : completion_rate
}.

(** A store that answers and records what it is given: the rows of
    [pending_extractions], the latest first, and those of
    [source_ai_analysis]. *)
Record db : Type := mkDb {
  pending_extractions : list (string * ExtractionData);
  source_ai_analysis : list analysis_row
}.

Definition select_extraction (source_id : string) (d : db)
  : result (option ExtractionData) * db :=
  (Ok (option_map snd
         (find (fun r => String.eqb (fst r) source_id)
               (pending_extractions d))),
   d).

Definition delete_analysis (source_id : string) (d : db)
  : result unit * db :=
  (Ok tt,
   mkDb (pending_extractions d)
        (filter (fun r => negb (String.eqb (row_source_id r) source_id))
                (source_ai_analysis d))).

Definition insert_analysis (source_id : string)
    (results : list AnalysisResult) (timestamp : string)
    (total successful : Z) (rate : completion_rate) (d : db)
  : result unit * db :=
  (Ok tt,
   mkDb (pending_extractions d)
        (source_ai_analysis d
         ++ [mkAnalysisRow source_id results timestamp total successful
                           rate])).

(** The store before a second run on the source: the extraction data
    and the row that the first run has left. *)
Definition db0 : db :=
  mkDb [("source-1", data_with_texts)]
       [mkAnalysisRow "source-1" [] "2024-01-01T00:00:00" 0 0 RateZero].

End ExAnalyst.

(* ================================================================== *)
(** * Properties of the extraction operation *)

Section ExtractionFacts.

Variable generate_content : string -> result string.
Variable json_loads : string -> option json.
Variables prompt_head prompt_tail : string.

Lemma dict_set_absent (k : string) (v : json) (d : Dict.t) :
  Dict.contains k d = false -> Dict.set k v d = d ++ [(k, v)].
Proof.
  induction d as [|[k' v'] d IH]; simpl; intros H.
  - reflexivity.
  - apply orb_false_iff in H. destruct H as [Hk Hd].
    rewrite Hk. now rewrite IH.
Qed.

Lemma dict_contains_app (k : string) (d1 d2 : Dict.t) :
  Dict.contains k (d1 ++ d2) = Dict.contains k d1 || Dict.contains k d2.
Proof. unfold Dict.contains. apply existsb_app. Qed.

Lemma normalize_v50_object (d : Dict.t) :
  normalize_v50 (JObj d) = Ok (JObj (d ++ missing_defaults_v50 d)).
Proof.
  unfold normalize_v50, missing_defaults_v50, Py.fill_missing. simpl.
  destruct (Dict.contains "tags" d) eqn:Ht; simpl.
  - destruct (Dict.contains "cross_references" d) eqn:Hc; simpl.
    + now rewrite app_nil_r.
    + now rewrite dict_set_absent.
  - rewrite (dict_set_absent _ _ _ Ht).
    rewrite dict_contains_app. simpl.
    destruct (Dict.contains "cross_references" d) eqn:Hc; simpl.
    + reflexivity.
    + rewrite dict_set_absent.
      * now rewrite <- app_assoc.
      * rewrite dict_contains_app, Hc. reflexivity.
Qed.

Lemma analyze_v50_try_failure (content : string) :
  extraction_failure generate_content json_loads normalize_v50
                     (analysis_prompt prompt_head prompt_tail content) ->
  exists e,
    analyze_v50_try generate_content json_loads prompt_head prompt_tail content
    = Raise e.
Proof.
  unfold analyze_v50_try, loads.
  intros [e H | text H1 H2 | text v e H1 H2 H3].
  - exists e. now rewrite H.
  - exists JSONDecodeError. rewrite H1. simpl. now rewrite H2.
  - exists e. rewrite H1. simpl. now rewrite H2.
Qed.

Lemma analyze_v6_try_failure (content : string) :
  extraction_failure generate_content json_loads normalize_v6
                     (analysis_prompt prompt_head prompt_tail content) ->
  exists e,
    analyze_v6_map_try generate_content json_loads prompt_head prompt_tail
                       content = Raise e.
Proof.
  unfold analyze_v6_map_try, loads.
  intros [e H | text H1 H2 | text v e H1 H2 H3].
  - exists e. now rewrite H.
  - exists JSONDecodeError. rewrite H1. simpl. now rewrite H2.
  - exists e. rewrite H1. simpl. now rewrite H2.
Qed.

Lemma analyze_v50_try_raises_failure (content : string) (e : exn) :
  analyze_v50_try generate_content json_loads prompt_head prompt_tail content
  = Raise e ->
  extraction_failure generate_content json_loads normalize_v50
                     (analysis_prompt prompt_head prompt_tail content).
Proof.
  unfold analyze_v50_try, loads.
  destruct (generate_content _) as [text|e0] eqn:Hg; simpl.
  - destruct (json_loads _) as [v|] eqn:Hl; simpl.
    + intros Hn. eapply validation_failure; eauto.
    + intros _. eapply malformed_json; eauto.
  - intros _. eapply backend_failure; eauto.
Qed.

(** C1. [_analyze_content_v50] is a total function, so it never raises;
    whenever its [try] block fails (the backend raises, the response is
    empty or is not JSON, or the validation step raises) it returns the
    literal of its [except] branch, and these are the only ways the block
    fails; every call returns either that literal or the validated
    parse. The literal has empty tag lists, empty summaries and an empty
    list of cross-references, and passes the validation step unchanged.
    The same holds for [_analyze_content_v6_map]. *)
Theorem extraction_failure_returns_fallback
    (content content_type : string) (article_number : option string) :
  let p := analysis_prompt prompt_head prompt_tail content in
  (extraction_failure generate_content json_loads normalize_v50 p ->
   exists e,
     _analyze_content_v50 generate_content json_loads prompt_head prompt_tail
                          content content_type article_number
     = (FALLBACK_V50, [(ERROR, MsgV50AnalysisFailed e)]))
  /\ (extraction_failure generate_content json_loads normalize_v6 p ->
      exists e,
        _analyze_content_v6_map generate_content json_loads prompt_head
                                prompt_tail content content_type article_number
        = (FALLBACK_V6, [(ERROR, MsgV6MapAnalysisFailed e)]))
  /\ (forall text, generate_content p = Ok text ->
      PyStr.strip text = EmptyString -> json_loads EmptyString = None ->
      extraction_failure generate_content json_loads normalize_v50 p)
  /\ (forall e,
        analyze_v50_try generate_content json_loads prompt_head prompt_tail
                        content = Raise e ->
        extraction_failure generate_content json_loads normalize_v50 p)
  /\ ((exists e,
         _analyze_content_v50 generate_content json_loads prompt_head
                              prompt_tail content content_type article_number
         = (FALLBACK_V50, [(ERROR, MsgV50AnalysisFailed e)]))
      \/ (exists text parsed analysis,
            generate_content p = Ok text
            /\ json_loads (clean_response (PyStr.strip text)) = Some parsed
            /\ normalize_v50 parsed = Ok analysis
            /\ _analyze_content_v50 generate_content json_loads prompt_head
                                    prompt_tail content content_type
                                    article_number
               = (analysis, [])))
  /\ Dict.get "tags" (match FALLBACK_V50 with JObj d => d | _ => [] end)
     = Some (JObj [("person", JArr []); ("organization", JArr []);
                   ("concept", JArr [])])
  /\ Dict.get "analysis" (match FALLBACK_V50 with JObj d => d | _ => [] end)
     = Some (JObj [("pt", JObj [("informal_summary_title", JStr EmptyString);
                                ("informal_summary", JStr EmptyString)]);
                   ("en", JObj [("informal_summary_title", JStr EmptyString);
                                ("informal_summary", JStr EmptyString)])])
  /\ Dict.get "cross_references"
              (match FALLBACK_V50 with JObj d => d | _ => [] end)
     = Some (JArr [])
  /\ normalize_v50 FALLBACK_V50 = Ok FALLBACK_V50.
Proof.
  intros p. repeat split; try reflexivity.
  - intros H. destruct (analyze_v50_try_failure content H) as [e He].
    exists e. unfold _analyze_content_v50. now rewrite He.
  - intros H. destruct (analyze_v6_try_failure content H) as [e He].
    exists e. unfold _analyze_content_v6_map. now rewrite He.
  - intros text Hg Hs Hl. eapply malformed_json; eauto.
    rewrite Hs. exact Hl.
  - intros e. apply analyze_v50_try_raises_failure.
  - unfold _analyze_content_v50, analyze_v50_try, loads. fold p.
    destruct (generate_content p) as [text|e]; simpl; [|left; eauto].
    destruct (json_loads _) as [parsed|] eqn:Hl; simpl; [|left; eauto].
    destruct (normalize_v50 parsed) as [analysis|e] eqn:Hn; [|left; eauto].
    right. exists text, parsed, analysis. auto.
Qed.

(** C2, as amended. For every response that parses as a JSON object,
    [_analyze_content_v50] logs nothing and returns the parsed object
    followed by the empty default of each of ['tags'] and
    ['cross_references'] it lacks; it does not return the fallback for a
    missing key, and ['analysis'] is not looked at. *)
Theorem extraction_fills_missing_keys
    (content content_type : string) (article_number : option string)
    (text : string) (d : Dict.t) :
  generate_content (analysis_prompt prompt_head prompt_tail content) = Ok text ->
  json_loads (clean_response (PyStr.strip text)) = Some (JObj d) ->
  _analyze_content_v50 generate_content json_loads prompt_head prompt_tail
                       content content_type article_number
  = (JObj (d ++ missing_defaults_v50 d), []).
Proof.
  intros Hg Hl. unfold _analyze_content_v50, analyze_v50_try, loads.
  rewrite Hg. simpl. rewrite Hl. simpl.
  now rewrite normalize_v50_object.
Qed.

(** C8. When the response parses as a JSON object that already has the
    keys the validation step looks for, the [try] block succeeds and
    [_analyze_content_v50] returns exactly the parsed object: nothing is
    altered, added or removed, and nothing is logged. *)
Theorem extraction_identity_on_conforming
    (content content_type : string) (article_number : option string)
    (text : string) (d : Dict.t) :
  generate_content (analysis_prompt prompt_head prompt_tail content) = Ok text ->
  json_loads (clean_response (PyStr.strip text)) = Some (JObj d) ->
  Dict.contains "tags" d = true ->
  Dict.contains "cross_references" d = true ->
  analyze_v50_try generate_content json_loads prompt_head prompt_tail content
  = Ok (JObj d)
  /\ _analyze_content_v50 generate_content json_loads prompt_head prompt_tail
                          content content_type article_number
     = (JObj d, []).
Proof.
  intros Hg Hl Ht Hc.
  assert (Hn : normalize_v50 (JObj d) = Ok (JObj d)).
  { rewrite normalize_v50_object. unfold missing_defaults_v50.
    rewrite Ht, Hc. simpl. now rewrite app_nil_r. }
  assert (Htry : analyze_v50_try generate_content json_loads prompt_head
                                 prompt_tail content = Ok (JObj d)).
  { unfold analyze_v50_try, loads. rewrite Hg. simpl. rewrite Hl. simpl.
    exact Hn. }
  split; [exact Htry|]. unfold _analyze_content_v50. now rewrite Htry.
Qed.

End ExtractionFacts.

(** Witness of C1: an unreachable backend. *)
Lemma extraction_failure_returns_fallback_witness :
  exists e,
    _analyze_content_v50 unreachable JsonLite.loads "head " " tail"
                         "Artigo 1" "article" None
    = (FALLBACK_V50, [(ERROR, MsgV50AnalysisFailed e)]).
Proof.
  apply (proj1 (extraction_failure_returns_fallback
                  unreachable JsonLite.loads "head " " tail"
                  "Artigo 1" "article" None)).
  apply backend_failure with (e := BackendError). reflexivity.
Defined.

(** C2, counterexample. The response [{"cross_references": []}] parses as
    an object without ['tags']; the operation returns that object with
    ['tags'] added, which has no ['analysis'] key, and not the fallback. *)
Lemma extraction_missing_tags_not_fallback :
  let r := fst (_analyze_content_v50 (answers response_without_tags)
                                     JsonLite.loads "head " " tail"
                                     "Artigo 1" "article" None) in
  JsonLite.loads (clean_response (PyStr.strip response_without_tags))
  = Some (JObj [("cross_references", JArr [])])
  /\ Dict.contains "tags" [("cross_references", JArr [])] = false
  /\ r = JObj [("cross_references", JArr []); ("tags", empty_tags)]
  /\ r <> FALLBACK_V50.
Proof.
  cbv zeta. repeat split; try reflexivity.
  vm_compute. discriminate.
Qed.

(** Witness of the amended C2. *)
Lemma extraction_fills_missing_keys_witness :
  _analyze_content_v50 (answers response_without_tags) JsonLite.loads
                       "head " " tail" "Artigo 1" "article" None
  = (JObj ([("cross_references", JArr [])]
           ++ missing_defaults_v50 [("cross_references", JArr [])]), []).
Proof.
  apply (extraction_fills_missing_keys
           (answers response_without_tags) JsonLite.loads "head " " tail"
           "Artigo 1" "article" None response_without_tags
           [("cross_references", JArr [])]).
  - reflexivity.
  - vm_compute. reflexivity.
Defined.

(** Witness of C8. *)
Lemma extraction_identity_on_conforming_witness :
  _analyze_content_v50 (answers response_conforming) JsonLite.loads
                       "head " " tail" "Artigo 1" "article" None
  = (JObj [("tags", JObj []); ("cross_references", JArr []);
           ("note", JInt 7)], []).
Proof.
  apply (proj2 (extraction_identity_on_conforming
           (answers response_conforming) JsonLite.loads "head " " tail"
           "Artigo 1" "article" None response_conforming
           [("tags", JObj []); ("cross_references", JArr []);
            ("note", JInt 7)]
           eq_refl ltac:(vm_compute; reflexivity) eq_refl eq_refl)).
Defined.

(* ================================================================== *)
(** * Basic facts about the store and the lookups *)

Lemma with_store_same (w : World) : with_store (store w) w = w.
Proof. now destruct w. Qed.

Lemma call_no_faults {A : Type} (body : Store -> result A * Store) (st : Store) :
  faults st = [] -> Db.call body st = body st.
Proof. intros H. unfold Db.call. now rewrite H. Qed.

Lemma relationship_eqb_eq (a b : relationship_row) :
  relationship_eqb a b = true <-> a = b.
Proof.
  unfold relationship_eqb. destruct a, b; simpl.
  rewrite !andb_true_iff, !String.eqb_eq. split.
  - intros [[-> ->] ->]. reflexivity.
  - intros H. inversion H. auto.
Qed.

Lemma reference_eqb_eq (a b : reference_row) :
  reference_eqb a b = true <-> a = b.
Proof.
  unfold reference_eqb. destruct a, b; simpl.
  rewrite !andb_true_iff, !String.eqb_eq. split.
  - intros [[-> ->] ->]. reflexivity.
  - intros H. inversion H. auto.
Qed.

Lemma relationship_present (row : relationship_row) (l : list relationship_row) :
  existsb (relationship_eqb row) l = true <-> In row l.
Proof.
  rewrite existsb_exists. split.
  - intros [x [Hin Heq]]. apply relationship_eqb_eq in Heq. now subst.
  - intros Hin. exists row. split; [assumption|]. now apply relationship_eqb_eq.
Qed.

Lemma reference_present (row : reference_row) (l : list reference_row) :
  existsb (reference_eqb row) l = true <-> In row l.
Proof.
  rewrite existsb_exists. split.
  - intros [x [Hin Heq]]. apply reference_eqb_eq in Heq. now subst.
  - intros Hin. exists row. split; [assumption|]. now apply reference_eqb_eq.
Qed.

Lemma relationship_absent (row : relationship_row) (l : list relationship_row) :
  existsb (relationship_eqb row) l = false <-> ~ In row l.
Proof.
  rewrite <- relationship_present. destruct (existsb _ l); split; congruence.
Qed.

Lemma reference_absent (row : reference_row) (l : list reference_row) :
  existsb (reference_eqb row) l = false <-> ~ In row l.
Proof.
  rewrite <- reference_present. destruct (existsb _ l); split; congruence.
Qed.

Lemma new_status_not_active (relationship s : string) :
  new_status_of relationship = Some s -> s <> "ACTIVE".
Proof.
  unfold new_status_of.
  destruct (String.eqb relationship "revokes");
    [|destruct (String.eqb relationship "amends")];
    intros H; inversion H; discriminate.
Qed.

Lemma new_status_amends_or_revokes (relationship : string) :
  is_amends_or_revokes relationship = true ->
  exists s, new_status_of relationship = Some s.
Proof.
  unfold is_amends_or_revokes, new_status_of. intros H.
  destruct (String.eqb relationship "revokes"); [eauto|].
  destruct (String.eqb relationship "amends"); [eauto|discriminate].
Qed.

Section LookupFacts.

Variable ilike : string -> string -> bool.
Variable fromisoformat_other : string -> result PyDate.date.

Lemma find_by_number_no_faults (number : option string) (st : Store) :
  faults st = [] ->
  find_by_number ilike number st
  = (Ok (resolve_by_number ilike (laws st) number), st).
Proof.
  intros Hf. unfold find_by_number, resolve_by_number.
  destruct number as [n|]; [|reflexivity].
  destruct (PyStr.truthy n); [|reflexivity].
  unfold Db.laws_eq_official_number, Db.laws_ilike_official_number.
  rewrite (call_no_faults _ _ Hf).
  destruct (Db.number_matches n (laws st)) as [|l ls]; simpl; [|reflexivity].
  rewrite (call_no_faults _ _ Hf).
  now destruct (Db.ilike_matches ilike _ (laws st)).
Qed.

Lemma find_target_law_try_no_faults (url number : option string) (st : Store) :
  faults st = [] ->
  find_target_law_try ilike url number st
  = (Ok (resolve_target ilike (laws st) url number), st).
Proof.
  intros Hf. unfold find_target_law_try, resolve_target, resolve_by_url.
  destruct url as [u|]; [|now apply find_by_number_no_faults].
  destruct (PyStr.truthy u) eqn:Hu.
  - destruct (Re.url_slug u) as [slug|];
      [|now apply find_by_number_no_faults].
    unfold Db.laws_eq_slug. rewrite (call_no_faults _ _ Hf).
    destruct (Db.slug_matches slug (laws st)) as [|l ls]; simpl;
      [now apply find_by_number_no_faults|reflexivity].
  - destruct u; [|discriminate]. simpl.
    now apply find_by_number_no_faults.
Qed.

Lemma find_target_law_no_faults (url number : option string) (w : World) :
  faults (store w) = [] ->
  _find_target_law_v50 ilike url number w
  = (resolve_target ilike (laws (store w)) url number, w).
Proof.
  intros Hf. unfold _find_target_law_v50.
  rewrite (find_target_law_try_no_faults _ _ _ Hf).
  now rewrite with_store_same.
Qed.

Lemma find_target_article_no_faults (l art : string) (w : World) :
  faults (store w) = [] ->
  _find_target_article_v50 l art w
  = (resolve_article (law_articles (store w)) l art, w).
Proof.
  intros Hf. unfold _find_target_article_v50, resolve_article.
  destruct (Re.search_digits art) as [digits|]; [|reflexivity].
  unfold Db.articles_eq. rewrite (call_no_faults _ _ Hf).
  destruct (Db.article_matches _ _ _ _); simpl; now rewrite with_store_same.
Qed.

End LookupFacts.

(* ================================================================== *)
(** * One reference at a time, when no store call fails in transport *)

Lemma logger_store (lvl : log_level) (m : log_msg) (w : World) :
  store (logger lvl m w) = store w.
Proof. reflexivity. Qed.

Lemma temporal_check_store
    (src : string) (sd : option string) (rel tgt : string)
    (td : option string) (w : World) :
  store (temporal_check src sd rel tgt td w) = store w.
Proof.
  unfold temporal_check. destruct sd, td; try reflexivity.
  now destruct (_ && _).
Qed.

Lemma set_articles_same (st : Store) : Db.set_articles (law_articles st) st = st.
Proof. now destruct st. Qed.

Lemma update_status_store (fromisoformat_other : string -> result PyDate.date)
    (id rel d : string) (w : World) :
  faults (store w) = [] ->
  store (_update_target_article_status_v50 fromisoformat_other id rel d w)
  = Db.set_articles (updated_articles fromisoformat_other
      id rel d (law_articles (store w)))
                    (store w).
Proof.
  intros Hf. unfold _update_target_article_status_v50, updated_articles.
  destruct (new_status_of rel) as [ns|];
    [|now rewrite set_articles_same].
  destruct (valid_to_of fromisoformat_other d) as [vt|e];
    [|now rewrite logger_store, set_articles_same].
  unfold Db.articles_update. rewrite (call_no_faults _ _ Hf).
  reflexivity.
Qed.

Section StepFacts.

Variable str_upper : string -> string.
Variable ilike : string -> string -> bool.
Variable fromisoformat_other : string -> result PyDate.date.
Variables source_article_id source_law_id : string.
Variable source_enactment_date : option string.

Local Abbreviation step :=
  (link_reference str_upper ilike fromisoformat_other
                  source_article_id source_law_id
                  source_enactment_date).

(** The store after part A. *)
Lemma link_law_store (rel tgt : string) (td : option string)
    (w : World) (n : LinkStats) :
  faults (store w) = [] ->
  let row := mkRelationship source_law_id tgt (str_upper rel) in
  let r := link_law str_upper source_law_id source_enactment_date rel tgt td
                    (w, n) in
  (In row (law_relationships (store w))
   /\ store (fst r) = store w /\ snd r = n)
  \/ (~ In row (law_relationships (store w))
      /\ store (fst r) = Db.add_relationship row (store w)
      /\ snd r = mkStats (law_relationships_count n + 1)
                         (article_references_count n)).
Proof.
  intros Hf row r. subst r. unfold link_law, Db.insert_relationship.
  rewrite call_no_faults by now rewrite temporal_check_store.
  rewrite temporal_check_store. fold row.
  destruct (existsb (relationship_eqb row) (law_relationships (store w)))
    eqn:He.
  - left. apply relationship_present in He. simpl. auto.
  - right. apply relationship_absent in He. simpl. auto.
Qed.

(** The store after parts B and C. *)
Lemma link_article_store (rel id : string) (w : World) (n : LinkStats) :
  faults (store w) = [] ->
  let row := mkReference source_article_id id (str_upper rel) in
  let r := link_article str_upper fromisoformat_other
                        source_article_id source_enactment_date
                        rel id (w, n) in
  (In row (law_article_references (store w))
   /\ store (fst r) = store w /\ snd r = n)
  \/ (~ In row (law_article_references (store w))
      /\ snd r = mkStats (law_relationships_count n)
                         (article_references_count n + 1)
      /\ let st1 := Db.add_reference row (store w) in
         store (fst r)
         = match source_enactment_date with
           | Some d =>
               if is_amends_or_revokes rel && PyStr.truthy d
               then Db.set_articles
                      (updated_articles fromisoformat_other
                          id rel d (law_articles st1)) st1
               else st1
           | None => st1
           end).
Proof.
  intros Hf row r. subst r. unfold link_article, Db.insert_reference.
  rewrite (call_no_faults _ _ Hf). fold row.
  destruct (existsb (reference_eqb row) (law_article_references (store w)))
    eqn:He.
  - left. apply reference_present in He. simpl. auto.
  - right. apply reference_absent in He. split; [assumption|].
    destruct source_enactment_date as [d|]; [|simpl; auto].
    destruct (is_amends_or_revokes rel && PyStr.truthy d); [|simpl; auto].
    simpl. split; [reflexivity|].
    now rewrite update_status_store.
Qed.

(** The loop body written with the lookups of the specification. *)
Lemma link_reference_no_faults (w : World) (n : LinkStats)
    (ref : CrossReference) :
  faults (store w) = [] ->
  step (w, n) ref
  = if is_internal ref then (w, n)
    else
      match resolve_target ilike (laws (store w)) (url ref) (number ref) with
      | None => (logger DEBUG (MsgTargetLawNotFound ref) w, n)
      | Some target =>
          let s2 := link_law str_upper source_law_id source_enactment_date
                             (relationship_of ref) (law_id target)
                             (law_enactment_date target) (w, n) in
          match article_number ref with
          | Some art =>
              if PyStr.truthy art then
                match resolve_article (law_articles (store (fst s2)))
                                      (law_id target) art with
                | Some id =>
                    if PyStr.truthy id
                    then link_article str_upper fromisoformat_other
                                      source_article_id
                                      source_enactment_date
                                      (relationship_of ref) id s2
                    else s2
                | None => s2
                end
              else s2
          | None => s2
          end
      end.
Proof.
  intros Hf. unfold link_reference.
  destruct (is_internal ref); [reflexivity|]. cbn [fst snd].
  rewrite (find_target_law_no_faults _ _ _ _ Hf).
  destruct (resolve_target _ _ _ _) as [target|]; [|reflexivity].
  cbv zeta.
  destruct (link_law_store (relationship_of ref) (law_id target)
              (law_enactment_date target) w n Hf) as [[_ [Hs _]]|[_ [Hs _]]];
    cbv zeta in Hs;
    destruct (link_law _ _ _ _ _ _ _) as [w2 n2] eqn:Hl;
    cbn [fst snd] in *;
    (destruct (article_number ref) as [art|]; [|reflexivity]);
    (destruct (PyStr.truthy art); [|reflexivity]);
    rewrite find_target_article_no_faults by (rewrite Hs; exact Hf);
    destruct (resolve_article _ _ _) as [id|]; try reflexivity;
    destruct (PyStr.truthy id); reflexivity.
Qed.

End StepFacts.

(* ================================================================== *)
(** * How the store evolves under the linker *)

Lemma article_later_refl (a : article_row) : article_later a a.
Proof. unfold article_later. auto. Qed.

Lemma article_later_trans (a b c : article_row) :
  article_later a b -> article_later b c -> article_later a c.
Proof.
  unfold article_later.
  intros [Hi [Hl [Ho Hs]]] [Hi' [Hl' [Ho' Hs']]].
  repeat split; try congruence.
  intros Hc. specialize (Hs' Hc). subst c. auto.
Qed.

Lemma article_later_update (id ns vt : string) (a : article_row) :
  ns <> "ACTIVE" -> article_later a (Db.update_article id ns vt a).
Proof.
  intros Hns. unfold Db.update_article.
  destruct (String.eqb (article_id a) id); [|apply article_later_refl].
  unfold article_later. simpl. repeat split; auto. intros H. contradiction.
Qed.

Lemma Forall2_refl_on {A : Type} (R : A -> A -> Prop) (l : list A) :
  (forall a, R a a) -> Forall2 R l l.
Proof. intros H. induction l; constructor; auto. Qed.

Lemma Forall2_map_right {A : Type} (R : A -> A -> Prop) (f : A -> A)
    (l : list A) :
  (forall a, R a (f a)) -> Forall2 R l (map f l).
Proof. intros H. induction l; simpl; constructor; auto. Qed.

Lemma Forall2_trans_on {A : Type} (R : A -> A -> Prop) :
  (forall a b c, R a b -> R b c -> R a c) ->
  forall l1 l2 l3, Forall2 R l1 l2 -> Forall2 R l2 l3 -> Forall2 R l1 l3.
Proof.
  intros HR l1 l2 l3 H12. revert l3.
  induction H12; intros l3 H23; inversion H23; subst; constructor; eauto.
Qed.

Lemma Forall2_in_right {A : Type} (R : A -> A -> Prop) (l l' : list A) (b' : A) :
  Forall2 R l l' -> In b' l' -> exists b, In b l /\ R b b'.
Proof.
  induction 1 as [|x y l l' Hxy _ IH]; simpl; intros Hin; [contradiction|].
  destruct Hin as [->|Hin].
  - exists x. auto.
  - destruct (IH Hin) as [b [Hb HR]]. exists b. auto.
Qed.

Lemma hd_error_filter_some {A : Type} (f : A -> bool) (l : list A) (a : A) :
  hd_error (filter f l) = Some a -> In a l /\ f a = true.
Proof.
  intros H. apply filter_In.
  destruct (filter f l) as [|x xs]; simpl in H; [discriminate|].
  inversion H. subst. now left.
Qed.

Lemma hd_error_filter_in {A : Type} (f : A -> bool) (l : list A) (b : A) :
  In b l -> f b = true -> exists a, hd_error (filter f l) = Some a.
Proof.
  intros Hin Hf. assert (H : In b (filter f l)) by now apply filter_In.
  destruct (filter f l) as [|x xs]; [contradiction|]. simpl. eauto.
Qed.

Lemma updated_articles_later
    (fromisoformat_other : string -> result PyDate.date)
    (id rel d : string) (arts : list article_row) :
  Forall2 article_later arts (updated_articles fromisoformat_other
      id rel d arts).
Proof.
  unfold updated_articles.
  destruct (new_status_of rel) as [ns|] eqn:Hns;
    [|apply Forall2_refl_on, article_later_refl].
  destruct (valid_to_of fromisoformat_other d) as [vt|e];
    [|apply Forall2_refl_on, article_later_refl].
  apply Forall2_map_right. intros a. apply article_later_update.
  exact (new_status_not_active _ _ Hns).
Qed.

Lemma evolves_refl (st : Store) : faults st = [] -> evolves st st.
Proof.
  intros Hf. unfold evolves. repeat split; auto using incl_refl.
  apply Forall2_refl_on, article_later_refl.
Qed.

Lemma evolves_trans (a b c : Store) : evolves a b -> evolves b c -> evolves a c.
Proof.
  unfold evolves.
  intros [Hl [Hf [Hf0 [Hr [Hx Ha]]]]] [Hl' [Hf' [_ [Hr' [Hx' Ha']]]]].
  repeat split; try congruence; eauto using incl_tran.
  eapply Forall2_trans_on; eauto. exact article_later_trans.
Qed.

Lemma keyed_evolves (arts arts' : list article_row) :
  Forall2 article_later arts arts' -> articles_keyed arts -> articles_keyed arts'.
Proof.
  intros HF Hk a' b' Ha' Hb' Hsa Hsb Hl Ho.
  destruct (Forall2_in_right _ _ _ _ HF Ha') as [a [Ha [_ [_ [_ Haa]]]]].
  destruct (Forall2_in_right _ _ _ _ HF Hb') as [b [Hb [_ [_ [_ Hbb]]]]].
  specialize (Haa Hsa). specialize (Hbb Hsb). subst a' b'.
  now apply Hk.
Qed.

Lemma article_matches_some (l : string) (o : Z) (st : string)
    (arts : list article_row) (a : article_row) :
  hd_error (Db.article_matches l o st arts) = Some a ->
  In a arts /\ article_law_id a = l /\ article_order a = o
  /\ article_status_id a = st.
Proof.
  intros H. apply hd_error_filter_some in H. destruct H as [Hin Hm].
  apply andb_true_iff in Hm. destruct Hm as [Hm Hs].
  apply andb_true_iff in Hm. destruct Hm as [Hl Ho].
  apply String.eqb_eq in Hl, Hs. apply Z.eqb_eq in Ho. auto.
Qed.

Lemma article_matches_in (l : string) (o : Z) (st : string)
    (arts : list article_row) (b : article_row) :
  In b arts -> article_law_id b = l -> article_order b = o ->
  article_status_id b = st ->
  exists a, hd_error (Db.article_matches l o st arts) = Some a.
Proof.
  intros Hin Hl Ho Hs. unfold Db.article_matches.
  apply hd_error_filter_in with (b := b); [assumption|].
  rewrite Hl, Ho, Hs, !String.eqb_refl, Z.eqb_refl. reflexivity.
Qed.

(** An article found after the store evolved was found before, under the
    same id. *)
Lemma resolve_article_evolves (arts arts' : list article_row)
    (l art id : string) :
  articles_keyed arts -> Forall2 article_later arts arts' ->
  resolve_article arts' l art = Some id ->
  resolve_article arts l art = Some id.
Proof.
  intros Hk HF. unfold resolve_article.
  destruct (Re.search_digits art) as [digits|]; [|discriminate].
  destruct (hd_error (Db.article_matches _ _ _ arts')) as [b'|] eqn:Hb';
    [|discriminate].
  simpl. intros Hid. inversion Hid; subst id; clear Hid.
  apply article_matches_some in Hb'. destruct Hb' as [Hin' [Hl' [Ho' Hs']]].
  destruct (Forall2_in_right _ _ _ _ HF Hin') as [b [Hin [_ [_ [_ Hact]]]]].
  specialize (Hact Hs'). subst b'.
  destruct (article_matches_in _ _ _ _ _ Hin Hl' Ho' Hs') as [a Ha].
  rewrite Ha. simpl. f_equal.
  apply article_matches_some in Ha. destruct Ha as [Hina [Hla [Hoa Hsa]]].
  apply Hk; congruence.
Qed.

Section EvolveFacts.

Variable str_upper : string -> string.
Variable ilike : string -> string -> bool.
Variable fromisoformat_other : string -> result PyDate.date.
Variables source_article_id source_law_id : string.
Variable source_enactment_date : option string.

Local Abbreviation step :=
  (link_reference str_upper ilike fromisoformat_other
                  source_article_id source_law_id
                  source_enactment_date).
Local Abbreviation is_linked :=
  (linked str_upper ilike source_article_id source_law_id).

Lemma linked_evolves (st st' : Store) (ref : CrossReference) :
  articles_keyed (law_articles st) -> evolves st st' ->
  is_linked st ref -> is_linked st' ref.
Proof.
  intros Hk [Hl [_ [_ [Hr [Hx Ha]]]]] H Hint target Hres.
  rewrite Hl in Hres. destruct (H Hint target Hres) as [H1 H2].
  split; [now apply Hr|].
  intros art id Hart Htr Hres' Hid. apply Hx.
  apply (H2 art id Hart Htr); [|assumption].
  eapply resolve_article_evolves; eauto.
Qed.

Lemma evolves_link_law (rel tgt : string) (td : option string)
    (w : World) (n : LinkStats) :
  faults (store w) = [] ->
  let s2 := link_law str_upper source_law_id source_enactment_date rel tgt td
                     (w, n) in
  evolves (store w) (store (fst s2))
  /\ law_articles (store (fst s2)) = law_articles (store w)
  /\ In (mkRelationship source_law_id tgt (str_upper rel))
        (law_relationships (store (fst s2))).
Proof.
  intros Hf s2.
  destruct (link_law_store str_upper source_law_id source_enactment_date
              rel tgt td w n Hf) as [[Hin [Hs _]]|[Hin [Hs _]]];
    fold s2 in Hs; rewrite Hs.
  - split; [now apply evolves_refl|]. auto.
  - split; [|split; [reflexivity|simpl; apply in_or_app; simpl; auto]].
    unfold evolves; simpl. repeat split; auto using incl_refl, incl_appl.
    apply Forall2_refl_on, article_later_refl.
Qed.

Lemma evolves_link_article (rel id : string) (w : World) (n : LinkStats) :
  faults (store w) = [] ->
  let r := link_article str_upper fromisoformat_other
                        source_article_id source_enactment_date
                        rel id (w, n) in
  evolves (store w) (store (fst r))
  /\ In (mkReference source_article_id id (str_upper rel))
        (law_article_references (store (fst r))).
Proof.
  intros Hf r.
  destruct (link_article_store str_upper fromisoformat_other source_article_id
              source_enactment_date rel id w n Hf)
    as [[Hin [Hs _]]|[Hin [_ Hs]]]; fold r in Hs; cbv zeta in Hs; rewrite Hs.
  - split; [now apply evolves_refl|assumption].
  - assert (He : evolves (store w)
              (Db.add_reference
                 (mkReference source_article_id id (str_upper rel)) (store w))).
    { unfold evolves; simpl. repeat split; auto using incl_refl, incl_appl.
      apply Forall2_refl_on, article_later_refl. }
    assert (Hi : In (mkReference source_article_id id (str_upper rel))
                    (law_article_references
                       (Db.add_reference
                          (mkReference source_article_id id (str_upper rel))
                          (store w)))).
    { simpl. apply in_or_app. simpl. auto. }
    destruct source_enactment_date as [d|]; [|auto].
    destruct (is_amends_or_revokes rel && PyStr.truthy d); [|auto].
    split; [|exact Hi].
    unfold evolves; simpl. repeat split; auto using incl_refl, incl_appl.
    apply updated_articles_later.
Qed.

Lemma step_evolves_linked (w : World) (n : LinkStats) (ref : CrossReference) :
  faults (store w) = [] -> articles_keyed (law_articles (store w)) ->
  evolves (store w) (store (fst (step (w, n) ref)))
  /\ is_linked (store (fst (step (w, n) ref))) ref.
Proof.
  intros Hf Hk.
  rewrite (link_reference_no_faults _ _ _ _ _ _ _ _ _ Hf).
  unfold linked.
  destruct (is_internal ref) eqn:Hint.
  { split; [now apply evolves_refl|]. intros; discriminate. }
  destruct (resolve_target ilike (laws (store w)) (url ref) (number ref))
    as [target|] eqn:Hres.
  2:{ split; [now apply evolves_refl|]. simpl. intros _ t Ht. congruence. }
  cbv zeta.
  destruct (evolves_link_law (relationship_of ref) (law_id target)
              (law_enactment_date target) w n Hf) as [Hev [Harts Hrow]].
  cbv zeta in Hev, Harts, Hrow.
  destruct (link_law _ _ _ _ _ _ _) as [w2 n2] eqn:Hl.
  cbn [fst snd] in *.
  assert (Hf2 : faults (store w2) = []) by (destruct Hev; tauto).
  assert (Hl2 : laws (store w2) = laws (store w)) by (destruct Hev; tauto).
  (* the cases that stop after part A *)
  assert (Hstop :
            (forall art id, article_number ref = Some art ->
               PyStr.truthy art = true ->
               resolve_article (law_articles (store w2)) (law_id target) art
               = Some id -> PyStr.truthy id = true -> False) ->
            evolves (store w) (store w2)
            /\ (false = false -> forall t,
                  resolve_target ilike (laws (store w2)) (url ref) (number ref)
                  = Some t ->
                  In (mkRelationship source_law_id (law_id t)
                        (str_upper (relationship_of ref)))
                     (law_relationships (store w2))
                  /\ forall art id, article_number ref = Some art ->
                       PyStr.truthy art = true ->
                       resolve_article (law_articles (store w2)) (law_id t) art
                       = Some id -> PyStr.truthy id = true ->
                       In (mkReference source_article_id id
                             (str_upper (relationship_of ref)))
                          (law_article_references (store w2)))).
  { intros Hno. split; [exact Hev|]. intros _ t Ht.
    rewrite Hl2, Hres in Ht. inversion Ht; subst t.
    split; [exact Hrow|]. intros art id Ha Hta Hr Hti.
    exfalso. eapply Hno; eauto. }
  destruct (article_number ref) as [art|] eqn:Hart;
    [|apply Hstop; intros; discriminate].
  destruct (PyStr.truthy art) eqn:Htart.
  2:{ apply Hstop. intros a i Ha Hta. inversion Ha; subst a. congruence. }
  destruct (resolve_article (law_articles (store w2)) (law_id target) art)
    as [id0|] eqn:Hra.
  2:{ apply Hstop. intros a i Ha _ Hr. inversion Ha; subst a. congruence. }
  destruct (PyStr.truthy id0) eqn:Htid.
  2:{ apply Hstop. intros a i Ha _ Hr Hti. inversion Ha; subst a.
      rewrite Hra in Hr. inversion Hr; subst i. congruence. }
  clear Hstop.
  destruct (evolves_link_article (relationship_of ref) id0 w2 n2 Hf2)
    as [Hev2 Hrow2].
  cbv zeta in Hev2, Hrow2.
  destruct (link_article _ _ _ _ _ _) as [w3 n3] eqn:Hla.
  cbn [fst snd] in *.
  split; [eapply evolves_trans; eauto|].
  intros _ t Ht.
  assert (Hl3 : laws (store w3) = laws (store w2)) by (destruct Hev2; tauto).
  rewrite Hl3, Hl2, Hres in Ht. inversion Ht; subst t.
  split.
  - destruct Hev2 as [_ [_ [_ [Hincl _]]]]. now apply Hincl.
  - intros a i Ha _ Hr _. inversion Ha; subst a.
    assert (Hk2 : articles_keyed (law_articles (store w2)))
      by now rewrite Harts.
    destruct Hev2 as [_ [_ [_ [_ [_ HF]]]]].
    pose proof (resolve_article_evolves _ _ _ _ _ Hk2 HF Hr) as Hr0.
    rewrite Hra in Hr0. inversion Hr0; subst i. exact Hrow2.
Qed.

(** A reference already recorded changes neither the tables nor the
    counters. *)
Lemma step_linked_noop (w : World) (n : LinkStats) (ref : CrossReference) :
  faults (store w) = [] -> is_linked (store w) ref ->
  store (fst (step (w, n) ref)) = store w /\ snd (step (w, n) ref) = n.
Proof.
  intros Hf H.
  rewrite (link_reference_no_faults _ _ _ _ _ _ _ _ _ Hf).
  destruct (is_internal ref) eqn:Hint; [auto|].
  destruct (resolve_target ilike (laws (store w)) (url ref) (number ref))
    as [target|] eqn:Hres; [|auto].
  destruct (H Hint target Hres) as [H1 H2]. cbv zeta.
  destruct (link_law_store str_upper source_law_id source_enactment_date
              (relationship_of ref) (law_id target)
              (law_enactment_date target) w n Hf)
    as [[_ [Hs Hn]]|[Hno _]]; [|contradiction].
  cbv zeta in Hs, Hn.
  destruct (link_law _ _ _ _ _ _ _) as [w2 n2] eqn:Hl.
  cbn [fst snd] in *. subst n2.
  destruct (article_number ref) as [art|] eqn:Hart; [|auto].
  destruct (PyStr.truthy art) eqn:Htart; [|auto].
  rewrite Hs.
  destruct (resolve_article (law_articles (store w)) (law_id target) art)
    as [id|] eqn:Hra; [|auto].
  destruct (PyStr.truthy id) eqn:Htid; [|auto].
  assert (Hf2 : faults (store w2) = []) by now rewrite Hs.
  destruct (link_article_store str_upper fromisoformat_other source_article_id
              source_enactment_date (relationship_of ref) id w2 n Hf2)
    as [[_ [Hs2 Hn2]]|[Hno _]].
  - cbv zeta in Hs2, Hn2. rewrite Hs2, Hn2. auto.
  - exfalso. apply Hno. rewrite Hs. now apply (H2 art id).
Qed.

(** After a run every reference of the run is recorded. *)
Lemma run_evolves_linked (refs : list CrossReference) :
  forall (w : World) (n : LinkStats),
    faults (store w) = [] -> articles_keyed (law_articles (store w)) ->
    evolves (store w) (store (fst (fold_left step refs (w, n))))
    /\ Forall (is_linked (store (fst (fold_left step refs (w, n))))) refs.
Proof.
  induction refs as [|ref refs IH]; intros w n Hf Hk; simpl.
  - split; [now apply evolves_refl|constructor].
  - destruct (step_evolves_linked w n ref Hf Hk) as [Hev Hlk].
    destruct (step (w, n) ref) as [w1 n1] eqn:Hstep. cbn [fst snd] in *.
    assert (Hf1 : faults (store w1) = []) by (destruct Hev; tauto).
    assert (Hk1 : articles_keyed (law_articles (store w1))).
    { destruct Hev as [_ [_ [_ [_ [_ HF]]]]]. eapply keyed_evolves; eauto. }
    destruct (IH w1 n1 Hf1 Hk1) as [Hev' Hall].
    split; [eapply evolves_trans; eauto|].
    constructor; [|exact Hall].
    eapply linked_evolves; eauto.
Qed.

(** A run over references that are all recorded is a no-op on the tables
    and on the counters. *)
Lemma run_linked_noop (refs : list CrossReference) :
  forall (w : World) (n : LinkStats),
    faults (store w) = [] -> Forall (is_linked (store w)) refs ->
    store (fst (fold_left step refs (w, n))) = store w
    /\ snd (fold_left step refs (w, n)) = n.
Proof.
  induction refs as [|ref refs IH]; intros w n Hf Hall; simpl; [auto|].
  inversion Hall as [|? ? Hlk Hrest]; subst.
  destruct (step_linked_noop w n ref Hf Hlk) as [Hs Hn].
  destruct (step (w, n) ref) as [w1 n1] eqn:Hstep. cbn [fst snd] in *.
  subst n1.
  assert (Hf1 : faults (store w1) = []) by now rewrite Hs.
  rewrite <- Hs in Hrest.
  destruct (IH w1 n Hf1 Hrest) as [Hs' Hn'].
  split; congruence.
Qed.

End EvolveFacts.

(* ================================================================== *)
(** * Frame facts, for any transport behaviour *)

Lemma same_tables_refl (st : Store) : same_tables st st.
Proof. unfold same_tables. auto. Qed.

Lemma same_tables_trans (a b c : Store) :
  same_tables a b -> same_tables b c -> same_tables a c.
Proof. unfold same_tables. intuition congruence. Qed.

Lemma same_tables_set_faults (f : list transport) (st : Store) :
  same_tables st (Db.set_faults f st).
Proof. unfold same_tables. simpl. auto. Qed.

(** A store call whose body reads the tables leaves them as they are. *)
Lemma call_read_same_tables {A : Type} (read : Store -> A) (st : Store) :
  same_tables st (snd (Db.call (fun s => (Ok (read s), s)) st)).
Proof.
  unfold Db.call. destruct (faults st) as [|[| |] rest]; simpl;
    auto using same_tables_refl, same_tables_set_faults.
Qed.

Lemma set_faults_nil (st : Store) : faults st = [] -> Db.set_faults [] st = st.
Proof. destruct st; simpl. now intros ->. Qed.

(** A read that gets through the transport consumes one entry of the
    plan and answers from the tables. *)
Lemma call_read_ok {A : Type} (read : Store -> A) (st : Store) :
  next_call_ok st = true ->
  Db.call (fun s => (Ok (read s), s)) st
  = (Ok (read (after_call st)), after_call st).
Proof.
  unfold next_call_ok, after_call, Db.call.
  destruct (faults st) as [|[| |] rest] eqn:Hf; simpl; try discriminate;
    intros _; [|reflexivity].
  now rewrite (set_faults_nil st Hf).
Qed.

Section FrameFacts.

Variable str_upper : string -> string.
Variable ilike : string -> string -> bool.
Variable fromisoformat_other : string -> result PyDate.date.

Lemma find_by_number_same_tables (number : option string) (st : Store) :
  same_tables st (snd (find_by_number ilike number st)).
Proof.
  unfold find_by_number. destruct number as [n|]; [|apply same_tables_refl].
  destruct (PyStr.truthy n); [|apply same_tables_refl].
  pose proof (call_read_same_tables (fun s => Db.number_matches n (laws s)) st)
    as H1.
  unfold Db.laws_eq_official_number.
  destruct (Db.call _ st) as [[[|l ls]|e] st1]; simpl in *; auto.
  pose proof (call_read_same_tables
                (fun s => Db.ilike_matches ilike ("%" ++ n ++ "%")%string
                                           (laws s)) st1) as H2.
  unfold Db.laws_ilike_official_number.
  destruct (Db.call _ st1) as [[[|l ls]|e] st2]; simpl in *;
    eauto using same_tables_trans.
Qed.

Lemma find_target_law_try_same_tables (url number : option string)
    (st : Store) :
  same_tables st (snd (find_target_law_try ilike url number st)).
Proof.
  unfold find_target_law_try.
  destruct url as [u|]; [|apply find_by_number_same_tables].
  destruct (PyStr.truthy u); [|apply find_by_number_same_tables].
  destruct (Re.url_slug u) as [slug|]; [|apply find_by_number_same_tables].
  pose proof (call_read_same_tables (fun s => Db.slug_matches slug (laws s)) st)
    as H1.
  unfold Db.laws_eq_slug.
  destruct (Db.call _ st) as [[[|l ls]|e] st1]; simpl in *; auto.
  eapply same_tables_trans; [exact H1|apply find_by_number_same_tables].
Qed.

Lemma find_target_law_same_tables (url number : option string) (w : World) :
  same_tables (store w)
              (store (snd (_find_target_law_v50 ilike url number w))).
Proof.
  unfold _find_target_law_v50.
  pose proof (find_target_law_try_same_tables url number (store w)) as H.
  destruct (find_target_law_try ilike url number (store w)) as [[r|e] st];
    exact H.
Qed.

End FrameFacts.

(* ================================================================== *)
(** * Internal references (C7) *)

Section InternalReferences.

Variable str_upper : string -> string.
Variable ilike : string -> string -> bool.
Variable fromisoformat_other : string -> result PyDate.date.
Variables source_article_id source_law_id : string.
Variable source_enactment_date : option string.

Lemma link_reference_internal (s : World * LinkStats) (ref : CrossReference) :
  is_internal ref = true ->
  link_reference str_upper ilike fromisoformat_other
                 source_article_id source_law_id
                 source_enactment_date s ref = s.
Proof. intros H. unfold link_reference. now rewrite H. Qed.

Lemma link_preamble_reference_internal (s : World * Z) (ref : CrossReference) :
  is_internal ref = true ->
  link_preamble_reference str_upper ilike source_law_id
                          source_enactment_date s ref = s.
Proof. intros H. unfold link_preamble_reference. now rewrite H. Qed.

(** C7. A reference with neither a URL nor a number (absent, null or
    empty) is skipped whatever its article designator and whatever the
    state of the store and of the transport: alone it leaves the world
    untouched, with no link counted, no status update and nothing
    logged; anywhere in a list, the run over the list is the run over
    the list without it. The same holds for the preamble pass. *)
Theorem internal_reference_is_skipped
    (ref : CrossReference) (before after : list CrossReference) (w : World) :
  PyStr.otruthy (url ref) = false ->
  PyStr.otruthy (number ref) = false ->
  _process_and_link_references str_upper ilike fromisoformat_other
                               source_article_id
    source_law_id source_enactment_date [ref] w = (w, mkStats 0 0)
  /\ _process_and_link_references str_upper ilike fromisoformat_other
                                  source_article_id
       source_law_id source_enactment_date (before ++ ref :: after) w
     = _process_and_link_references str_upper ilike fromisoformat_other
                                    source_article_id
         source_law_id source_enactment_date (before ++ after) w
  /\ _process_preamble_references str_upper ilike source_law_id
       source_enactment_date [ref] w = (w, 0)
  /\ _process_preamble_references str_upper ilike source_law_id
       source_enactment_date (before ++ ref :: after) w
     = _process_preamble_references str_upper ilike source_law_id
         source_enactment_date (before ++ after) w.
Proof.
  intros Hu Hn.
  assert (Hi : is_internal ref = true)
    by (unfold is_internal; now rewrite Hu, Hn).
  unfold _process_and_link_references, _process_preamble_references.
  repeat split.
  - simpl. now apply link_reference_internal.
  - rewrite !fold_left_app. simpl. now rewrite link_reference_internal.
  - simpl. now apply link_preamble_reference_internal.
  - rewrite !fold_left_app. simpl.
    now rewrite link_preamble_reference_internal.
Qed.

End InternalReferences.

(** Witness of C7: the internal reference of the specification's example,
    between two other references. *)
Lemma internal_reference_is_skipped_witness :
  _process_and_link_references PyStr.ascii_upper Like.ilike
                               PyDate.no_other_format Ex.source_article
    Ex.source_law (Some "2024-01-01") [Ex.ref_internal] Ex.w0
  = (Ex.w0, mkStats 0 0).
Proof.
  apply (proj1 (internal_reference_is_skipped
                  PyStr.ascii_upper Like.ilike PyDate.no_other_format
                  Ex.source_article Ex.source_law
                  (Some "2024-01-01") Ex.ref_internal
                  [Ex.ref_amends] [Ex.ref_revokes] Ex.w0 eq_refl eq_refl)).
Defined.

(* ================================================================== *)
(** * The transport plan: what each store call consumes *)

Lemma next_call_delivered (st : Store) :
  next_call_ok st = delivered (outcome_at 0 st).
Proof.
  unfold next_call_ok, outcome_at. now destruct (faults st) as [|[| |] rest].
Qed.

Lemma hd_outcome (st : Store) :
  hd Delivered (faults st) = outcome_at 0 st.
Proof. unfold outcome_at. now destruct (faults st). Qed.

Lemma after_calls_tables (n : nat) (st : Store) :
  same_tables st (after_calls n st).
Proof. unfold same_tables, after_calls. simpl. auto. Qed.

Lemma after_calls_zero (st : Store) : after_calls 0 st = st.
Proof. now destruct st. Qed.

Lemma after_calls_add (n m : nat) (st : Store) :
  after_calls m (after_calls n st) = after_calls (n + m) st.
Proof.
  unfold after_calls. simpl. unfold Db.set_faults. simpl.
  now rewrite skipn_skipn, Nat.add_comm.
Qed.

Lemma outcome_after_calls (n i : nat) (st : Store) :
  outcome_at i (after_calls n st) = outcome_at (n + i) st.
Proof.
  unfold outcome_at, after_calls. simpl.
  generalize (faults st) as l. induction n as [|n IH]; intros l; [reflexivity|].
  destruct l as [|t l]; [now destruct i|]. simpl. apply IH.
Qed.


(** A store call consumes one entry of the plan. *)
Lemma call_faults {A : Type} (body : Store -> result A * Store) (st : Store) :
  (forall s, faults (snd (body s)) = faults s) ->
  faults (snd (Db.call body st)) = tl (faults st).
Proof.
  intros Hb. unfold Db.call.
  destruct (faults st) as [|[| |] rest] eqn:Hf; cbn [tl snd];
    rewrite ?Hb; simpl; auto.
Qed.

(** A delivered call is the call made on the store with the rest of the
    plan. *)
Lemma call_delivered {A : Type} (body : Store -> result A * Store)
    (st : Store) :
  delivered (outcome_at 0 st) = true ->
  Db.call body st = body (after_calls 1 st).
Proof.
  unfold outcome_at, after_calls, Db.call.
  destruct (faults st) as [|[| |] rest] eqn:Hf; simpl; try discriminate;
    intros _; [|reflexivity].
  now rewrite (set_faults_nil st Hf).
Qed.

(** A call that is not delivered raises; a read leaves the tables. *)
Lemma call_read_fails {A : Type} (read : Store -> A) (st : Store) :
  delivered (outcome_at 0 st) = false ->
  Db.call (fun s => (Ok (read s), s)) st = (Raise StoreFault, after_calls 1 st).
Proof.
  unfold outcome_at, after_calls, Db.call.
  destruct (faults st) as [|[| |] rest] eqn:Hf; simpl; try discriminate;
    reflexivity.
Qed.

Lemma call_read_delivered {A : Type} (read : Store -> A) (st : Store) :
  delivered (outcome_at 0 st) = true ->
  Db.call (fun s => (Ok (read s), s)) st
  = (Ok (read (after_calls 1 st)), after_calls 1 st).
Proof. intros H. now rewrite (call_delivered _ _ H). Qed.

(** Going through the plan never adds a lost reply to it; the entry
    consumed counts for one when it is a lost reply. *)
Lemma lost_replies_tail (st st' : Store) :
  faults st' = tl (faults st) ->
  lost_replies st' <= lost_replies st
  /\ (outcome_at 0 st = ReplyLost -> lost_replies st' + 1 = lost_replies st).
Proof.
  unfold lost_replies, outcome_at. intros ->.
  destruct (faults st) as [|[| |] rest]; cbn [tl filter nth List.length];
    (split; [lia|intros H; try discriminate H; lia]).
Qed.

Lemma call_read_lost {A : Type} (read : Store -> A) (st : Store) :
  lost_replies (snd (Db.call (fun s => (Ok (read s), s)) st))
  <= lost_replies st.
Proof.
  apply lost_replies_tail. now apply call_faults.
Qed.

Section PlanFacts.

Variable ilike : string -> string -> bool.
Variable fromisoformat_other : string -> result PyDate.date.

Lemma find_by_number_lost (number : option string) (st : Store) :
  lost_replies (snd (find_by_number ilike number st)) <= lost_replies st.
Proof.
  unfold find_by_number. destruct number as [n|]; [|simpl; lia].
  destruct (PyStr.truthy n); [|simpl; lia].
  pose proof (call_read_lost (fun s => Db.number_matches n (laws s)) st)
    as H1.
  unfold Db.laws_eq_official_number.
  destruct (Db.call _ st) as [[[|l ls]|e] st1]; simpl in *; auto.
  pose proof (call_read_lost
                (fun s => Db.ilike_matches ilike ("%" ++ n ++ "%")%string
                                           (laws s)) st1) as H2.
  unfold Db.laws_ilike_official_number.
  destruct (Db.call _ st1) as [[[|l ls]|e] st2]; simpl in *; lia.
Qed.

Lemma find_target_law_try_lost (url number : option string) (st : Store) :
  lost_replies (snd (find_target_law_try ilike url number st))
  <= lost_replies st.
Proof.
  unfold find_target_law_try.
  destruct url as [u|]; [|apply find_by_number_lost].
  destruct (PyStr.truthy u); [|apply find_by_number_lost].
  destruct (Re.url_slug u) as [slug|]; [|apply find_by_number_lost].
  pose proof (call_read_lost (fun s => Db.slug_matches slug (laws s)) st)
    as H1.
  unfold Db.laws_eq_slug.
  destruct (Db.call _ st) as [[[|l ls]|e] st1]; simpl in *; auto.
  pose proof (find_by_number_lost number st1). lia.
Qed.

Lemma find_target_law_lost (url number : option string) (w : World) :
  lost_replies (store (snd (_find_target_law_v50 ilike url number w)))
  <= lost_replies (store w).
Proof.
  unfold _find_target_law_v50.
  pose proof (find_target_law_try_lost url number (store w)) as H.
  destruct (find_target_law_try ilike url number (store w)) as [[r|e] st];
    exact H.
Qed.

End PlanFacts.

Lemma find_target_article_lost (l art : string) (w : World) :
  lost_replies (store (snd (_find_target_article_v50 l art w)))
  <= lost_replies (store w).
Proof.
  unfold _find_target_article_v50.
  destruct (Re.search_digits art) as [digits|]; [|simpl; lia].
  pose proof (call_read_lost
                (fun s => Db.article_matches l (Re.int_of_digits digits)
                                             "ACTIVE" (law_articles s))
                (store w)) as H.
  unfold Db.articles_eq.
  destruct (Db.call _ (store w)) as [[[|a rest]|e] st]; exact H.
Qed.



Lemma insert_reference_faults (row : reference_row) (st : Store) :
  faults (snd (Db.insert_reference row st)) = tl (faults st).
Proof.
  apply call_faults. intros s. now destruct (existsb _ _).
Qed.

(** * The lookups of the resolution against the plan *)

Section ResolutionPlan.

Variable ilike : string -> string -> bool.
Variable fromisoformat_other : string -> result PyDate.date.


(** The lookups by number when lookup [k] raises, the lookups before
    it being delivered and selecting no row. *)
Lemma find_by_number_raises (number : option string) (st : Store)
    (k : nat) :
  (k < List.length (number_lookups ilike (laws st) number))%nat ->
  misses k (number_lookups ilike (laws st) number) (faults st) = true ->
  delivered (outcome_at k st) = false ->
  find_by_number ilike number st = (Raise StoreFault, after_calls (S k) st).
Proof.
  unfold number_lookups, find_by_number.
  destruct number as [n|]; [|simpl; lia].
  destruct (PyStr.truthy n); [|simpl; lia].
  unfold Db.laws_eq_official_number, Db.laws_ilike_official_number.
  destruct k as [|[|k]]; cbn [misses List.length].
  - intros _ _ Hd. now rewrite (call_read_fails _ _ Hd).
  - destruct (Db.number_matches n (laws st)) as [|l ls] eqn:Hn;
      [|discriminate].
    rewrite andb_true_r, hd_outcome. intros _ Hd0 Hd1.
    rewrite (call_read_delivered _ st Hd0).
    change (laws (after_calls 1 st)) with (laws st). rewrite Hn.
    rewrite call_read_fails by (rewrite outcome_after_calls; exact Hd1).
    now rewrite after_calls_add.
  - lia.
Qed.


Lemma find_target_law_try_raises (url number : option string) (st : Store)
    (k : nat) :
  (k < List.length (lookups ilike (laws st) url number))%nat ->
  misses k (lookups ilike (laws st) url number) (faults st) = true ->
  delivered (outcome_at k st) = false ->
  find_target_law_try ilike url number st
  = (Raise StoreFault, after_calls (S k) st).
Proof.
  unfold lookups, slug_lookup, slug_of, find_target_law_try.
  destruct url as [u|]; [|apply find_by_number_raises].
  destruct (PyStr.truthy u) eqn:Hu.
  - destruct (Re.url_slug u) as [slug|]; [|apply find_by_number_raises].
    cbn [app]. unfold Db.laws_eq_slug.
    destruct k as [|k]; cbn [misses List.length].
    + intros _ _ Hd. now rewrite (call_read_fails _ _ Hd).
    + destruct (Db.slug_matches slug (laws st)) as [|l ls] eqn:Hs;
        [|discriminate].
      intros Hk Hm Hd. apply andb_true_iff in Hm. destruct Hm as [Hd0 Hm].
      rewrite hd_outcome in Hd0.
      rewrite (call_read_delivered _ st Hd0).
      change (laws (after_calls 1 st)) with (laws st). rewrite Hs.
      rewrite (find_by_number_raises number (after_calls 1 st) k).
      * now rewrite after_calls_add.
      * simpl in Hk |- *. lia.
      * exact Hm.
      * rewrite outcome_after_calls. exact Hd.
  - destruct u; [|discriminate]. cbn [Re.url_slug Re.after_last_slash app].
    apply find_by_number_raises.
Qed.

(** A reference that the linker passes over as internal has no
    lookup. *)
Lemma internal_has_no_lookup (ls : list law_row) (ref : CrossReference) :
  is_internal ref = true ->
  lookups ilike ls (url ref) (number ref) = [].
Proof.
  unfold is_internal, lookups, slug_lookup, slug_of, number_lookups.
  intros H. apply andb_true_iff in H. destruct H as [Hu Hn].
  apply negb_true_iff in Hu, Hn.
  destruct (url ref) as [[|c u]|]; try discriminate;
    destruct (number ref) as [[|c' n]|]; try discriminate; reflexivity.
Qed.

End ResolutionPlan.


(* ================================================================== *)
(** * Store failures during resolution (C10) *)

Section StoreFailure.

Variable str_upper : string -> string.
Variable ilike : string -> string -> bool.
Variable fromisoformat_other : string -> result PyDate.date.
Variables source_article_id source_law_id : string.
Variable source_enactment_date : option string.

(** In [_find_target_law_v50] only the store lookups can raise: when
    the [try] block raises, one of its lookups was not delivered, the
    lookups before it having selected no row. *)
Lemma find_by_number_raise_inv (number : option string) (st st' : Store)
    (e : exn) :
  find_by_number ilike number st = (Raise e, st') ->
  e = StoreFault
  /\ exists j,
       (j < List.length (number_lookups ilike (laws st) number))%nat
       /\ misses j (number_lookups ilike (laws st) number) (faults st) = true
       /\ delivered (outcome_at j st) = false.
Proof.
  unfold find_by_number, number_lookups.
  destruct number as [n|]; [|discriminate].
  destruct (PyStr.truthy n); [|discriminate].
  unfold Db.laws_eq_official_number, Db.laws_ilike_official_number.
  destruct (delivered (outcome_at 0 st)) eqn:H0.
  - rewrite (call_read_delivered _ st H0).
    change (laws (after_calls 1 st)) with (laws st).
    destruct (Db.number_matches n (laws st)) as [|l ls] eqn:Hn;
      [|discriminate].
    destruct (delivered (outcome_at 1 st)) eqn:H1.
    + rewrite call_read_delivered
        by (rewrite outcome_after_calls; exact H1).
      destruct (Db.ilike_matches ilike _ _); discriminate.
    + rewrite call_read_fails by (rewrite outcome_after_calls; exact H1).
      intros H. inversion H. split; [reflexivity|].
      exists 1%nat. split; [simpl; lia|]. split; [|exact H1].
      cbn [misses]. now rewrite hd_outcome, H0.
  - rewrite (call_read_fails _ st H0). intros H. inversion H.
    split; [reflexivity|]. exists O. split; [simpl; lia|]. auto.
Qed.

Lemma find_target_law_try_raise_inv (url number : option string)
    (st st' : Store) (e : exn) :
  find_target_law_try ilike url number st = (Raise e, st') ->
  e = StoreFault
  /\ exists j,
       (j < List.length (lookups ilike (laws st) url number))%nat
       /\ misses j (lookups ilike (laws st) url number) (faults st) = true
       /\ delivered (outcome_at j st) = false.
Proof.
  unfold find_target_law_try, lookups, slug_lookup, slug_of.
  destruct url as [u|]; [|apply find_by_number_raise_inv].
  destruct (PyStr.truthy u) eqn:Hu.
  - destruct (Re.url_slug u) as [slug|]; [|apply find_by_number_raise_inv].
    cbn [app]. unfold Db.laws_eq_slug.
    destruct (delivered (outcome_at 0 st)) eqn:H0.
    + rewrite (call_read_delivered _ st H0).
      change (laws (after_calls 1 st)) with (laws st).
      destruct (Db.slug_matches slug (laws st)) as [|l ls] eqn:Hs;
        [|discriminate].
      intros H. apply find_by_number_raise_inv in H.
      destruct H as [He [j [Hj [Hm Hd]]]]. split; [exact He|].
      exists (S j). split; [simpl in *; lia|]. split.
      * cbn [misses]. rewrite hd_outcome, H0. exact Hm.
      * rewrite outcome_after_calls in Hd. exact Hd.
    + rewrite (call_read_fails _ st H0). intros H. inversion H.
      split; [reflexivity|]. exists O. split; [simpl; lia|]. auto.
  - destruct u; [|discriminate]. cbn [Re.url_slug Re.after_last_slash app].
    apply find_by_number_raise_inv.
Qed.

(** C10. A lookup of the resolution fails in the store: lookup number
    [k] among those that [_find_target_law_v50] makes for the URL and
    the number (by slug, by exact number, by partial number) is not
    delivered, the lookups before it having been delivered and having
    selected no row. Then [_find_target_law_v50] logs the exception at
    DEBUG level and returns [None], as for a reference that matches no
    law; the tables are untouched; the linker then passes over the
    reference with one more DEBUG record and unchanged counters, and
    the preamble pass passes over it too. No exception reaches the
    caller: these functions are total. Conversely the [try] block of
    [_find_target_law_v50] raises only in this way. *)
Theorem store_failure_is_an_unresolved_reference
    (ref_url ref_number : option string) (w : World) (k : nat) :
  (k < List.length (lookups ilike (laws (store w)) ref_url ref_number))%nat ->
  misses k (lookups ilike (laws (store w)) ref_url ref_number)
         (faults (store w)) = true ->
  delivered (outcome_at k (store w)) = false ->
  let w' := logger DEBUG (MsgErrorFindingTargetLaw StoreFault)
                   (with_store (after_calls (S k) (store w)) w) in
  _find_target_law_v50 ilike ref_url ref_number w = (None, w')
  /\ same_tables (store w) (store w')
  /\ (forall (ref : CrossReference) (n : LinkStats),
        url ref = ref_url -> number ref = ref_number ->
        link_reference str_upper ilike fromisoformat_other
                       source_article_id source_law_id
                       source_enactment_date (w, n) ref
        = (logger DEBUG (MsgTargetLawNotFound ref) w', n))
  /\ (forall (ref : CrossReference) (c : Z),
        url ref = ref_url -> number ref = ref_number ->
        link_preamble_reference str_upper ilike source_law_id
                                source_enactment_date (w, c) ref
        = (w', c))
  /\ (forall (e : exn) (st' : Store),
        find_target_law_try ilike ref_url ref_number (store w)
        = (Raise e, st') ->
        e = StoreFault
        /\ exists j,
             (j < List.length
                    (lookups ilike (laws (store w)) ref_url ref_number))%nat
             /\ misses j (lookups ilike (laws (store w)) ref_url ref_number)
                       (faults (store w)) = true
             /\ delivered (outcome_at j (store w)) = false).
Proof.
  intros Hk Hm Hd w'.
  assert (Hfind : _find_target_law_v50 ilike ref_url ref_number w = (None, w')).
  { unfold _find_target_law_v50.
    now rewrite (find_target_law_try_raises ilike _ _ _ _ Hk Hm Hd). }
  assert (Hint : forall ref, url ref = ref_url -> number ref = ref_number ->
                   is_internal ref = false).
  { intros ref Hu Hn. destruct (is_internal ref) eqn:Hi; [|reflexivity].
    apply (internal_has_no_lookup ilike (laws (store w))) in Hi.
    rewrite Hu, Hn in Hi. rewrite Hi in Hk. simpl in Hk. lia. }
  split; [exact Hfind|]. split; [apply after_calls_tables|]. split; [|split].
  - intros ref n Hu Hn. unfold link_reference.
    rewrite (Hint ref Hu Hn), Hu, Hn. cbn [fst snd]. now rewrite Hfind.
  - intros ref c Hu Hn. unfold link_preamble_reference.
    rewrite (Hint ref Hu Hn), Hu, Hn. cbn [fst snd]. now rewrite Hfind.
  - intros e st'. apply find_target_law_try_raise_inv.
Qed.

End StoreFailure.

(** Witness of C10: the slug of the URL and the number select no law,
    and the reply to the lookup by partial number, the third store call,
    is lost. *)
Lemma store_failure_is_an_unresolved_reference_witness :
  _find_target_law_v50 Like.ilike (url Ex.ref_partial_number)
                       (number Ex.ref_partial_number) Ex.w_third_reply_lost
  = (None,
     logger DEBUG (MsgErrorFindingTargetLaw StoreFault)
            (with_store (after_calls 3 (store Ex.w_third_reply_lost))
                        Ex.w_third_reply_lost)).
Proof.
  apply (proj1 (store_failure_is_an_unresolved_reference
                  PyStr.ascii_upper Like.ilike PyDate.no_other_format
                  Ex.source_article Ex.source_law
                  (Some "2024-01-01") (url Ex.ref_partial_number)
                  (number Ex.ref_partial_number) Ex.w_third_reply_lost 2
                  ltac:(simpl; lia) eq_refl eq_refl)).
Defined.

(** The same reference in a store that answers resolves to Decreto-Lei
    41/2023 by the partial match: the lost reply has made it an
    unresolved reference. *)
Example partial_number_resolves_when_the_store_answers :
  fst (_find_target_law_v50 Like.ilike (url Ex.ref_partial_number)
                            (number Ex.ref_partial_number) Ex.w0)
  = Some Ex.law_41_2023
  /\ snd (_process_and_link_references PyStr.ascii_upper Like.ilike
            PyDate.no_other_format
            Ex.source_article Ex.source_law (Some "2024-01-01")
            [Ex.ref_partial_number] Ex.w_third_reply_lost)
     = mkStats 0 0.
Proof. split; reflexivity. Qed.

(* ================================================================== *)
(** * The law-to-law link of a resolved reference (C3, C9) *)

Lemma after_last_slash_none (s : string) :
  has_slash s = false -> Re.after_last_slash s = None.
Proof.
  unfold has_slash. induction s as [|c s IH]; intros H; [reflexivity|].
  cbn [list_ascii_of_string existsb] in H.
  apply orb_false_iff in H. destruct H as [Hc Hs].
  cbn [Re.after_last_slash]. rewrite (IH Hs).
  rewrite Ascii.eqb_sym, Hc. reflexivity.
Qed.

(** The slug the linker reads from a URL is the text after its last
    slash. *)
Lemma url_slug_segment (prefix seg : string) :
  seg <> EmptyString -> has_slash seg = false ->
  Re.url_slug (prefix ++ "/" ++ seg)%string = Some seg.
Proof.
  intros Hne Hs. unfold Re.url_slug.
  assert (H : Re.after_last_slash (prefix ++ "/" ++ seg)%string = Some seg).
  { induction prefix as [|c p IH].
    - change (EmptyString ++ "/" ++ seg)%string with (String "/" seg).
      cbn [Re.after_last_slash].
      now rewrite (after_last_slash_none seg Hs).
    - change (String c p ++ "/" ++ seg)%string
        with (String c (p ++ "/" ++ seg)%string).
      cbn [Re.after_last_slash]. now rewrite IH. }
  rewrite H. destruct seg; [contradiction|reflexivity].
Qed.

Section LawLink.

Variable str_upper : string -> string.
Variable ilike : string -> string -> bool.
Variable fromisoformat_other : string -> result PyDate.date.
Variables source_article_id source_law_id : string.
Variable source_enactment_date : option string.

Local Abbreviation step :=
  (link_reference str_upper ilike fromisoformat_other
                  source_article_id source_law_id
                  source_enactment_date).

Lemma link_article_relationships (rel id : string) (w : World)
    (n : LinkStats) :
  faults (store w) = [] ->
  let r := link_article str_upper fromisoformat_other
                        source_article_id source_enactment_date
                        rel id (w, n) in
  law_relationships (store (fst r)) = law_relationships (store w)
  /\ law_relationships_count (snd r) = law_relationships_count n
  /\ faults (store (fst r)) = [].
Proof.
  intros Hf r.
  destruct (link_article_store str_upper fromisoformat_other source_article_id
              source_enactment_date rel id w n Hf)
    as [[_ [Hs Hn]]|[_ [Hn Hs]]]; fold r in Hs, Hn; cbv zeta in Hs;
    rewrite Hs, Hn; [auto|].
  destruct source_enactment_date as [d|]; [|simpl; auto].
  destruct (_ && _); simpl; auto.
Qed.

(** What one resolved reference does to [law_relationships]. *)
Lemma step_relationships (w : World) (n : LinkStats) (ref : CrossReference)
    (target : law_row) :
  faults (store w) = [] -> is_internal ref = false ->
  resolve_target ilike (laws (store w)) (url ref) (number ref) = Some target ->
  let row := mkRelationship source_law_id (law_id target)
                            (str_upper (relationship_of ref)) in
  (In row (law_relationships (store w))
   /\ law_relationships (store (fst (step (w, n) ref)))
      = law_relationships (store w)
   /\ law_relationships_count (snd (step (w, n) ref))
      = law_relationships_count n)
  \/ (~ In row (law_relationships (store w))
      /\ law_relationships (store (fst (step (w, n) ref)))
         = law_relationships (store w) ++ [row]
      /\ law_relationships_count (snd (step (w, n) ref))
         = law_relationships_count n + 1).
Proof.
  intros Hf Hi Hres row.
  rewrite (link_reference_no_faults _ _ _ _ _ _ _ _ _ Hf), Hi, Hres.
  cbv zeta.
  assert (Hcases :
    forall s2 : World * LinkStats,
      faults (store (fst s2)) = [] ->
      let r := match article_number ref with
               | Some art =>
                   if PyStr.truthy art then
                     match resolve_article (law_articles (store (fst s2)))
                                           (law_id target) art with
                     | Some id =>
                         if PyStr.truthy id
                         then link_article str_upper fromisoformat_other
                                           source_article_id
                                source_enactment_date (relationship_of ref)
                                id s2
                         else s2
                     | None => s2
                     end
                   else s2
               | None => s2
               end in
      law_relationships (store (fst r)) = law_relationships (store (fst s2))
      /\ law_relationships_count (snd r) = law_relationships_count (snd s2)).
  { intros [w2 n2] Hf2. cbn [fst snd] in *. cbv zeta.
    destruct (article_number ref) as [art|]; [|auto].
    destruct (PyStr.truthy art); [|auto].
    destruct (resolve_article _ _ _) as [id|]; [|auto].
    destruct (PyStr.truthy id); [|auto].
    destruct (link_article_relationships (relationship_of ref) id w2 n2 Hf2)
      as [H1 [H2 _]]. auto. }
  destruct (link_law_store str_upper source_law_id source_enactment_date
              (relationship_of ref) (law_id target)
              (law_enactment_date target) w n Hf)
    as [[Hin [Hs Hn]]|[Hin [Hs Hn]]]; cbv zeta in Hs, Hn;
    [left|right]; (split; [exact Hin|]);
    destruct (Hcases (link_law str_upper source_law_id source_enactment_date
                        (relationship_of ref) (law_id target)
                        (law_enactment_date target) (w, n)))
      as [H1 H2]; try (rewrite Hs; simpl; exact Hf);
    cbv zeta in H1, H2; rewrite H1, H2, Hs, Hn; simpl; auto.
Qed.

(** C9, as amended. The kind stored with a law-to-law link is the
    upper-cased value of the reference's [relationship], whatever that
    value is; the kind is that of "cites" only when the reference has no
    [relationship] key. For a reference that resolves to a law, in a
    store that answers: after the run the link of that kind is in the
    table, added as the one new row (and counted) when it was not yet
    recorded, and nothing else is added. *)
Theorem link_kind_is_uppercased_relationship
    (w : World) (ref : CrossReference) (target : law_row) :
  faults (store w) = [] -> is_internal ref = false ->
  resolve_target ilike (laws (store w)) (url ref) (number ref) = Some target ->
  let kind := str_upper (match relationship ref with
                         | Some r => r
                         | None => "cites"
                         end) in
  let row := mkRelationship source_law_id (law_id target) kind in
  let r := _process_and_link_references str_upper ilike fromisoformat_other
                                        source_article_id
             source_law_id source_enactment_date [ref] w in
  In row (law_relationships (store (fst r)))
  /\ (~ In row (law_relationships (store w)) ->
      law_relationships (store (fst r)) = law_relationships (store w) ++ [row]
      /\ law_relationships_count (snd r) = 1)
  /\ (In row (law_relationships (store w)) ->
      law_relationships (store (fst r)) = law_relationships (store w)
      /\ law_relationships_count (snd r) = 0).
Proof.
  intros Hf Hi Hres kind row r. subst r.
  unfold _process_and_link_references. simpl fold_left.
  destruct (step_relationships w (mkStats 0 0) ref target Hf Hi Hres)
    as [[Hin [H1 H2]]|[Hno [H1 H2]]]; rewrite H1, H2.
  - split; [exact Hin|]. split; [|auto].
    intros Hno. exfalso. apply Hno. exact Hin.
  - split; [apply in_or_app; right; left; reflexivity|].
    split; [intros _; split; reflexivity|].
    intros Hin. exfalso. apply Hno. exact Hin.
Qed.

(** C3. Resolution follows the priority order of the specification.
    (1) A URL whose final segment is the slug of a law resolves to the
    first such law, for every number, after exactly one store call: the
    number is not looked up. (2) In a store that answers, the function
    computes [resolve_target]. (3) When the URL resolves nothing and a
    number is given, the first exact match on the number is taken, and
    the first partial match only when there is no exact match. (4) After
    the linker has processed a reference with such a URL, the link to
    the law the URL resolves to is in the table, and no other row was
    added, whatever the number names. *)
Theorem target_resolution_priority
    (w : World) (ref_url ref_number : option string) :
  (forall prefix seg l ls,
      ref_url = Some (prefix ++ "/" ++ seg)%string ->
      seg <> EmptyString -> has_slash seg = false ->
      next_call_ok (store w) = true ->
      Db.slug_matches seg (laws (store w)) = l :: ls ->
      _find_target_law_v50 ilike ref_url ref_number w
      = (Some l, with_store (after_call (store w)) w))
  /\ (faults (store w) = [] ->
      _find_target_law_v50 ilike ref_url ref_number w
      = (resolve_target ilike (laws (store w)) ref_url ref_number, w))
  /\ (faults (store w) = [] ->
      resolve_by_url (laws (store w)) ref_url = None ->
      forall n, ref_number = Some n -> n <> EmptyString ->
      fst (_find_target_law_v50 ilike ref_url ref_number w)
      = match Db.number_matches n (laws (store w)) with
        | l :: _ => Some l
        | [] => hd_error (Db.ilike_matches ilike ("%" ++ n ++ "%")%string
                                           (laws (store w)))
        end)
  /\ (forall ref prefix seg l ls,
      url ref = ref_url -> number ref = ref_number ->
      ref_url = Some (prefix ++ "/" ++ seg)%string ->
      seg <> EmptyString -> has_slash seg = false ->
      faults (store w) = [] ->
      Db.slug_matches seg (laws (store w)) = l :: ls ->
      let row := mkRelationship source_law_id (law_id l)
                                (str_upper (relationship_of ref)) in
      let after :=
        law_relationships
          (store (fst (_process_and_link_references str_upper ilike
                         fromisoformat_other source_article_id source_law_id
                         source_enactment_date [ref] w))) in
      In row after
      /\ (after = law_relationships (store w)
          \/ after = law_relationships (store w) ++ [row])).
Proof.
  assert (Hurl : forall prefix seg l ls,
            ref_url = Some (prefix ++ "/" ++ seg)%string ->
            seg <> EmptyString -> has_slash seg = false ->
            Db.slug_matches seg (laws (store w)) = l :: ls ->
            resolve_by_url (laws (store w)) ref_url = Some l).
  { intros prefix seg l ls -> Hne Hs Hm. unfold resolve_by_url.
    now rewrite (url_slug_segment prefix seg Hne Hs), Hm. }
  split; [|split; [|split]].
  - intros prefix seg l ls -> Hne Hs Hok Hm.
    unfold _find_target_law_v50, find_target_law_try.
    assert (Hu : PyStr.truthy (prefix ++ "/" ++ seg)%string = true)
      by (destruct prefix; reflexivity).
    rewrite Hu, (url_slug_segment prefix seg Hne Hs).
    unfold Db.laws_eq_slug.
    rewrite (call_read_ok (fun s => Db.slug_matches seg (laws s)) _ Hok).
    simpl laws. now rewrite Hm.
  - intros Hf. now apply find_target_law_no_faults.
  - intros Hf Hnone n -> Hn.
    rewrite (find_target_law_no_faults _ _ _ _ Hf). simpl.
    unfold resolve_target. rewrite Hnone. unfold resolve_by_number.
    assert (Ht : PyStr.truthy n = true)
      by (destruct n; [contradiction|reflexivity]).
    rewrite Ht. now destruct (Db.number_matches n (laws (store w))).
  - intros ref prefix seg l ls Hu Hn Hurl' Hne Hs Hf Hm row after.
    subst after.
    assert (Hi : is_internal ref = false).
    { unfold is_internal. rewrite Hu, Hurl'.
      now destruct prefix. }
    assert (Hres : resolve_target ilike (laws (store w)) (url ref)
                                  (number ref) = Some l).
    { unfold resolve_target. rewrite Hu.
      now rewrite (Hurl prefix seg l ls Hurl' Hne Hs Hm). }
    unfold _process_and_link_references. simpl fold_left.
    destruct (step_relationships w (mkStats 0 0) ref l Hf Hi Hres)
      as [[Hin [H1 _]]|[_ [H1 _]]]; rewrite H1.
    + split; [exact Hin|now left].
    + split; [apply in_or_app; right; left; reflexivity|now right].
Qed.

End LawLink.

(** Witness of C3: a reference whose URL names Lei 3/2004 and whose number
    names Decreto-Lei 41/2023 is linked to Lei 3/2004. *)
Lemma target_resolution_priority_witness :
  let after :=
    law_relationships
      (store (fst (_process_and_link_references PyStr.ascii_upper Like.ilike
                     PyDate.no_other_format
                     Ex.source_article Ex.source_law (Some "2024-01-01")
                     [Ex.ref_url_and_number] Ex.w0))) in
  In (mkRelationship Ex.source_law "law-3-2004" "CITES") after
  /\ (after = [] \/ after = [mkRelationship Ex.source_law "law-3-2004" "CITES"]).
Proof.
  apply (proj2 (proj2 (proj2 (target_resolution_priority
           PyStr.ascii_upper Like.ilike PyDate.no_other_format
           Ex.source_article Ex.source_law
           (Some "2024-01-01") Ex.w0 (url Ex.ref_url_and_number)
           (number Ex.ref_url_and_number))))
         Ex.ref_url_and_number "https://diariodarepublica.pt/dr/detalhe/lei"
         "3-2004-603478" Ex.law_3_2004 []
         eq_refl eq_refl eq_refl ltac:(discriminate) eq_refl eq_refl eq_refl).
Defined.

(** C9, counterexample. The kind "modifies" is none of cites, amends,
    revokes, references_internal; the link the linker records carries the
    kind MODIFIES, not the kind CITES. *)
Lemma unrecognized_kind_is_not_cites :
  relationship Ex.ref_modifies = Some "modifies"
  /\ law_relationships
       (store (fst (_process_and_link_references PyStr.ascii_upper Like.ilike
                      PyDate.no_other_format
                      Ex.source_article Ex.source_law (Some "2024-01-01")
                      [Ex.ref_modifies] Ex.w0)))
     = [mkRelationship Ex.source_law "law-41-2023" "MODIFIES"]
  /\ mkRelationship Ex.source_law "law-41-2023" "MODIFIES"
     <> mkRelationship Ex.source_law "law-41-2023" (PyStr.ascii_upper "cites").
Proof.
  repeat split. discriminate.
Qed.

(** Witness of the amended C9: a reference without a kind is recorded as
    CITES. *)
Lemma link_kind_is_uppercased_relationship_witness :
  In (mkRelationship Ex.source_law "law-41-2023" "CITES")
     (law_relationships
        (store (fst (_process_and_link_references PyStr.ascii_upper Like.ilike
                       PyDate.no_other_format
                       Ex.source_article Ex.source_law (Some "2024-01-01")
                       [Ex.ref_no_kind] Ex.w0)))).
Proof.
  apply (proj1 (link_kind_is_uppercased_relationship
                  PyStr.ascii_upper Like.ilike PyDate.no_other_format
                  Ex.source_article Ex.source_law
                  (Some "2024-01-01") Ex.w0 Ex.ref_no_kind Ex.law_41_2023
                  eq_refl eq_refl eq_refl)).
Defined.

(* ================================================================== *)
(** * Dates: reading back what [isoformat] writes, and the day before *)

Lemma digit_char_roundtrip (n : Z) :
  0 <= n < 10 ->
  PyStr.is_digit (PyDate.digit_char n) = true
  /\ PyStr.digit_val (PyDate.digit_char n) = n.
Proof.
  intros H. rewrite <- (Z2Nat.id n) by lia.
  assert (Hk : (Z.to_nat n < 10)%nat) by lia.
  revert Hk. generalize (Z.to_nat n) as k. intros k Hk.
  do 10 (destruct k as [|k]; [split; reflexivity|]). lia.
Qed.

Lemma digits2_fmt2 (n : Z) :
  0 <= n < 100 ->
  PyDate.digits2 (PyDate.digit_char (n / 10)) (PyDate.digit_char (n mod 10))
  = Some n.
Proof.
  intros H. unfold PyDate.digits2.
  assert (H1 : 0 <= n / 10 < 10) by (Z.div_mod_to_equations; lia).
  assert (H2 : 0 <= n mod 10 < 10) by (Z.div_mod_to_equations; lia).
  destruct (digit_char_roundtrip _ H1) as [Ha Hb].
  destruct (digit_char_roundtrip _ H2) as [Hc Hd].
  rewrite Ha, Hb, Hc, Hd. cbn [andb]. f_equal. Z.div_mod_to_equations; lia.
Qed.

Lemma digits4_fmt4 (n : Z) :
  0 <= n < 10000 ->
  PyDate.digits4 (PyDate.digit_char (n / 100 / 10))
                 (PyDate.digit_char ((n / 100) mod 10))
                 (PyDate.digit_char (n mod 100 / 10))
                 (PyDate.digit_char ((n mod 100) mod 10))
  = Some n.
Proof.
  intros H. unfold PyDate.digits4.
  assert (H1 : 0 <= n / 100 < 100) by (Z.div_mod_to_equations; lia).
  assert (H2 : 0 <= n mod 100 < 100) by (Z.div_mod_to_equations; lia).
  rewrite (digits2_fmt2 _ H1), (digits2_fmt2 _ H2).
  f_equal. Z.div_mod_to_equations; lia.
Qed.










(* ================================================================== *)
(** * Status updates of target articles (C5) *)



Lemma find_target_article_same_tables (l art : string) (w : World) :
  same_tables (store w) (store (snd (_find_target_article_v50 l art w))).
Proof.
  unfold _find_target_article_v50.
  destruct (Re.search_digits art) as [digits|]; [|apply same_tables_refl].
  pose proof (call_read_same_tables
                (fun s => Db.article_matches l (Re.int_of_digits digits)
                                             "ACTIVE" (law_articles s))
                (store w)) as H.
  unfold Db.articles_eq.
  destruct (Db.call _ (store w)) as [[[|a rest]|e] st]; exact H.
Qed.

Section StatusUpdate.

Variable str_upper : string -> string.
Variable ilike : string -> string -> bool.
Variable fromisoformat_other : string -> result PyDate.date.
Variables source_article_id source_law_id : string.







End StatusUpdate.



(** A status update that is refused: the reference [revokes] resolves
    to the ACTIVE article 5 of 41/2023, the link from the source article
    is inserted and counted and the source date is valid, but the update
    call raises; the exception is caught, a warning is logged and the
    article stays ACTIVE. *)
Example refused_update_leaves_the_article_active :
  let r := _process_and_link_references PyStr.ascii_upper Like.ilike
             PyDate.no_other_format
             Ex.source_article Ex.source_law (Some "2024-01-01")
             [Ex.ref_revokes] Ex.w_update_refused in
  law_articles (store (fst r)) = [Ex.article_5; Ex.article_6]
  /\ law_article_references (store (fst r))
     = [mkReference "art-new-1" "art-41-2023-5" "REVOKES"]
  /\ snd r = mkStats 1 1
  /\ In (WARNING, MsgFailedToUpdateArticleStatus StoreFault) (log (fst r)).
Proof. cbv zeta. repeat split. simpl. tauto. Qed.

(** A reply lost on the insert of the article link: the link is in the
    table, it is not counted, and the article stays ACTIVE. *)
Example lost_link_reply_leaves_the_article_active :
  let r := _process_and_link_references PyStr.ascii_upper Like.ilike
             PyDate.no_other_format
             Ex.source_article Ex.source_law (Some "2024-01-01")
             [Ex.ref_revokes] Ex.w_link_reply_lost in
  law_articles (store (fst r)) = [Ex.article_5; Ex.article_6]
  /\ law_article_references (store (fst r))
     = [mkReference "art-new-1" "art-41-2023-5" "REVOKES"]
  /\ snd r = mkStats 1 0.
Proof. cbv zeta. repeat split. Qed.

(** The example of the specification, evaluated. *)
Example revokes_example :
  _process_and_link_references PyStr.ascii_upper Like.ilike
    PyDate.no_other_format
    Ex.source_article Ex.source_law (Some "2024-01-01") [Ex.ref_revokes] Ex.w0
  = (mkWorld
       (mkStore [Ex.law_41_2023; Ex.law_3_2004]
                [mkArticle "art-41-2023-5" "law-41-2023" 5 "REVOKED"
                           (Some "2023-12-31");
                 Ex.article_6]
                [mkRelationship "law-new" "law-41-2023" "REVOKES"]
                [mkReference "art-new-1" "art-41-2023-5" "REVOKES"] [])
       [(DEBUG, MsgLawRelationship "law-new" "law-41-2023" "revokes");
        (DEBUG, MsgArticleReference "art-new-1" "art-41-2023-5");
        (INFO, MsgUpdatedArticle "art-41-2023-5" "REVOKED" "2023-12-31")],
     mkStats 1 1).
Proof. reflexivity. Qed.

(* ================================================================== *)
(** * Running the preamble pass twice *)

Section PreambleTwice.

Variable str_upper : string -> string.
Variable ilike : string -> string -> bool.
Variable fromisoformat_other : string -> result PyDate.date.
Variable source_law_id : string.
Variable source_enactment_date : option string.

Local Abbreviation pstep :=
  (link_preamble_reference str_upper ilike source_law_id
                           source_enactment_date).
Local Abbreviation is_law_linked :=
  (law_linked str_upper ilike source_law_id).

Lemma link_law_preamble_store (rel tgt : string) (w : World) (k : Z) :
  faults (store w) = [] ->
  let row := mkRelationship source_law_id tgt (str_upper rel) in
  let r := link_law_preamble str_upper source_law_id rel tgt (w, k) in
  (In row (law_relationships (store w))
   /\ store (fst r) = store w /\ snd r = k)
  \/ (~ In row (law_relationships (store w))
      /\ store (fst r) = Db.add_relationship row (store w)
      /\ snd r = k + 1).
Proof.
  intros Hf row r. subst r. unfold link_law_preamble, Db.insert_relationship.
  rewrite (call_no_faults _ _ Hf). fold row.
  destruct (existsb (relationship_eqb row) (law_relationships (store w)))
    eqn:He.
  - left. apply relationship_present in He. simpl. auto.
  - right. apply relationship_absent in He. simpl. auto.
Qed.

Lemma preamble_step_no_faults (w : World) (k : Z) (ref : CrossReference) :
  faults (store w) = [] ->
  pstep (w, k) ref
  = if is_internal ref then (w, k)
    else
      match resolve_target ilike (laws (store w)) (url ref) (number ref) with
      | None => (w, k)
      | Some target =>
          link_law_preamble str_upper source_law_id (relationship_of ref)
            (law_id target)
            (temporal_check source_law_id source_enactment_date
               (relationship_of ref) (law_id target)
               (law_enactment_date target) w, k)
      end.
Proof.
  intros Hf. unfold link_preamble_reference.
  destruct (is_internal ref); [reflexivity|]. cbn [fst snd].
  rewrite (find_target_law_no_faults _ _ _ _ Hf).
  now destruct (resolve_target _ _ _ _).
Qed.

(** One reference of the preamble: only [law_relationships] can change,
    by the one row of the reference, which is there afterwards. *)
Lemma preamble_step_store (w : World) (k : Z) (ref : CrossReference) :
  faults (store w) = [] ->
  laws (store (fst (pstep (w, k) ref))) = laws (store w)
  /\ faults (store (fst (pstep (w, k) ref))) = []
  /\ incl (law_relationships (store w))
          (law_relationships (store (fst (pstep (w, k) ref))))
  /\ is_law_linked (store (fst (pstep (w, k) ref))) ref.
Proof.
  intros Hf. rewrite (preamble_step_no_faults w k ref Hf).
  unfold law_linked.
  destruct (is_internal ref) eqn:Hi.
  { repeat split; auto using incl_refl. intros; discriminate. }
  destruct (resolve_target ilike (laws (store w)) (url ref) (number ref))
    as [target|] eqn:Hres.
  2:{ repeat split; auto using incl_refl. simpl. intros _ t Ht. congruence. }
  set (w1 := temporal_check source_law_id source_enactment_date
               (relationship_of ref) (law_id target)
               (law_enactment_date target) w).
  assert (Hs1 : store w1 = store w) by apply temporal_check_store.
  assert (Hf1 : faults (store w1) = []) by now rewrite Hs1.
  destruct (link_law_preamble_store (relationship_of ref) (law_id target)
              w1 k Hf1) as [[Hin [Hs _]]|[_ [Hs _]]];
    cbv zeta in Hs; rewrite Hs, Hs1 in *.
  - repeat split; auto using incl_refl.
    intros _ t Ht. rewrite Hres in Ht. inversion Ht; subst t. exact Hin.
  - simpl. repeat split; auto using incl_appl, incl_refl.
    intros _ t Ht. rewrite Hres in Ht. inversion Ht; subst t.
    apply in_or_app. right. now left.
Qed.

Lemma preamble_step_linked_noop (w : World) (k : Z) (ref : CrossReference) :
  faults (store w) = [] -> is_law_linked (store w) ref ->
  store (fst (pstep (w, k) ref)) = store w /\ snd (pstep (w, k) ref) = k.
Proof.
  intros Hf H. rewrite (preamble_step_no_faults w k ref Hf).
  destruct (is_internal ref) eqn:Hi; [auto|].
  destruct (resolve_target ilike (laws (store w)) (url ref) (number ref))
    as [target|] eqn:Hres; [|auto].
  set (w1 := temporal_check source_law_id source_enactment_date
               (relationship_of ref) (law_id target)
               (law_enactment_date target) w).
  assert (Hs1 : store w1 = store w) by apply temporal_check_store.
  assert (Hf1 : faults (store w1) = []) by now rewrite Hs1.
  destruct (link_law_preamble_store (relationship_of ref) (law_id target)
              w1 k Hf1) as [[_ [Hs Hk]]|[Hno _]].
  - cbv zeta in Hs, Hk. rewrite Hs, Hk. auto.
  - exfalso. apply Hno. rewrite Hs1. now apply H.
Qed.

Lemma preamble_run_links (refs : list CrossReference) :
  forall (w : World) (k : Z),
    faults (store w) = [] ->
    laws (store (fst (fold_left pstep refs (w, k)))) = laws (store w)
    /\ faults (store (fst (fold_left pstep refs (w, k)))) = []
    /\ incl (law_relationships (store w))
            (law_relationships (store (fst (fold_left pstep refs (w, k)))))
    /\ Forall (is_law_linked (store (fst (fold_left pstep refs (w, k)))))
              refs.
Proof.
  induction refs as [|ref refs IH]; intros w k Hf; simpl.
  - repeat split; auto using incl_refl.
  - destruct (preamble_step_store w k ref Hf) as [Hl [Hf1 [Hi Hlk]]].
    destruct (pstep (w, k) ref) as [w1 k1]. cbn [fst snd] in *.
    destruct (IH w1 k1 Hf1) as [Hl' [Hf' [Hi' Hall]]].
    repeat split; try congruence; eauto using incl_tran.
    constructor; [|exact Hall].
    intros Hint t Ht. rewrite Hl' in Ht. apply Hi'. now apply Hlk.
Qed.

Lemma preamble_run_linked_noop (refs : list CrossReference) :
  forall (w : World) (k : Z),
    faults (store w) = [] -> Forall (is_law_linked (store w)) refs ->
    store (fst (fold_left pstep refs (w, k))) = store w
    /\ snd (fold_left pstep refs (w, k)) = k.
Proof.
  induction refs as [|ref refs IH]; intros w k Hf Hall; simpl; [auto|].
  inversion Hall as [|? ? Hlk Hrest]; subst.
  destruct (preamble_step_linked_noop w k ref Hf Hlk) as [Hs Hk].
  destruct (pstep (w, k) ref) as [w1 k1]. cbn [fst snd] in *. subst k1.
  assert (Hf1 : faults (store w1) = []) by now rewrite Hs.
  rewrite <- Hs in Hrest.
  destruct (IH w1 k Hf1 Hrest) as [Hs' Hk']. split; congruence.
Qed.

(** The preamble pass, run a second time on the store the first run
    left, counts zero links and leaves the store as it is. *)
Lemma preamble_twice_adds_nothing (refs : list CrossReference) (w : World) :
  faults (store w) = [] ->
  let first := _process_preamble_references str_upper ilike source_law_id
                 source_enactment_date refs w in
  let second := _process_preamble_references str_upper ilike source_law_id
                  source_enactment_date refs (fst first) in
  snd second = 0 /\ store (fst second) = store (fst first).
Proof.
  intros Hf first second. subst first second.
  unfold _process_preamble_references.
  destruct (preamble_run_links refs w 0 Hf) as [_ [Hf1 [_ Hall]]].
  destruct (preamble_run_linked_noop refs _ 0 Hf1 Hall) as [Hs Hk].
  auto.
Qed.

End PreambleTwice.

(* ================================================================== *)
(** * Running the linker twice (C6) *)

Lemma NoDup_snoc {A : Type} (l : list A) (x : A) :
  NoDup l -> ~ In x l -> NoDup (l ++ [x]).
Proof.
  induction l as [|a l IH]; simpl; intros Hnd Hx.
  - constructor; [tauto|constructor].
  - inversion Hnd as [|? ? Ha Hl]; subst. constructor.
    + intros Hin. apply in_app_or in Hin. simpl in Hin.
      destruct Hin as [Hin|[Heq|[]]]; [contradiction|].
      apply Hx. now left.
    + apply IH; [assumption|]. intros Hin. apply Hx. now right.
Qed.

Section RunTwice.

Variable str_upper : string -> string.
Variable ilike : string -> string -> bool.
Variable fromisoformat_other : string -> result PyDate.date.
Variables source_article_id source_law_id : string.
Variable source_enactment_date : option string.

Local Abbreviation step :=
  (link_reference str_upper ilike fromisoformat_other
                  source_article_id source_law_id
                  source_enactment_date).
Local Abbreviation run :=
  (_process_and_link_references str_upper ilike fromisoformat_other
                                source_article_id
                                source_law_id source_enactment_date).

(** A rejected insert of a law-to-law link: one DEBUG record, the same
    counters. *)
Lemma link_law_duplicate (rel tgt : string) (td : option string)
    (w : World) (n : LinkStats) :
  faults (store w) = [] ->
  In (mkRelationship source_law_id tgt (str_upper rel))
     (law_relationships (store w)) ->
  link_law str_upper source_law_id source_enactment_date rel tgt td (w, n)
  = (logger DEBUG (MsgLawRelationshipExistsOrFailed UniqueViolation)
            (temporal_check source_law_id source_enactment_date rel tgt td w),
     n).
Proof.
  intros Hf Hin. unfold link_law, Db.insert_relationship.
  rewrite call_no_faults by now rewrite temporal_check_store.
  rewrite temporal_check_store.
  apply relationship_present in Hin. rewrite Hin.
  rewrite <- (temporal_check_store source_law_id source_enactment_date rel
                                   tgt td w) at 1.
  now rewrite with_store_same.
Qed.

(** A rejected insert of an article-to-article link. *)
Lemma link_article_duplicate (rel id : string) (w : World) (n : LinkStats) :
  faults (store w) = [] ->
  In (mkReference source_article_id id (str_upper rel))
     (law_article_references (store w)) ->
  link_article str_upper fromisoformat_other
               source_article_id source_enactment_date rel id (w, n)
  = (logger DEBUG (MsgArticleReferenceExistsOrFailed UniqueViolation) w, n).
Proof.
  intros Hf Hin. unfold link_article, Db.insert_reference.
  rewrite (call_no_faults _ _ Hf).
  apply reference_present in Hin. rewrite Hin.
  now rewrite with_store_same.
Qed.

Lemma step_no_duplicates (w : World) (n : LinkStats) (ref : CrossReference) :
  faults (store w) = [] ->
  NoDup (law_relationships (store w)) ->
  NoDup (law_article_references (store w)) ->
  NoDup (law_relationships (store (fst (step (w, n) ref))))
  /\ NoDup (law_article_references (store (fst (step (w, n) ref)))).
Proof.
  intros Hf Hr Hx.
  rewrite (link_reference_no_faults _ _ _ _ _ _ _ _ _ Hf).
  destruct (is_internal ref); [auto|].
  destruct (resolve_target _ _ _ _) as [target|]; [|auto].
  cbv zeta.
  assert (H2 : let s2 := link_law str_upper source_law_id
                           source_enactment_date (relationship_of ref)
                           (law_id target) (law_enactment_date target) (w, n) in
               faults (store (fst s2)) = []
               /\ NoDup (law_relationships (store (fst s2)))
               /\ NoDup (law_article_references (store (fst s2)))).
  { destruct (link_law_store str_upper source_law_id source_enactment_date
                (relationship_of ref) (law_id target)
                (law_enactment_date target) w n Hf)
      as [[_ [Hs _]]|[Hno [Hs _]]]; cbv zeta in Hs |- *; rewrite Hs.
    - auto.
    - simpl. repeat split; auto. now apply NoDup_snoc. }
  cbv zeta in H2.
  destruct (link_law _ _ _ _ _ _ _) as [w2 n2]. cbn [fst snd] in *.
  destruct H2 as [Hf2 [Hr2 Hx2]].
  destruct (article_number ref) as [art|]; [|auto].
  destruct (PyStr.truthy art); [|auto].
  destruct (resolve_article _ _ _) as [id|]; [|auto].
  destruct (PyStr.truthy id); [|auto].
  destruct (link_article_store str_upper fromisoformat_other source_article_id
              source_enactment_date (relationship_of ref) id w2 n2 Hf2)
    as [[_ [Hs _]]|[Hno [_ Hs]]]; cbv zeta in Hs; rewrite Hs; [auto|].
  assert (Hadd : NoDup (law_article_references (store w2)
                        ++ [mkReference source_article_id id
                              (str_upper (relationship_of ref))]))
    by now apply NoDup_snoc.
  destruct source_enactment_date as [d|]; [|simpl; auto].
  destruct (_ && _); simpl; auto.
Qed.

Lemma run_no_duplicates (refs : list CrossReference) :
  forall (w : World) (n : LinkStats),
    faults (store w) = [] ->
    NoDup (law_relationships (store w)) ->
    NoDup (law_article_references (store w)) ->
    NoDup (law_relationships (store (fst (fold_left step refs (w, n)))))
    /\ NoDup (law_article_references
                (store (fst (fold_left step refs (w, n))))).
Proof.
  induction refs as [|ref refs IH]; intros w n Hf Hr Hx; simpl; [auto|].
  destruct (step_no_duplicates w n ref Hf Hr Hx) as [Hr1 Hx1].
  assert (Hf1 : faults (store (fst (step (w, n) ref))) = []).
  { rewrite (link_reference_no_faults _ _ _ _ _ _ _ _ _ Hf).
    destruct (is_internal ref); [exact Hf|].
    destruct (resolve_target _ _ _ _) as [target|]; [|exact Hf].
    cbv zeta.
    destruct (evolves_link_law str_upper source_law_id source_enactment_date
                (relationship_of ref) (law_id target)
                (law_enactment_date target) w n Hf) as [[_ [Hf2 _]] _].
    cbv zeta in Hf2.
    destruct (link_law _ _ _ _ _ _ _) as [w2 n2]. cbn [fst snd] in *.
    destruct (article_number ref) as [art|]; [|exact Hf2].
    destruct (PyStr.truthy art); [|exact Hf2].
    destruct (resolve_article _ _ _) as [id|]; [|exact Hf2].
    destruct (PyStr.truthy id); [|exact Hf2].
    destruct (evolves_link_article str_upper fromisoformat_other
                                   source_article_id
                source_enactment_date (relationship_of ref) id w2 n2 Hf2)
      as [[_ [Hf3 _]] _]. exact Hf3. }
  destruct (step (w, n) ref) as [w1 n1]. cbn [fst snd] in *.
  now apply IH.
Qed.

(** C6. In a store that answers and in which a law has one ACTIVE
    article at an ordinal: (1) a second run of the linker over the same
    references, on the store the first run left, counts zero links and
    leaves the store as it is; (2) tables without duplicate rows stay
    without duplicate rows; (3) the insert of a link already recorded
    does not raise out of the linker: it is answered by one DEBUG
    record and the counters are unchanged; (4) the references that
    follow are processed from the resulting state; (5) the preamble
    pass run twice behaves as in (1). *)
Theorem linking_twice_adds_nothing
    (refs : list CrossReference) (w : World) :
  faults (store w) = [] ->
  articles_keyed (law_articles (store w)) ->
  let first := run refs w in
  let second := run refs (fst first) in
  snd second = mkStats 0 0
  /\ store (fst second) = store (fst first)
  /\ (NoDup (law_relationships (store w)) ->
      NoDup (law_article_references (store w)) ->
      NoDup (law_relationships (store (fst second)))
      /\ NoDup (law_article_references (store (fst second))))
  /\ (forall rel tgt td w' n,
        faults (store w') = [] ->
        In (mkRelationship source_law_id tgt (str_upper rel))
           (law_relationships (store w')) ->
        link_law str_upper source_law_id source_enactment_date rel tgt td
                 (w', n)
        = (logger DEBUG (MsgLawRelationshipExistsOrFailed UniqueViolation)
                  (temporal_check source_law_id source_enactment_date rel
                                  tgt td w'), n))
  /\ (forall rel id w' n,
        faults (store w') = [] ->
        In (mkReference source_article_id id (str_upper rel))
           (law_article_references (store w')) ->
        link_article str_upper fromisoformat_other
                     source_article_id source_enactment_date
                     rel id (w', n)
        = (logger DEBUG (MsgArticleReferenceExistsOrFailed UniqueViolation)
                  w', n))
  /\ (forall ref rest s,
        fold_left step (ref :: rest) s = fold_left step rest (step s ref))
  /\ (let pfirst := _process_preamble_references str_upper ilike
                      source_law_id source_enactment_date refs w in
      let psecond := _process_preamble_references str_upper ilike
                       source_law_id source_enactment_date refs
                       (fst pfirst) in
      snd psecond = 0 /\ store (fst psecond) = store (fst pfirst)).
Proof.
  intros Hf Hk first second. subst first second.
  unfold _process_and_link_references.
  destruct (run_evolves_linked str_upper ilike fromisoformat_other
                               source_article_id
              source_law_id source_enactment_date refs w (mkStats 0 0) Hf Hk)
    as [Hev Hall].
  set (first := fold_left step refs (w, mkStats 0 0)) in *.
  assert (Hf1 : faults (store (fst first)) = [])
    by (destruct Hev as [_ [Hf1 _]]; exact Hf1).
  destruct (run_linked_noop str_upper ilike fromisoformat_other
                            source_article_id source_law_id
              source_enactment_date refs (fst first) (mkStats 0 0) Hf1 Hall)
    as [Hs Hn].
  split; [exact Hn|]. split; [exact Hs|].
  split; [|split; [|split; [|split]]].
  - intros Hr Hx. rewrite Hs.
    apply (run_no_duplicates refs w (mkStats 0 0) Hf Hr Hx).
  - intros. now apply link_law_duplicate.
  - intros. now apply link_article_duplicate.
  - reflexivity.
  - now apply preamble_twice_adds_nothing.
Qed.

End RunTwice.

(** Witness of C6: the example of the specification and a second
    reference, linked twice. *)
Lemma linking_twice_adds_nothing_witness :
  snd (_process_and_link_references PyStr.ascii_upper Like.ilike
         PyDate.no_other_format
         Ex.source_article Ex.source_law (Some "2024-01-01")
         [Ex.ref_revokes; Ex.ref_url_and_number]
         (fst (_process_and_link_references PyStr.ascii_upper Like.ilike
                 PyDate.no_other_format
                 Ex.source_article Ex.source_law (Some "2024-01-01")
                 [Ex.ref_revokes; Ex.ref_url_and_number] Ex.w0)))
  = mkStats 0 0.
Proof.
  apply (proj1 (linking_twice_adds_nothing
                  PyStr.ascii_upper Like.ilike PyDate.no_other_format
                  Ex.source_article Ex.source_law
                  (Some "2024-01-01") [Ex.ref_revokes; Ex.ref_url_and_number]
                  Ex.w0 eq_refl
                  ltac:(intros a b Ha Hb _ _ Hl Ho; simpl in Ha, Hb;
                        destruct Ha as [<-|[<-|[]]];
                        destruct Hb as [<-|[<-|[]]];
                        try reflexivity; discriminate))).
Defined.

(** The hypothesis on the articles is needed: with two ACTIVE articles at
    the ordinal, the first run revokes the first of them and the second
    run links the other. *)
Example two_active_articles_are_linked_in_turn :
  snd (_process_and_link_references PyStr.ascii_upper Like.ilike
         PyDate.no_other_format
         Ex.source_article Ex.source_law (Some "2024-01-01") [Ex.ref_revokes]
         (fst (_process_and_link_references PyStr.ascii_upper Like.ilike
                 PyDate.no_other_format
                 Ex.source_article Ex.source_law (Some "2024-01-01")
                 [Ex.ref_revokes] Ex2.w_two_active)))
  = mkStats 0 1.
Proof. reflexivity. Qed.

(* ================================================================== *)
(** * The temporal sanity check (C4) *)

Lemma lt_irrefl (s : string) : PyStr.lt s s = false.
Proof.
  unfold PyStr.lt, String.ltb.
  assert (H : String.compare s s = Eq).
  { induction s as [|c s IH]; [reflexivity|].
    cbn [String.compare]. unfold Ascii.compare.
    now rewrite N.compare_refl. }
  now rewrite H.
Qed.

Lemma warns_temporal_app (l1 l2 : list log_record) :
  warns_temporal (l1 ++ l2) = warns_temporal l1 || warns_temporal l2.
Proof. unfold warns_temporal. apply existsb_app. Qed.

(** The check warns exactly when the kind is amends or revokes, both dates
    are known and the source date is strictly before the target date. *)
Lemma temporal_check_warns
    (src : string) (sd : option string) (rel tgt : string)
    (td : option string) (w : World) :
  warns_temporal (log (temporal_check src sd rel tgt td w))
  = warns_temporal (log w)
    || match sd, td with
       | Some s, Some t =>
           is_amends_or_revokes rel && PyStr.truthy s && PyStr.truthy t
           && PyStr.lt s t
       | _, _ => false
       end.
Proof.
  unfold temporal_check.
  destruct sd as [s|]; [|now rewrite orb_false_r].
  destruct td as [t|]; [|now rewrite orb_false_r].
  destruct (_ && _); [|now rewrite orb_false_r].
  simpl. rewrite warns_temporal_app. reflexivity.
Qed.

(** C4, on the code. For a source date equal to the target date, which
    is not strictly later, the check of the linker adds no
    temporal-inconsistency warning, for any kind and any world; the
    warning comes only for a source date strictly before the target date.
    For a reference of kind amends from a law enacted on 2023-06-02 to a
    law enacted on 2023-06-02 the link is recorded and the log holds no
    warning, in the article pass and in the preamble pass alike; with the
    source date 2020-01-01 the same reference is recorded with the
    warning. *)
Theorem equal_dates_get_no_temporal_warning
    (fromisoformat_other : string -> result PyDate.date) :
  (forall (src rel tgt d : string) (w : World),
      temporal_check src (Some d) rel tgt (Some d) w = w)
  /\ (let r := _process_and_link_references PyStr.ascii_upper Like.ilike
                 fromisoformat_other
                 Ex.source_article Ex.source_law (Some "2023-06-02")
                 [Ex.ref_amends] Ex.w0 in
      law_enactment_date Ex.law_41_2023 = Some "2023-06-02"
      /\ warns_temporal (log (fst r)) = false
      /\ law_relationships (store (fst r))
         = [mkRelationship Ex.source_law "law-41-2023" "AMENDS"]
      /\ snd r = mkStats 1 0)
  /\ (let r := _process_preamble_references PyStr.ascii_upper Like.ilike
                 Ex.source_law (Some "2023-06-02") [Ex.ref_amends] Ex.w0 in
      warns_temporal (log (fst r)) = false
      /\ law_relationships (store (fst r))
         = [mkRelationship Ex.source_law "law-41-2023" "AMENDS"]
      /\ snd r = 1)
  /\ (let r := _process_and_link_references PyStr.ascii_upper Like.ilike
                 fromisoformat_other
                 Ex.source_article Ex.source_law (Some "2020-01-01")
                 [Ex.ref_amends] Ex.w0 in
      warns_temporal (log (fst r)) = true
      /\ law_relationships (store (fst r))
         = [mkRelationship Ex.source_law "law-41-2023" "AMENDS"]).
Proof.
  split; [|repeat split].
  intros src rel tgt d w. unfold temporal_check.
  now rewrite lt_irrefl, andb_false_r.
Qed.

Section TemporalCheck.

Variable str_upper : string -> string.
Variable ilike : string -> string -> bool.
Variable fromisoformat_other : string -> result PyDate.date.
Variables source_article_id source_law_id : string.

(** What holds of the claim: a reference of kind amends or revokes whose
    source date is strictly before the date of the law it resolves to
    is warned about and its link is recorded all the same. *)
Lemma earlier_source_is_warned_and_linked
    (w : World) (ref : CrossReference) (target : law_row) (s t : string) :
  faults (store w) = [] -> is_internal ref = false ->
  resolve_target ilike (laws (store w)) (url ref) (number ref) = Some target ->
  article_number ref = None ->
  is_amends_or_revokes (relationship_of ref) = true ->
  law_enactment_date target = Some t ->
  PyStr.truthy s = true -> PyStr.lt s t = true ->
  let r := _process_and_link_references str_upper ilike fromisoformat_other
             source_article_id source_law_id (Some s) [ref] w in
  warns_temporal (log (fst r)) = true
  /\ In (mkRelationship source_law_id (law_id target)
                        (str_upper (relationship_of ref)))
        (law_relationships (store (fst r))).
Proof.
  intros Hf Hi Hres Hart Hk Ht Hs Hlt r. subst r.
  unfold _process_and_link_references. simpl fold_left.
  rewrite (link_reference_no_faults _ _ _ _ _ _ _ _ _ Hf), Hi, Hres, Hart.
  cbv zeta.
  destruct (evolves_link_law str_upper source_law_id (Some s)
              (relationship_of ref) (law_id target)
              (law_enactment_date target) w (mkStats 0 0) Hf)
    as [_ [_ Hin]].
  split; [|exact Hin].
  assert (Htt : PyStr.truthy t = true).
  { destruct t; [|reflexivity]. destruct s; discriminate Hlt. }
  pose proof (temporal_check_warns source_law_id (Some s)
                (relationship_of ref) (law_id target)
                (law_enactment_date target) w) as Hw.
  rewrite Ht, Hk, Hs, Htt, Hlt, orb_true_r in Hw.
  unfold link_law. rewrite Ht.
  destruct (Db.insert_relationship _ _) as [[u|e] st];
    cbn [fst logger with_store log];
    rewrite warns_temporal_app, Hw; reflexivity.
Qed.

End TemporalCheck.

(* ================================================================== *)
(** * Law types *)

Lemma table_get_in (k v : string) (d : list (string * string)) :
  table_get k d = Some v -> In (k, v) d.
Proof.
  induction d as [|[k' v'] d IH]; simpl; [discriminate|].
  destruct (String.eqb k' k) eqn:He.
  - apply String.eqb_eq in He. intros H. inversion H. subst. now left.
  - intros H. right. now apply IH.
Qed.

(** In [type_mapping] the value of a key is the value of the first key
    with the same lower-case form. *)
Lemma type_mapping_lower_consistent :
  forallb (fun kv => String.eqb (snd kv) (type_of_lower (PyText.lower (fst kv))))
          type_mapping = true.
Proof. vm_compute. reflexivity. Qed.

Lemma map_law_type_by_lower (type_str : string) :
  fst (_map_law_type type_str)
  = type_of_lower (PyText.lower (type_str_normalized type_str)).
Proof.
  unfold _map_law_type, type_of_lower.
  destruct (table_get _ type_mapping) as [v|] eqn:Hg.
  - apply table_get_in in Hg.
    pose proof type_mapping_lower_consistent as Hall.
    rewrite forallb_forall in Hall. specialize (Hall _ Hg).
    apply String.eqb_eq in Hall. exact Hall.
  - now destruct (first_lower_match _ type_mapping).
Qed.

(** X1. The type id that [_map_law_type] gives depends on its argument
    only through the lower-case form of its words joined by single
    spaces: two texts that agree on it get the same id. *)
Theorem law_type_ignores_case_and_spacing (a b : string) :
  PyText.lower (type_str_normalized a) = PyText.lower (type_str_normalized b) ->
  fst (_map_law_type a) = fst (_map_law_type b).
Proof. intros H. now rewrite !map_law_type_by_lower, H. Qed.

Lemma law_type_ignores_case_and_spacing_witness :
  fst (_map_law_type "  decreto-LEI ") = fst (_map_law_type "Decreto-Lei").
Proof.
  apply (law_type_ignores_case_and_spacing "  decreto-LEI " "Decreto-Lei").
  reflexivity.
Defined.

Lemma pt_translation_is_a_name (law_type : string) :
  In (_get_law_type_pt_translation law_type) (map snd type_mapping_pt).
Proof.
  unfold _get_law_type_pt_translation.
  destruct (existsb _ _) eqn:He.
  - apply existsb_exists in He. destruct He as [x [Hin Hx]].
    apply String.eqb_eq in Hx. now subst.
  - destruct (table_get law_type type_mapping_pt) as [name|] eqn:Hg.
    + apply table_get_in in Hg. now apply (in_map snd) in Hg.
    + assert (H : existsb (String.eqb "Lei") (map snd type_mapping_pt) = true)
        by (vm_compute; reflexivity).
      apply existsb_exists in H. destruct H as [x [Hin Hx]].
      apply String.eqb_eq in Hx. now subst.
Qed.

(** X2. Each entry of [type_mapping_pt] is a round trip: the id is
    translated to the Portuguese name, the name is mapped back to the id
    without a warning, and the name is translated to itself. *)
Theorem law_type_translation_round_trip (id name : string) :
  In (id, name) type_mapping_pt ->
  _get_law_type_pt_translation id = name
  /\ _map_law_type name = (id, [])
  /\ _map_law_type (_get_law_type_pt_translation id) = (id, [])
  /\ _get_law_type_pt_translation name = name.
Proof.
  intros Hin.
  assert (Hall :
    forallb (fun kv =>
               String.eqb (_get_law_type_pt_translation (fst kv)) (snd kv)
               && String.eqb (fst (_map_law_type (snd kv))) (fst kv)
               && match snd (_map_law_type (snd kv)) with
                  | [] => true
                  | _ => false
                  end
               && String.eqb (_get_law_type_pt_translation (snd kv)) (snd kv))
            type_mapping_pt = true) by (vm_compute; reflexivity).
  rewrite forallb_forall in Hall. specialize (Hall _ Hin). cbn [fst snd] in Hall.
  apply andb_true_iff in Hall. destruct Hall as [Hall H4].
  apply andb_true_iff in Hall. destruct Hall as [Hall H3].
  apply andb_true_iff in Hall. destruct Hall as [H1 H2].
  apply String.eqb_eq in H1, H2, H4.
  assert (Hm : _map_law_type name = (id, [])).
  { destruct (_map_law_type name) as [v l]. cbn [fst snd] in *.
    destruct l; [|discriminate]. now subst. }
  repeat split; try assumption. now rewrite H1.
Qed.

Lemma law_type_translation_round_trip_witness :
  _map_law_type (_get_law_type_pt_translation "RESOLUCAO_AR")
  = ("RESOLUCAO_AR", []).
Proof.
  apply (law_type_translation_round_trip
           "RESOLUCAO_AR"
           ("Resolu" ++ c_cedilla ++ a_tilde ++ "o da Assembleia da Rep"
            ++ u_acute ++ "blica")%string).
  vm_compute. tauto.
Defined.

(** X3. Whatever its argument, [_get_law_type_pt_translation] returns one
    of the names of its table; it returns a name of the table as it is, so
    it is idempotent; a text that is neither a name nor an id of the table
    gives ["Lei"]; and [_map_law_type] maps the result to an id of its
    table, never to ["OTHER"], without a warning. *)
Theorem law_type_translation_is_closed (law_type : string) :
  In (_get_law_type_pt_translation law_type) (map snd type_mapping_pt)
  /\ _get_law_type_pt_translation (_get_law_type_pt_translation law_type)
     = _get_law_type_pt_translation law_type
  /\ (existsb (String.eqb law_type) (map snd type_mapping_pt) = false ->
      table_get law_type type_mapping_pt = None ->
      _get_law_type_pt_translation law_type = "Lei")
  /\ fst (_map_law_type (_get_law_type_pt_translation law_type)) <> "OTHER"
  /\ snd (_map_law_type (_get_law_type_pt_translation law_type)) = [].
Proof.
  pose proof (pt_translation_is_a_name law_type) as Hin.
  assert (Hall :
    forallb (fun name =>
               String.eqb (_get_law_type_pt_translation name) name
               && negb (String.eqb (fst (_map_law_type name)) "OTHER")
               && match snd (_map_law_type name) with
                  | [] => true
                  | _ => false
                  end)
            (map snd type_mapping_pt) = true) by (vm_compute; reflexivity).
  rewrite forallb_forall in Hall. specialize (Hall _ Hin).
  apply andb_true_iff in Hall. destruct Hall as [Hall H3].
  apply andb_true_iff in Hall. destruct Hall as [H1 H2].
  apply String.eqb_eq in H1. apply negb_true_iff, String.eqb_neq in H2.
  split; [exact Hin|]. split; [exact H1|]. split.
  - intros He Hg. unfold _get_law_type_pt_translation. now rewrite He, Hg.
  - split; [exact H2|].
    now destruct (snd (_map_law_type (_get_law_type_pt_translation law_type))).
Qed.

(** X4. V5.0 agrees with V6.0 on law types: a type text that V6.0's
    [_map_law_type] maps to an id other than ["OTHER"] gets the same id
    from V5.0's, without a warning. *)
Theorem v50_law_types_extend_v6 (type_str : string) :
  V6._map_law_type type_str <> "OTHER" ->
  _map_law_type type_str = (V6._map_law_type type_str, []).
Proof.
  unfold V6._map_law_type.
  destruct (table_get type_str V6.type_mapping) as [v|] eqn:Hg;
    [intros _|congruence].
  apply table_get_in in Hg.
  assert (Hall :
    forallb (fun kv =>
               String.eqb (fst (_map_law_type (fst kv))) (snd kv)
               && match snd (_map_law_type (fst kv)) with
                  | [] => true
                  | _ => false
                  end)
            V6.type_mapping = true) by (vm_compute; reflexivity).
  rewrite forallb_forall in Hall. specialize (Hall _ Hg). cbn [fst snd] in Hall.
  apply andb_true_iff in Hall. destruct Hall as [H1 H2].
  apply String.eqb_eq in H1.
  destruct (_map_law_type type_str) as [v' l]. cbn [fst snd] in *.
  destruct l; [|discriminate]. now subst.
Qed.

Lemma v50_law_types_extend_v6_witness :
  _map_law_type "Portaria" = (V6._map_law_type "Portaria", []).
Proof.
  apply (v50_law_types_extend_v6 "Portaria"). vm_compute. discriminate.
Defined.

(* ================================================================== *)
(** * Slugs *)

Lemma lower_char_fixed (c : ascii) :
  Ascii.eqb (PyText.lower_char (PyText.lower_char c)) (PyText.lower_char c)
  = true.
Proof. each_char c; reflexivity. Qed.

Lemma lower_char_ascii (c : ascii) :
  is_ascii c = true -> is_ascii (PyText.lower_char c) = true.
Proof. each_char c; intros H; try reflexivity; discriminate H. Qed.

(** An ASCII lower-case character that the first substitution keeps and
    that is not a separator is a letter, a digit or an underscore. *)
Lemma kept_char_url_safe (c : ascii) :
  is_ascii c = true -> Ascii.eqb (PyText.lower_char c) c = true ->
  slug_keeps c = true -> slug_separator c = false -> url_safe c = true.
Proof.
  each_char c; intros H1 H2 H3 H4; try reflexivity;
    try discriminate H1; try discriminate H2; try discriminate H3;
    discriminate H4.
Qed.

Lemma kept_char_word (c : ascii) :
  slug_keeps c = true -> slug_separator c = false -> PyText.is_word c = true.
Proof.
  unfold slug_keeps, slug_separator.
  destruct (PyText.is_word c); [reflexivity|]. simpl.
  rewrite orb_comm. now intros ->.
Qed.

Lemma separator_hyphen (c : ascii) :
  slug_separator c = false -> Ascii.eqb c "-" = false.
Proof. unfold slug_separator. now destruct (Ascii.eqb c "-"). Qed.

Lemma all_impl (p q : ascii -> bool) (s : string) :
  (forall c, p c = true -> q c = true) ->
  PyText.all p s = true -> PyText.all q s = true.
Proof.
  intros Hpq. induction s as [|c s IH]; simpl; [reflexivity|].
  rewrite !andb_true_iff. intros [Hc Hs]. auto.
Qed.

Lemma all_and (p q : ascii -> bool) (s : string) :
  PyText.all p s = true -> PyText.all q s = true ->
  PyText.all (fun c => p c && q c) s = true.
Proof.
  induction s as [|c s IH]; simpl; [reflexivity|].
  rewrite !andb_true_iff. intros [Hp Hs] [Hq Hs']. auto.
Qed.

Lemma all_lower (s : string) :
  PyText.all (fun c => Ascii.eqb (PyText.lower_char c) c) (PyText.lower s)
  = true.
Proof.
  induction s as [|c s IH]; simpl; [reflexivity|].
  now rewrite lower_char_fixed, IH.
Qed.

Lemma all_lower_ascii (s : string) :
  PyText.all is_ascii s = true -> PyText.all is_ascii (PyText.lower s) = true.
Proof.
  induction s as [|c s IH]; simpl; [reflexivity|].
  rewrite !andb_true_iff. intros [Hc Hs]. auto using lower_char_ascii.
Qed.

Lemma all_filter (keep p : ascii -> bool) (s : string) :
  PyText.all p s = true ->
  PyText.all (fun c => keep c && p c) (PyText.filter keep s) = true.
Proof.
  induction s as [|c s IH]; simpl; [reflexivity|].
  rewrite andb_true_iff. intros [Hc Hs].
  destruct (keep c) eqn:Hk; simpl; [|auto].
  now rewrite Hk, Hc, IH.
Qed.

(** After the second substitution a character is a hyphen or a character
    of the text that is not a separator. *)
Lemma all_sub_separators (p : ascii -> bool) (s : string) :
  PyText.all p s = true ->
  PyText.all (fun c => Ascii.eqb c "-" || negb (slug_separator c) && p c)
             (sub_separators s) = true.
Proof.
  induction s as [|c s IH]; [reflexivity|].
  cbn [PyText.all sub_separators]. rewrite andb_true_iff. intros [Hc Hs].
  specialize (IH Hs).
  destruct (slug_separator c) eqn:Hsep.
  - destruct s as [|d s']; [reflexivity|].
    destruct (slug_separator d); [exact IH|].
    cbn [PyText.all]. now rewrite IH.
  - cbn [PyText.all]. now rewrite Hsep, Hc, IH, orb_true_r.
Qed.

Lemma sub_separators_head (c : ascii) (s : string) :
  slug_separator c = false ->
  sub_separators (String c s) = String c (sub_separators s).
Proof. intros H. cbn [sub_separators]. now rewrite H. Qed.

Lemma contains_cons (p : string) (c : ascii) (s : string) :
  PyStr.contains p (String c s)
  = String.prefix p (String c s) || PyStr.contains p s.
Proof. reflexivity. Qed.

Lemma prefix_not_first (c : ascii) (p s : string) :
  Ascii.eqb c "-" = false -> String.prefix (String "-" p) (String c s) = false.
Proof.
  intros H. cbn [String.prefix].
  destruct (Ascii.ascii_dec "-" c) as [<-|]; [discriminate H|reflexivity].
Qed.

Lemma prefix_not_second (c : ascii) (s : string) :
  Ascii.eqb c "-" = false ->
  String.prefix "--" (String "-" (String c s)) = false.
Proof.
  intros H. cbn [String.prefix].
  destruct (Ascii.ascii_dec "-" "-"); [|reflexivity].
  destruct (Ascii.ascii_dec "-" c) as [<-|]; [discriminate H|reflexivity].
Qed.

(** The second substitution leaves no two hyphens in a row. *)
Lemma sub_separators_no_double (s : string) :
  PyStr.contains "--" (sub_separators s) = false.
Proof.
  induction s as [|c s IH]; [reflexivity|].
  cbn [sub_separators].
  destruct (slug_separator c) eqn:Hc.
  - destruct s as [|d s']; [reflexivity|].
    destruct (slug_separator d) eqn:Hd; [exact IH|].
    rewrite contains_cons, IH, orb_false_r.
    rewrite sub_separators_head by exact Hd.
    apply prefix_not_second, separator_hyphen, Hd.
  - rewrite contains_cons, IH, orb_false_r.
    apply prefix_not_first, separator_hyphen, Hc.
Qed.

(** X5. The slug that V5.0 gives a law is [body-xxxxxxxx], the last part
    being the first eight characters of the UUID text. The body has no
    whitespace and no upper-case letter: each of its characters is a
    hyphen or a lower-case word character of the official number; it
    never holds two hyphens in a row. When the official number is ASCII
    text, the body is made of [a-z], [0-9], [_] and [-] only. *)
Theorem v50_slug_shape (uuid_hex official_number : string) :
  exists body,
    _generate_slug uuid_hex official_number
    = (body ++ "-" ++ PyStr.take 8 uuid_hex)%string
    /\ PyText.all (fun c => (Ascii.eqb c "-" || PyText.is_word c)
                            && Ascii.eqb (PyText.lower_char c) c
                            && negb (PyStr.isspace c)) body = true
    /\ PyStr.contains "--" body = false
    /\ (PyText.all is_ascii official_number = true ->
        PyText.all url_safe body = true).
Proof.
  unfold _generate_slug. eexists. split; [reflexivity|]. split; [|split].
  - eapply all_impl;
      [|apply all_sub_separators, all_filter, all_lower].
    intros c Hc. cbv beta in Hc.
    destruct (Ascii.eqb c "-") eqn:Hh.
    + apply Ascii.eqb_eq in Hh. subst c. reflexivity.
    + cbn [orb] in Hc. apply andb_true_iff in Hc. destruct Hc as [Hs Hc].
      apply andb_true_iff in Hc. destruct Hc as [Hk Hl].
      apply negb_true_iff in Hs.
      rewrite (kept_char_word c Hk Hs), Hl. cbn [orb andb].
      unfold slug_separator in Hs. apply orb_false_iff in Hs.
      destruct Hs as [_ Hs]. now rewrite Hs.
  - apply sub_separators_no_double.
  - intros Ha. eapply all_impl;
      [|apply all_sub_separators, all_filter, all_and;
        [apply all_lower_ascii, Ha|apply all_lower]].
    intros c Hc. cbv beta in Hc.
    destruct (Ascii.eqb c "-") eqn:Hh.
    + apply Ascii.eqb_eq in Hh. subst c. reflexivity.
    + cbn [orb] in Hc. apply andb_true_iff in Hc. destruct Hc as [Hs Hc].
      apply andb_true_iff in Hc. destruct Hc as [Hk Hc].
      apply andb_true_iff in Hc. destruct Hc as [Hasc Hl].
      apply negb_true_iff in Hs. now apply kept_char_url_safe.
Qed.

(** The hypothesis on the official number is needed: the ordinal
    indicator of [n.º] is a word character and stays in the slug. *)
Example v50_slug_keeps_ordinal_indicator :
  _generate_slug "0123456789abcdef"
                 ("Decreto-Lei n" ++ ordinal_o ++ " 41/2023")%string
  = ("decreto-lei-n" ++ ordinal_o ++ "-412023-01234567")%string.
Proof. reflexivity. Qed.

Lemma take_all (p : ascii -> bool) (n : nat) (s : string) :
  PyText.all p s = true -> PyText.all p (PyStr.take n s) = true.
Proof.
  revert s. induction n as [|n IH]; intros [|c s]; simpl; try reflexivity.
  rewrite !andb_true_iff. intros [Hc Hs]. auto.
Qed.

Lemma take_length (n : nat) (s : string) :
  (String.length (PyStr.take n s) <= n)%nat.
Proof.
  revert s. induction n as [|n IH]; intros [|c s]; simpl; try lia.
  specialize (IH s). lia.
Qed.

Lemma prefix_take (p : string) (n : nat) (s : string) :
  String.prefix p (PyStr.take n s) = true -> String.prefix p s = true.
Proof.
  revert n s. induction p as [|a p IH]; intros n s; [now destruct s|].
  destruct n as [|n]; destruct s as [|c s]; simpl; try discriminate.
  destruct (Ascii.ascii_dec a c); [|discriminate]. apply IH.
Qed.

Lemma contains_take (p : string) (n : nat) (s : string) :
  PyStr.contains p s = false -> PyStr.contains p (PyStr.take n s) = false.
Proof.
  revert n. induction s as [|c s IH]; intros n H.
  - destruct n; exact H.
  - cbn [PyStr.contains] in H. apply orb_false_iff in H. destruct H as [Hp Hs].
    destruct n as [|n].
    + cbn. destruct p; [discriminate Hp|reflexivity].
    + cbn [PyStr.take PyStr.contains]. rewrite (IH n Hs), orb_false_r.
      destruct (String.prefix p (String c (PyStr.take n s))) eqn:He;
        [|reflexivity].
      apply (prefix_take p (S n) (String c s)) in He. congruence.
Qed.

Lemma rstrip_hyphen_all (p : ascii -> bool) (s : string) :
  PyText.all p s = true -> PyText.all p (PyText.rstrip_hyphen s) = true.
Proof.
  induction s as [|c s IH]; [reflexivity|].
  cbn [PyText.all PyText.rstrip_hyphen]. rewrite andb_true_iff.
  intros [Hc Hs]. specialize (IH Hs).
  destruct (PyText.rstrip_hyphen s) as [|d r].
  - destruct (Ascii.eqb c "-"); [reflexivity|]. cbn. now rewrite Hc.
  - cbn [PyText.all] in *. now rewrite Hc.
Qed.

Lemma rstrip_hyphen_length (s : string) :
  (String.length (PyText.rstrip_hyphen s) <= String.length s)%nat.
Proof.
  induction s as [|c s IH]; [reflexivity|].
  cbn [PyText.rstrip_hyphen].
  destruct (PyText.rstrip_hyphen s) as [|d r].
  - destruct (Ascii.eqb c "-"); simpl; lia.
  - simpl in *. lia.
Qed.

(** [rstrip_hyphen s] is a prefix of [s]. *)
Lemma rstrip_hyphen_prefix (s : string) :
  String.prefix (PyText.rstrip_hyphen s) s = true.
Proof.
  induction s as [|c s IH]; [reflexivity|].
  cbn [PyText.rstrip_hyphen].
  destruct (PyText.rstrip_hyphen s) as [|d r].
  - destruct (Ascii.eqb c "-"); [reflexivity|]. cbn.
    destruct (Ascii.ascii_dec c c); [now destruct s|congruence].
  - cbn [String.prefix]. destruct (Ascii.ascii_dec c c); [exact IH|congruence].
Qed.

Lemma prefix_trans (a b c : string) :
  String.prefix a b = true -> String.prefix b c = true ->
  String.prefix a c = true.
Proof.
  revert b c. induction a as [|x a IH]; intros b c; [now destruct c|].
  destruct b as [|y b]; [discriminate|]. destruct c as [|z c]; simpl.
  - intros _ H. discriminate H.
  - destruct (Ascii.ascii_dec x y); [|discriminate]. subst.
    destruct (Ascii.ascii_dec y z); [|discriminate]. apply IH.
Qed.

Lemma contains_prefix (p s t : string) :
  String.prefix s t = true -> PyStr.contains p t = false ->
  PyStr.contains p s = false.
Proof.
  revert s. induction t as [|c t IH]; intros s Hs Ht.
  - destruct s; [exact Ht|discriminate].
  - destruct s as [|d s].
    + cbn. destruct p; [|reflexivity]. discriminate Ht.
    + cbn [String.prefix] in Hs.
      destruct (Ascii.ascii_dec d c); [|discriminate]. subst d.
      cbn [PyStr.contains] in *. apply orb_false_iff in Ht.
      destruct Ht as [Hp Ht]. rewrite (IH s Hs Ht), orb_false_r.
      destruct (String.prefix p (String c s)) eqn:He; [|reflexivity].
      assert (String.prefix p (String c t) = true); [|congruence].
      apply (prefix_trans p (String c s)); [exact He|].
      cbn. now destruct (Ascii.ascii_dec c c).
Qed.

Lemma rstrip_hyphen_end (s t : string) :
  PyText.rstrip_hyphen s <> (t ++ "-")%string.
Proof.
  revert t. induction s as [|c s IH]; intros t.
  - destruct t; discriminate.
  - cbn [PyText.rstrip_hyphen].
    destruct (PyText.rstrip_hyphen s) as [|d r] eqn:Hr.
    + destruct (Ascii.eqb c "-") eqn:Hc.
      * destruct t; discriminate.
      * destruct t as [|x t]; simpl.
        -- intros H. inversion H. subst.
           rewrite Ascii.eqb_refl in Hc. discriminate.
        -- intros H. inversion H. destruct t; discriminate.
    + destruct t as [|x t]; simpl.
      * discriminate.
      * intros H. inversion H. subst. now apply (IH t).
Qed.

Section SlugV6.

Variable nfkd_ascii : string -> string.

(** X6. The slug that V6.0 gives a law is URL-safe whenever the
    transliteration returns ASCII text, as encoding to ASCII does: it
    has at most 150 characters, all of them among [a-z], [0-9], [_] and
    [-], no two hyphens in a row and no hyphen at its end. *)
Theorem v6_slug_is_url_safe (official_title : string) :
  (forall s, PyText.all is_ascii (nfkd_ascii s) = true) ->
  let slug := V6._generate_slug nfkd_ascii official_title in
  (String.length slug <= 150)%nat
  /\ PyText.all url_safe slug = true
  /\ PyStr.contains "--" slug = false
  /\ (forall t, slug <> (t ++ "-")%string).
Proof.
  intros Ha slug. subst slug. unfold V6._generate_slug.
  repeat split.
  - eapply Nat.le_trans; [apply rstrip_hyphen_length|apply take_length].
  - apply rstrip_hyphen_all, take_all.
    eapply all_impl;
      [|apply all_sub_separators, all_filter, all_and;
        [apply all_lower_ascii, Ha|apply all_lower]].
    intros c Hc. cbv beta in Hc.
    destruct (Ascii.eqb c "-") eqn:Hh.
    + apply Ascii.eqb_eq in Hh. subst c. reflexivity.
    + cbn [orb] in Hc. apply andb_true_iff in Hc. destruct Hc as [Hs Hc].
      apply andb_true_iff in Hc. destruct Hc as [Hk Hc].
      apply andb_true_iff in Hc. destruct Hc as [Hasc Hl].
      apply negb_true_iff in Hs. now apply kept_char_url_safe.
  - eapply contains_prefix; [apply rstrip_hyphen_prefix|].
    apply contains_take, sub_separators_no_double.
  - intros t. apply rstrip_hyphen_end.
Qed.

End SlugV6.

Lemma filter_all (p : ascii -> bool) (s : string) :
  PyText.all p (PyText.filter p s) = true.
Proof.
  induction s as [|c s IH]; simpl; [reflexivity|].
  destruct (p c) eqn:Hp; simpl; [now rewrite Hp|exact IH].
Qed.

Lemma v6_slug_is_url_safe_witness :
  V6._generate_slug ascii_only "Lei n. 41/2023 - Regime  Geral -"
  = "lei-n-412023-regime-geral"
  /\ PyText.all url_safe
       (V6._generate_slug ascii_only "Lei n. 41/2023 - Regime  Geral -")
     = true.
Proof.
  split; [reflexivity|].
  apply (v6_slug_is_url_safe ascii_only "Lei n. 41/2023 - Regime  Geral -").
  intros s. apply filter_all.
Defined.

(* ================================================================== *)
(** * Stage 1 and the shape of what the extraction returns *)

Lemma take_app (n : nat) (t extra : string) :
  (n <= String.length t)%nat ->
  PyStr.take n (t ++ extra) = PyStr.take n t.
Proof.
  revert t. induction n as [|n IH]; intros t H; [reflexivity|].
  destruct t as [|c t]; simpl in *; [lia|].
  now rewrite IH by lia.
Qed.

Lemma filler_length (n : nat) : String.length (filler n) = n.
Proof. induction n as [|n IH]; simpl; congruence. Qed.

Lemma drop_app (b s : string) : PyStr.drop (String.length b) (b ++ s) = s.
Proof. induction b as [|c b IH]; simpl; [now destruct s|exact IH]. Qed.

Lemma take_app_length (b s : string) :
  PyStr.take (String.length b) (b ++ s) = b.
Proof. induction b as [|c b IH]; simpl; [now destruct s|now rewrite IH]. Qed.

Lemma string_length_app (a b : string) :
  String.length (a ++ b) = (String.length a + String.length b)%nat.
Proof. induction a as [|c a IH]; simpl; congruence. Qed.

Lemma prefix_app (p s : string) : String.prefix p (p ++ s) = true.
Proof.
  induction p as [|c p IH]; simpl; [now destruct s|].
  destruct (Ascii.ascii_dec c c); [exact IH|congruence].
Qed.

(** X7. The "Clean response" step unwraps an answer inside a [json] code
    fence: from the fence, any body and the closing fence it returns the
    body, whatever the body holds. *)
Theorem clean_response_unwraps_fence (body : string) :
  clean_response ("```json" ++ body ++ "```") = body.
Proof.
  unfold clean_response.
  assert (Hs : PyStr.startswith "```json" ("```json" ++ body ++ "```") = true)
    by apply prefix_app.
  rewrite Hs.
  change (PyStr.drop 7 ("```json" ++ body ++ "```")) with (body ++ "```")%string.
  unfold PyStr.endswith, PyStr.drop_last.
  rewrite string_length_app. change (String.length "```") with 3%nat.
  replace (String.length body + 3 - 3)%nat with (String.length body) by lia.
  rewrite drop_app, take_app_length.
  replace (3 <=? String.length body + 3)%nat with true
    by (symmetry; apply Nat.leb_le; lia).
  reflexivity.
Qed.

Section Stage1Facts.

Variable generate_content : string -> result string.
Variable json_loads : string -> option json.
Variables head tail : string.

(** X8. Of the document only the first 8000 characters reach the model:
    what follows them changes neither the value that
    [_extract_preamble_and_articles] returns nor what it logs. *)
Theorem stage1_reads_only_the_document_head (full_text more : string) :
  (DOCUMENT_LIMIT <= String.length full_text)%nat ->
  _extract_preamble_and_articles generate_content json_loads head tail
                                 (full_text ++ more)
  = _extract_preamble_and_articles generate_content json_loads head tail
                                   full_text.
Proof.
  intros H.
  unfold _extract_preamble_and_articles, extract_try, extraction_prompt.
  now rewrite take_app.
Qed.

Lemma normalize_extraction_object (d : Dict.t) :
  normalize_extraction (JObj d)
  = Ok (JObj (d ++ missing_defaults_extraction d)).
Proof.
  unfold normalize_extraction, missing_defaults_extraction, Py.fill_missing.
  simpl.
  destruct (Dict.contains "preamble_text" d) eqn:Ht; simpl.
  - destruct (Dict.contains "articles" d) eqn:Hc; simpl.
    + now rewrite app_nil_r.
    + now rewrite dict_set_absent.
  - rewrite (dict_set_absent _ _ _ Ht).
    rewrite dict_contains_app. simpl.
    destruct (Dict.contains "articles" d) eqn:Hc; simpl.
    + reflexivity.
    + rewrite dict_set_absent.
      * now rewrite <- app_assoc.
      * rewrite dict_contains_app, Hc. reflexivity.
Qed.

(** The validation step on a value that is not an object: it passes a
    string or an array that holds both names and raises [TypeError] on
    everything else. *)
Lemma fill_two_not_object (k1 k2 : string) (x1 x2 v : json) :
  not_object v = true ->
  (v1 <- Py.fill_missing k1 x1 v ;;
   v2 <- Py.fill_missing k2 x2 v1 ;; Ok v2)%result
  = if holds_key k1 v && holds_key k2 v then Ok v else Raise TypeError.
Proof.
  unfold Py.fill_missing, holds_key.
  destruct v as [| b | z | r | s | l | d]; intros Hn; try reflexivity;
    try discriminate Hn; simpl.
  - destruct (PyStr.contains k1 s); simpl; [|reflexivity].
    now destruct (PyStr.contains k2 s).
  - destruct (existsb _ l); simpl; [|reflexivity].
    now destruct (existsb _ l).
Qed.

(** X9. What [_extract_preamble_and_articles] returns, case by case.
    Either its [try] block failed and it returns the literal with an
    empty preamble and no articles, with one ERROR record; or the
    answer parsed as an object and it returns that object followed by
    the empty default of each of ['preamble_text'] and ['articles'] it
    lacks; or the answer parsed as a string or an array that holds both
    names and it returns that value, which is not an object. *)
Theorem stage1_extraction_outcomes (full_text : string) :
  let p := extraction_prompt head tail full_text in
  let r := _extract_preamble_and_articles generate_content json_loads
                                          head tail full_text in
  (exists e,
      extraction_failure generate_content json_loads normalize_extraction p
      /\ r = (FALLBACK_EXTRACTION, [(ERROR, MsgExtractionFailed e)]))
  \/ (exists text d,
         generate_content p = Ok text
         /\ json_loads (clean_response (PyStr.strip text)) = Some (JObj d)
         /\ r = (JObj (d ++ missing_defaults_extraction d), []))
  \/ (exists text parsed,
         generate_content p = Ok text
         /\ json_loads (clean_response (PyStr.strip text)) = Some parsed
         /\ not_object parsed = true
         /\ holds_key "preamble_text" parsed = true
         /\ holds_key "articles" parsed = true
         /\ r = (parsed, [])).
Proof.
  intros p r. subst r.
  unfold _extract_preamble_and_articles, extract_try, loads. fold p.
  destruct (generate_content p) as [text|e] eqn:Hg; simpl.
  - destruct (json_loads _) as [parsed|] eqn:Hl; simpl.
    + destruct (not_object parsed) eqn:Hn.
      * unfold normalize_extraction.
        rewrite (fill_two_not_object _ _ _ _ _ Hn).
        destruct (holds_key "preamble_text" parsed) eqn:H1;
          [destruct (holds_key "articles" parsed) eqn:H2|]; cbn [andb].
        -- right. right. exists text, parsed. auto 7.
        -- left. exists TypeError. split; [|reflexivity].
           eapply validation_failure; eauto.
           unfold normalize_extraction.
           rewrite (fill_two_not_object _ _ _ _ _ Hn), H1, H2. reflexivity.
        -- left. exists TypeError. split; [|reflexivity].
           eapply validation_failure; eauto.
           unfold normalize_extraction.
           rewrite (fill_two_not_object _ _ _ _ _ Hn), H1. reflexivity.
      * destruct parsed; try discriminate Hn.
        rewrite normalize_extraction_object.
        right. left. eauto.
    + left. exists JSONDecodeError. split; [|reflexivity].
      eapply malformed_json; eauto.
  - left. exists e. split; [|reflexivity]. eapply backend_failure; eauto.
Qed.

(** X10. [_analyze_content_v50] does not always return an object. When
    the answer parses as a value that is not an object, the validation
    step tests the two names on that value: a string that has both
    names as parts, or an array that has both as elements, is returned
    as it is and nothing is logged; any other string or array, a number,
    a boolean and [null] give the fallback with [TypeError] logged. *)
Theorem analysis_of_a_non_object_answer
    (content content_type : string) (article_number : option string)
    (text : string) (parsed : json) :
  generate_content (analysis_prompt head tail content) = Ok text ->
  json_loads (clean_response (PyStr.strip text)) = Some parsed ->
  not_object parsed = true ->
  _analyze_content_v50 generate_content json_loads head tail
                       content content_type article_number
  = if holds_key "tags" parsed && holds_key "cross_references" parsed
    then (parsed, [])
    else (FALLBACK_V50, [(ERROR, MsgV50AnalysisFailed TypeError)]).
Proof.
  intros Hg Hl Hn.
  unfold _analyze_content_v50, analyze_v50_try, loads.
  rewrite Hg. simpl. rewrite Hl. simpl.
  unfold normalize_v50. rewrite (fill_two_not_object _ _ _ _ _ Hn).
  now destruct (_ && _).
Qed.

Lemma fill_missing_object (k : string) (x : json) (d : Dict.t) :
  Py.fill_missing k x (JObj d)
  = Ok (JObj (d ++ if Dict.contains k d then [] else [(k, x)])).
Proof.
  unfold Py.fill_missing. simpl.
  destruct (Dict.contains k d) eqn:H; simpl.
  - now rewrite app_nil_r.
  - now rewrite dict_set_absent.
Qed.

Lemma normalize_v6_object (d : Dict.t) :
  normalize_v6 (JObj d) = Ok (JObj (d ++ missing_defaults_v6 d)).
Proof.
  unfold normalize_v6, missing_defaults_v6.
  rewrite fill_missing_object. cbn [rbind].
  rewrite fill_missing_object. cbn [rbind].
  rewrite fill_missing_object. cbn [rbind].
  rewrite fill_missing_object. cbn [rbind].
  rewrite !dict_contains_app.
  destruct (Dict.contains "tags" d), (Dict.contains "cross_references" d),
    (Dict.contains "informal_summary_title" d),
    (Dict.contains "informal_summary" d);
    cbn; rewrite <- ?app_assoc, ?app_nil_r; reflexivity.
Qed.

(** X11. For every answer that parses as an object,
    [_analyze_content_v6_map] logs nothing and returns the object
    followed by the empty default of each of ['tags'],
    ['cross_references'], ['informal_summary_title'] and
    ['informal_summary'] it lacks, in this order; the keys it has keep
    their values and their places. *)
Theorem v6_map_fills_missing_keys
    (content content_type : string) (article_number : option string)
    (text : string) (d : Dict.t) :
  generate_content (analysis_prompt head tail content) = Ok text ->
  json_loads (clean_response (PyStr.strip text)) = Some (JObj d) ->
  _analyze_content_v6_map generate_content json_loads head tail
                          content content_type article_number
  = (JObj (d ++ missing_defaults_v6 d), []).
Proof.
  intros Hg Hl. unfold _analyze_content_v6_map, analyze_v6_map_try, loads.
  rewrite Hg. simpl. rewrite Hl. simpl.
  now rewrite normalize_v6_object.
Qed.

End Stage1Facts.

Lemma v6_map_fills_missing_keys_witness :
  _analyze_content_v6_map (answers response_without_tags) JsonLite.loads
                          "head " " tail" "Artigo 1" "article" None
  = (JObj ([("cross_references", JArr [])]
           ++ missing_defaults_v6 [("cross_references", JArr [])]), []).
Proof.
  apply (v6_map_fills_missing_keys
           (answers response_without_tags) JsonLite.loads "head " " tail"
           "Artigo 1" "article" None response_without_tags
           [("cross_references", JArr [])]).
  - reflexivity.
  - vm_compute. reflexivity.
Defined.

Lemma stage1_reads_only_the_document_head_witness :
  _extract_preamble_and_articles unreachable JsonLite.loads "head " " tail"
                                 (filler DOCUMENT_LIMIT ++ "Artigo 99")
  = _extract_preamble_and_articles unreachable JsonLite.loads "head " " tail"
                                   (filler DOCUMENT_LIMIT).
Proof.
  apply (stage1_reads_only_the_document_head
           unreachable JsonLite.loads "head " " tail"
           (filler DOCUMENT_LIMIT) "Artigo 99").
  apply Nat.leb_le. vm_compute. reflexivity.
Defined.

(** The answer ["tags, cross_references"], a JSON string. *)
Lemma analysis_of_a_non_object_answer_witness :
  _analyze_content_v50 (answers (JsonLite.q "tags, cross_references"))
                       JsonLite.loads "head " " tail" "Artigo 1" "article" None
  = (JStr "tags, cross_references", []).
Proof.
  apply (analysis_of_a_non_object_answer
           (answers (JsonLite.q "tags, cross_references")) JsonLite.loads
           "head " " tail" "Artigo 1" "article" None
           (JsonLite.q "tags, cross_references")
           (JStr "tags, cross_references")).
  - reflexivity.
  - vm_compute. reflexivity.
  - reflexivity.
Defined.

(* ================================================================== *)
(** * The metadata of stage 1 *)

Lemma lit_some {A : Type} (l : string) (k : string -> option A)
    (s : string) (r : A) :
  MetaRe.lit l k s = Some r ->
  PyText.lower (PyStr.take (String.length l) s) = PyText.lower l
  /\ exists s', k s' = Some r.
Proof.
  revert s. induction l as [|a l IH]; intros s H.
  - split; [reflexivity|]. exists s. exact H.
  - destruct s as [|c s]; [discriminate H|]. cbn [MetaRe.lit] in H.
    destruct (MetaRe.same_letter a c) eqn:Hc; [|discriminate H].
    apply Ascii.eqb_eq in Hc. destruct (IH s H) as [Hl Hk].
    split; [|exact Hk]. simpl. now rewrite Hc, Hl.
Qed.

Lemma spaces_some {A : Type} (k : string -> option A) (s : string) (r : A) :
  MetaRe.spaces k s = Some r -> exists s', k s' = Some r.
Proof.
  induction s as [|c s IH]; cbn [MetaRe.spaces]; [eauto|].
  destruct (PyStr.isspace c); [|eauto].
  destruct (MetaRe.spaces k s); [|eauto].
  intros H. apply IH. exact H.
Qed.

Lemma spaces1_some {A : Type} (k : string -> option A) (s : string) (r : A) :
  MetaRe.spaces1 k s = Some r -> exists s', k s' = Some r.
Proof.
  unfold MetaRe.spaces1. destruct s as [|c s]; [discriminate|].
  destruct (PyStr.isspace c); [apply spaces_some|discriminate].
Qed.

Lemma is_digit_val (c : ascii) :
  PyStr.is_digit c = true -> 0 <= PyStr.digit_val c <= 9.
Proof.
  unfold PyStr.is_digit, PyStr.digit_val.
  rewrite andb_true_iff, !Nat.leb_le. lia.
Qed.

Lemma digits_1_2_some {A : Type} (k : string -> string -> option A)
    (s : string) (r : A) :
  MetaRe.digits_1_2 k s = Some r ->
  exists g s', k g s' = Some r /\ 0 <= Re.int_of_digits g <= 99.
Proof.
  unfold MetaRe.digits_1_2. destruct s as [|a r1]; [discriminate|].
  destruct (PyStr.is_digit a) eqn:Ha; [|discriminate].
  pose proof (is_digit_val a Ha) as Ba.
  assert (One : k (String a EmptyString) r1 = Some r ->
                exists g s', k g s' = Some r /\ 0 <= Re.int_of_digits g <= 99).
  { intros H. exists (String a EmptyString), r1. split; [exact H|].
    unfold Re.int_of_digits. cbn [Re.int_of_digits_from]. lia. }
  destruct r1 as [|b r2]; [exact One|].
  destruct (PyStr.is_digit b) eqn:Hb; [|exact One].
  pose proof (is_digit_val b Hb) as Bb.
  destruct (k (String a (String b EmptyString)) r2) as [x|] eqn:Hk;
    [|exact One].
  intros H. inversion H. subst x.
  exists (String a (String b EmptyString)), r2. split; [exact Hk|].
  unfold Re.int_of_digits. cbn [Re.int_of_digits_from]. lia.
Qed.

Lemma digits_4_some {A : Type} (k : string -> string -> option A)
    (s : string) (r : A) :
  MetaRe.digits_4 k s = Some r ->
  exists g s', k g s' = Some r /\ 0 <= Re.int_of_digits g <= 9999.
Proof.
  unfold MetaRe.digits_4.
  destruct s as [|a [|b [|c [|d rest]]]]; try discriminate.
  destruct (PyStr.is_digit a) eqn:Ha; [|discriminate].
  destruct (PyStr.is_digit b) eqn:Hb; [|discriminate].
  destruct (PyStr.is_digit c) eqn:Hc; [|discriminate].
  destruct (PyStr.is_digit d) eqn:Hd; [|discriminate].
  cbn [andb]. intros H.
  pose proof (is_digit_val a Ha). pose proof (is_digit_val b Hb).
  pose proof (is_digit_val c Hc). pose proof (is_digit_val d Hd).
  eexists. eexists. split; [exact H|].
  unfold Re.int_of_digits. cbn [Re.int_of_digits_from]. lia.
Qed.

Lemma alternatives_some {A : Type} (alts : list string)
    (k : string -> string -> option A) (s : string) (r : A) :
  MetaRe.alternatives alts k s = Some r ->
  exists a g s',
    In a alts /\ PyText.lower g = PyText.lower a /\ k g s' = Some r.
Proof.
  induction alts as [|a alts IH]; cbn [MetaRe.alternatives]; [discriminate|].
  destruct (MetaRe.lit a _ s) as [x|] eqn:Hl.
  - intros H. inversion H. subst x.
    apply lit_some in Hl. destruct Hl as [Hg [s' Hk]].
    exists a. eexists. exists s'. split; [now left|]. split; eassumption.
  - intros H. destruct (IH H) as [b [g [s' [Hin Hr]]]].
    exists b, g, s'. split; [now right|exact Hr].
Qed.

Lemma search_some {A : Type} (at_start : string -> option A)
    (s : string) (r : A) :
  MetaRe.search at_start s = Some r -> exists s', at_start s' = Some r.
Proof.
  induction s as [|c s IH]; cbn [MetaRe.search].
  - destruct (at_start EmptyString) eqn:H; [|discriminate].
    intros E. inversion E. subst. eauto.
  - destruct (at_start (String c s)) eqn:H; [|exact IH].
    intros E. inversion E. subst. eauto.
Qed.

(** The groups of a match of the date pattern: one or two digits, a
    month name in any case, four digits. *)
Lemma date_at_groups (s g1 g2 g3 : string) :
  MetaRe.date_at s = Some (g1, g2, g3) ->
  0 <= Re.int_of_digits g1 <= 99
  /\ (exists a, In a MetaRe.month_names /\ PyText.lower g2 = PyText.lower a)
  /\ 0 <= Re.int_of_digits g3 <= 9999.
Proof.
  unfold MetaRe.date_at. intros H.
  apply lit_some in H. destruct H as [_ [s1 H]].
  apply spaces1_some in H. destruct H as [s2 H].
  apply digits_1_2_some in H. destruct H as [day [s3 [H Hday]]].
  apply spaces1_some in H. destruct H as [s4 H].
  apply lit_some in H. destruct H as [_ [s5 H]].
  apply spaces1_some in H. destruct H as [s6 H].
  apply alternatives_some in H.
  destruct H as [a [month [s7 [Hin [Hlow H]]]]].
  apply spaces1_some in H. destruct H as [s8 H].
  apply lit_some in H. destruct H as [_ [s9 H]].
  apply spaces1_some in H. destruct H as [s10 H].
  apply digits_4_some in H. destruct H as [year [s11 [H Hyear]]].
  inversion H. subst. split; [exact Hday|]. split; [eauto|exact Hyear].
Qed.

Lemma month_of_name (a : string) :
  In a MetaRe.month_names ->
  1 <= months_get (PyText.lower a) months <= 12.
Proof.
  intros Hin.
  assert (Hall :
    forallb (fun a => let m := months_get (PyText.lower a) months in
                      (1 <=? m) && (m <=? 12))
            MetaRe.month_names = true) by (vm_compute; reflexivity).
  rewrite forallb_forall in Hall. specialize (Hall _ Hin). cbv zeta in Hall.
  apply andb_true_iff in Hall. rewrite !Z.leb_le in Hall. exact Hall.
Qed.

(** [fromisoformat] on what [isoformat] writes for numbers of four, two
    and two digits: the range check of the constructor decides. *)
Lemma fromisoformat_of_digits
    (fromisoformat_other : string -> result PyDate.date) (y m d : Z) :
  0 <= y <= 9999 -> 0 <= m <= 99 -> 0 <= d <= 99 ->
  PyDate.fromisoformat fromisoformat_other
    (PyDate.isoformat (PyDate.mkDate y m d))
  = if PyDate.valid (PyDate.mkDate y m d)
    then Ok (PyDate.mkDate y m d) else Raise ValueError.
Proof.
  intros Hy Hm Hd.
  unfold PyDate.isoformat, PyDate.fmt4, PyDate.fmt2. cbn [String.append].
  unfold PyDate.fromisoformat, PyDate.date_only.
  cbn [PyDate.year PyDate.month PyDate.day].
  rewrite digits4_fmt4 by lia. rewrite !digits2_fmt2 by lia.
  reflexivity.
Qed.

(** X12. The enactment date that [_extract_metadata] reads from a text
    is always the ten-character text [YYYY-MM-DD] of a year up to 9999, a
    month from 1 to 12 and a day number up to 99 taken from the text as
    it stands: the day is not checked against the month, so
    [fromisoformat] accepts the date exactly when it is a day of the
    calendar, whatever it does on texts of another form. *)
Theorem enactment_date_is_iso_text
    (search_type : string -> option (string * string))
    (fromisoformat_other : string -> result PyDate.date) (text s : string) :
  md_enactment_date (_extract_metadata search_type text) = Some s ->
  exists y m d,
    0 <= y <= 9999 /\ 1 <= m <= 12 /\ 0 <= d <= 99
    /\ s = PyDate.isoformat (PyDate.mkDate y m d)
    /\ String.length s = 10%nat
    /\ PyDate.fromisoformat fromisoformat_other s
       = if PyDate.valid (PyDate.mkDate y m d)
         then Ok (PyDate.mkDate y m d) else Raise ValueError.
Proof.
  cbn [md_enactment_date _extract_metadata]. unfold extract_enactment_date.
  destruct (MetaRe.search MetaRe.date_at text) as [[[g1 g2] g3]|] eqn:Hs;
    [|discriminate].
  intros H. inversion H as [Hdate]. clear H.
  apply search_some in Hs. destruct Hs as [s' Hs].
  apply date_at_groups in Hs. destruct Hs as [Hd [[a [Hin Hlow]] Hy]].
  assert (Hm : 1 <= months_get (PyText.lower g2) months <= 12)
    by (rewrite Hlow; now apply month_of_name).
  set (y := Re.int_of_digits g3) in *.
  set (m := months_get (PyText.lower g2) months) in *.
  set (d := Re.int_of_digits g1) in *.
  exists y, m, d.
  split; [exact Hy|]. split; [exact Hm|]. split; [exact Hd|].
  split; [reflexivity|]. split; [reflexivity|].
  change (PyDate.fromisoformat fromisoformat_other
            (PyDate.isoformat (PyDate.mkDate y m d))
          = if PyDate.valid (PyDate.mkDate y m d)
            then Ok (PyDate.mkDate y m d) else Raise ValueError).
  apply fromisoformat_of_digits; lia.
Qed.

(** The thirtieth of February is read as it stands. *)
Lemma enactment_date_is_iso_text_witness :
  exists y m d,
    0 <= y <= 9999 /\ 1 <= m <= 12 /\ 0 <= d <= 99
    /\ "2023-02-30" = PyDate.isoformat (PyDate.mkDate y m d)
    /\ String.length "2023-02-30" = 10%nat
    /\ PyDate.fromisoformat PyDate.no_other_format "2023-02-30"
       = if PyDate.valid (PyDate.mkDate y m d)
         then Ok (PyDate.mkDate y m d) else Raise ValueError.
Proof.
  apply (enactment_date_is_iso_text
           (fun _ => None) PyDate.no_other_format
           ("Lei n. 3/2023, de 30 de Fevereiro de 2023"
            ++ String MetaRe.line_feed "Aprova o regime.")
           "2023-02-30").
  reflexivity.
Defined.

Lemma lstrip_head (s : string) :
  match PyStr.lstrip s with
  | EmptyString => True
  | String c _ => PyStr.isspace c = false
  end.
Proof.
  induction s as [|c s IH]; simpl; [exact I|].
  destruct (PyStr.isspace c) eqn:Hc; [exact IH|exact Hc].
Qed.

Lemma rstrip_nonspace_head (c : ascii) (s : string) :
  PyStr.isspace c = false ->
  PyStr.rstrip (String c s) = String c (PyStr.rstrip s).
Proof.
  intros Hc. cbn [PyStr.rstrip]. rewrite Hc.
  now destruct (PyStr.rstrip s).
Qed.

Lemma rstrip_fixed (s : string) :
  PyStr.rstrip (PyStr.rstrip s) = PyStr.rstrip s.
Proof.
  induction s as [|c s IH]; [reflexivity|].
  cbn [PyStr.rstrip]. destruct (PyStr.rstrip s) as [|d r] eqn:Hr.
  - destruct (PyStr.isspace c) eqn:Hc; [reflexivity|].
    cbn [PyStr.rstrip]. now rewrite Hc.
  - cbn [PyStr.rstrip] in *. rewrite IH. reflexivity.
Qed.

Lemma rstrip_prefix (s : string) : String.prefix (PyStr.rstrip s) s = true.
Proof.
  induction s as [|c s IH]; [reflexivity|].
  cbn [PyStr.rstrip]. destruct (PyStr.rstrip s) as [|d r].
  - destruct (PyStr.isspace c); [reflexivity|]. cbn.
    destruct (Ascii.ascii_dec c c); [now destruct s|congruence].
  - cbn [String.prefix]. destruct (Ascii.ascii_dec c c); [exact IH|congruence].
Qed.

Lemma rstrip_all (p : ascii -> bool) (s : string) :
  PyText.all p s = true -> PyText.all p (PyStr.rstrip s) = true.
Proof.
  induction s as [|c s IH]; [reflexivity|].
  cbn [PyText.all PyStr.rstrip]. rewrite andb_true_iff.
  intros [Hc Hs]. specialize (IH Hs).
  destruct (PyStr.rstrip s) as [|d r].
  - destruct (PyStr.isspace c); [reflexivity|]. cbn. now rewrite Hc.
  - cbn [PyText.all] in *. now rewrite Hc.
Qed.

(** A stripped text starts with a character that is not whitespace. *)
Lemma strip_head (s : string) :
  match PyStr.strip s with
  | EmptyString => True
  | String c _ => PyStr.isspace c = false
  end.
Proof.
  unfold PyStr.strip. pose proof (lstrip_head s) as H.
  destruct (PyStr.lstrip s) as [|c r]; [exact I|].
  now rewrite (rstrip_nonspace_head c r H).
Qed.

Lemma strip_fixed (s : string) : PyStr.strip (PyStr.strip s) = PyStr.strip s.
Proof.
  pose proof (strip_head s) as H. unfold PyStr.strip in *.
  destruct (PyStr.rstrip (PyStr.lstrip s)) as [|c r] eqn:Hr; [reflexivity|].
  cbn [PyStr.lstrip]. rewrite H, <- Hr. apply rstrip_fixed.
Qed.

Lemma first_line_no_line_feed (s : string) :
  PyText.all (fun c => negb (Ascii.eqb c MetaRe.line_feed))
             (MetaRe.first_line s) = true.
Proof.
  induction s as [|c s IH]; [reflexivity|]. cbn [MetaRe.first_line].
  destruct (Ascii.eqb c MetaRe.line_feed) eqn:Hc; [reflexivity|].
  cbn [PyText.all]. now rewrite Hc, IH.
Qed.

Lemma first_line_prefix (s : string) :
  String.prefix (MetaRe.first_line s) s = true.
Proof.
  induction s as [|c s IH]; [reflexivity|]. cbn [MetaRe.first_line].
  destruct (Ascii.eqb c MetaRe.line_feed); [reflexivity|].
  cbn [String.prefix]. destruct (Ascii.ascii_dec c c); [exact IH|congruence].
Qed.

(** X13. The official title that [_extract_metadata] gives is the first
    line of the text once the whitespace around the text is removed: it is
    set exactly when the text has a character that is not whitespace, it
    is not empty, it starts the stripped text, it holds no line feed and
    has no whitespace at either end. *)
Theorem official_title_is_the_first_line
    (search_type : string -> option (string * string)) (text : string) :
  match md_official_title (_extract_metadata search_type text) with
  | None => PyStr.strip text = EmptyString
  | Some title =>
      title <> EmptyString
      /\ String.prefix title (PyStr.strip text) = true
      /\ PyText.all (fun c => negb (Ascii.eqb c MetaRe.line_feed)) title = true
      /\ PyStr.strip title = title
  end.
Proof.
  cbn [md_official_title _extract_metadata].
  unfold extract_official_title, MetaRe.title_line.
  pose proof (strip_head text) as Hh.
  destruct (PyStr.strip text) as [|c r]; [reflexivity|].
  assert (Hlf : Ascii.eqb c MetaRe.line_feed = false).
  { destruct (Ascii.eqb c MetaRe.line_feed) eqn:E; [|reflexivity].
    apply Ascii.eqb_eq in E. subst c. discriminate Hh. }
  rewrite Hlf. cbn [option_map].
  assert (Hfl : MetaRe.first_line (String c r)
                = String c (MetaRe.first_line r))
    by (cbn [MetaRe.first_line]; now rewrite Hlf).
  assert (Ht : PyStr.strip (MetaRe.first_line (String c r))
               = String c (PyStr.rstrip (MetaRe.first_line r))).
  { rewrite Hfl. unfold PyStr.strip. cbn [PyStr.lstrip]. rewrite Hh.
    now apply rstrip_nonspace_head. }
  split; [rewrite Ht; discriminate|]. split; [|split].
  - rewrite Ht. cbn [String.prefix].
    destruct (Ascii.ascii_dec c c); [|congruence].
    eapply prefix_trans; [apply rstrip_prefix|apply first_line_prefix].
  - rewrite Ht. cbn [PyText.all]. rewrite Hlf. cbn [negb andb].
    apply rstrip_all, first_line_no_line_feed.
  - apply strip_fixed.
Qed.

(* ================================================================== *)
(** * Aggregation of tags *)

Lemma ForallOrdPairs_snoc {A : Type} (R : A -> A -> Prop) (l : list A) (t : A) :
  ForallOrdPairs R l -> (forall x, In x l -> R x t) ->
  ForallOrdPairs R (l ++ [t]).
Proof.
  induction 1 as [|a l Ha Hl IH]; intros Ht; simpl.
  - constructor; constructor.
  - constructor.
    + apply Forall_app. split.
      * exact Ha.
      * constructor; [|constructor]. apply Ht. now left.
    + apply IH. intros x Hx. apply Ht. now right.
Qed.

Section AggregateFacts.

Variable py_eqb : json -> json -> bool.

Local Abbreviation differ := (fun x y : json => py_eqb x y = false).

Lemma add_tag_raises (seen : list json) (tag : json) (e : exn) :
  add_tag py_eqb seen tag = Raise e -> e = TypeError.
Proof.
  unfold add_tag. destruct (PyVal.truthy tag); [|discriminate].
  destruct (PyVal.hashable tag); [|congruence].
  destruct (existsb _ seen); discriminate.
Qed.

Lemma add_tags_raises (tags seen : list json) (e : exn) :
  add_tags py_eqb seen tags = Raise e -> e = TypeError.
Proof.
  revert seen. induction tags as [|t tags IH]; intros seen; simpl;
    [discriminate|].
  destruct (add_tag py_eqb seen t) as [seen'|e'] eqn:Ht.
  - apply IH.
  - intros H. inversion H. subst. eapply add_tag_raises; eauto.
Qed.

Lemma add_tags_app (l1 l2 seen : list json) :
  add_tags py_eqb seen (l1 ++ l2)
  = match add_tags py_eqb seen l1 with
    | Ok seen' => add_tags py_eqb seen' l2
    | Raise e => Raise e
    end.
Proof.
  revert seen. induction l1 as [|t l1 IH]; intros seen; simpl; [reflexivity|].
  destruct (add_tag py_eqb seen t); [apply IH|reflexivity].
Qed.

(** One list: what the loop keeps. *)
Lemma add_tags_ok (tags seen out : list json) :
  add_tags py_eqb seen tags = Ok out ->
  (ForallOrdPairs differ seen -> ForallOrdPairs differ out)
  /\ (forall t, In t out ->
        In t seen
        \/ (In t tags /\ PyVal.truthy t = true /\ PyVal.hashable t = true))
  /\ incl seen out
  /\ (forall t, In t tags -> PyVal.truthy t = true ->
        In t out \/ exists x, In x out /\ py_eqb x t = true).
Proof.
  revert seen. induction tags as [|tag tags IH]; intros seen; simpl.
  - intros H. inversion H. subst. repeat split; auto.
    + apply incl_refl.
    + intros t [].
  - unfold add_tag at 1.
    destruct (PyVal.truthy tag) eqn:Htr.
    + destruct (PyVal.hashable tag) eqn:Hh; [|discriminate].
      destruct (existsb (fun x => py_eqb x tag) seen) eqn:He.
      * intros H. destruct (IH _ H) as [H1 [H2 [H3 H4]]].
        split; [exact H1|]. split; [|split; [exact H3|]].
        -- intros t Ht. destruct (H2 t Ht) as [Hs|[Hin Hp]]; auto.
        -- intros t [<-|Hin] Ht; [|now apply H4].
           apply existsb_exists in He. destruct He as [x [Hx Hxe]].
           right. exists x. split; [now apply H3|exact Hxe].
      * intros H. destruct (IH _ H) as [H1 [H2 [H3 H4]]].
        split; [|split; [|split]].
        -- intros Hd. apply H1. apply ForallOrdPairs_snoc; [exact Hd|].
           intros x Hx. cbv beta.
           destruct (py_eqb x tag) eqn:Hxt; [|reflexivity].
           assert (existsb (fun x => py_eqb x tag) seen = true)
             by (apply existsb_exists; eauto).
           congruence.
        -- intros t Ht. destruct (H2 t Ht) as [Hs|[Hin Hp]]; auto.
           apply in_app_or in Hs. destruct Hs as [Hs|[<-|[]]]; auto.
        -- intros x Hx. apply H3. apply in_or_app. now left.
        -- intros t [<-|Hin] Ht; [|now apply H4].
           left. apply H3. apply in_or_app. right. now left.
    + intros H. destruct (IH _ H) as [H1 [H2 [H3 H4]]].
      split; [exact H1|]. split; [|split; [exact H3|]].
      * intros t Ht. destruct (H2 t Ht) as [Hs|[Hin Hp]]; auto.
      * intros t [<-|Hin] Ht; [congruence|now apply H4].
Qed.

Lemma add_tags_unhashable (tags seen : list json) (t : json) :
  In t tags -> PyVal.truthy t = true -> PyVal.hashable t = false ->
  add_tags py_eqb seen tags = Raise TypeError.
Proof.
  intros Hin Ht Hh.
  destruct (add_tags py_eqb seen tags) as [out|e] eqn:H.
  - exfalso. revert seen out H.
    induction tags as [|tag tags IH]; intros seen out; [destruct Hin|].
    simpl. destruct Hin as [<-|Hin].
    + unfold add_tag. rewrite Ht, Hh. discriminate.
    + destruct (add_tag py_eqb seen tag); [|discriminate].
      now apply IH.
  - now rewrite (add_tags_raises _ _ _ H).
Qed.

Lemma fold_category_raise (tags : Dict.t) (cs : list string) (e : exn) :
  fold_left (add_category py_eqb tags) cs (Raise e) = Raise e.
Proof. induction cs as [|c cs IH]; simpl; [reflexivity|exact IH]. Qed.

Lemma fold_article_raise (articles : list Dict.t) (e : exn) :
  fold_left (add_article py_eqb) articles (Raise e) = Raise e.
Proof.
  induction articles as [|a articles IH]; simpl; [reflexivity|exact IH].
Qed.

(** The tags of one category in one article. *)
Local Abbreviation article_category c article := (category_tags c [article]).

Lemma add_category_ok (tags : Dict.t) (agg agg' : tag_lists) (c : string) :
  add_category py_eqb tags (Ok agg) c = Ok agg' ->
  add_tags py_eqb (agg c)
           (match category_list c tags with Some l => l | None => [] end)
  = Ok (agg' c)
  /\ forall c', String.eqb c' c = false -> agg' c' = agg c'.
Proof.
  unfold add_category. destruct (category_list c tags) as [l|].
  - destruct (add_tags py_eqb (agg c) l) as [l'|e]; [|discriminate].
    intros H. inversion H. subst. unfold set_tags.
    rewrite String.eqb_refl. split; [reflexivity|].
    intros c' Hc. now rewrite Hc.
  - intros H. inversion H. subst. simpl. auto.
Qed.

Lemma add_category_raises (tags : Dict.t) (agg : tag_lists) (c : string)
    (e : exn) :
  add_category py_eqb tags (Ok agg) c = Raise e -> e = TypeError.
Proof.
  unfold add_category. destruct (category_list c tags) as [l|];
    [|discriminate].
  destruct (add_tags py_eqb (agg c) l) as [l'|e'] eqn:H; [discriminate|].
  intros E. inversion E. subst. eapply add_tags_raises; eauto.
Qed.

(** One article: each of the three categories is extended by the list
    the article has for it; nothing else changes. *)
Lemma add_article_ok (article : Dict.t) (agg agg' : tag_lists) :
  add_article py_eqb (Ok agg) article = Ok agg' ->
  (forall c, In c CATEGORIES ->
     add_tags py_eqb (agg c) (article_category c article) = Ok (agg' c))
  /\ (forall c, ~ In c CATEGORIES -> agg' c = agg c).
Proof.
  unfold add_article, category_tags. cbn [flat_map].
  destruct (article_tags article) as [tags|].
  - cbn [CATEGORIES fold_left].
    destruct (add_category py_eqb tags (Ok agg) "person") as [a1|e] eqn:H1;
      [|cbn; discriminate].
    destruct (add_category py_eqb tags (Ok a1) "organization")
      as [a2|e] eqn:H2; [|cbn; discriminate].
    intros H3.
    apply add_category_ok in H1, H2, H3.
    destruct H1 as [P1 Q1], H2 as [P2 Q2], H3 as [P3 Q3].
    split.
    + intros c [<-|[<-|[<-|[]]]]; rewrite app_nil_r.
      * rewrite (Q3 "person" eq_refl), (Q2 "person" eq_refl). exact P1.
      * rewrite (Q3 "organization" eq_refl),
                <- (Q1 "organization" eq_refl). exact P2.
      * rewrite <- (Q1 "concept" eq_refl), <- (Q2 "concept" eq_refl).
        exact P3.
    + intros c Hc.
      assert (N : forall k, In k CATEGORIES -> String.eqb c k = false).
      { intros k Hk. apply String.eqb_neq. intros ->. now apply Hc. }
      rewrite Q3, Q2, Q1; auto; apply N; simpl; auto.
  - intros H. inversion H. subst. split; [|auto].
    intros c _. reflexivity.
Qed.

Lemma add_article_raises (article : Dict.t) (agg : tag_lists) (e : exn) :
  add_article py_eqb (Ok agg) article = Raise e -> e = TypeError.
Proof.
  unfold add_article. destruct (article_tags article) as [tags|];
    [|discriminate].
  cbn [CATEGORIES fold_left].
  destruct (add_category py_eqb tags (Ok agg) "person") as [a1|e1] eqn:H1.
  - destruct (add_category py_eqb tags (Ok a1) "organization")
      as [a2|e2] eqn:H2.
    + apply add_category_raises.
    + cbn. intros E. inversion E. subst.
      eapply add_category_raises; eauto.
  - cbn. intros E. inversion E. subst. eapply add_category_raises; eauto.
Qed.

Lemma category_tags_cons (c : string) (a : Dict.t) (articles : list Dict.t) :
  category_tags c (a :: articles)
  = category_tags c [a] ++ category_tags c articles.
Proof. unfold category_tags. cbn [flat_map]. now rewrite app_nil_r. Qed.

(** The whole loop, category by category. *)
Lemma aggregate_from_ok (articles : list Dict.t) :
  forall agg0 agg,
    fold_left (add_article py_eqb) articles (Ok agg0) = Ok agg ->
    (forall c, In c CATEGORIES ->
       add_tags py_eqb (agg0 c) (category_tags c articles) = Ok (agg c))
    /\ (forall c, ~ In c CATEGORIES -> agg c = agg0 c).
Proof.
  induction articles as [|a articles IH]; intros agg0 agg; cbn [fold_left].
  - intros H. inversion H. subst. auto.
  - destruct (add_article py_eqb (Ok agg0) a) as [agg1|e] eqn:Ha;
      [|now rewrite fold_article_raise].
    intros H. destruct (IH _ _ H) as [P Q].
    destruct (add_article_ok _ _ _ Ha) as [P1 Q1]. split.
    + intros c Hc. rewrite category_tags_cons, add_tags_app.
      rewrite (P1 c Hc). now apply P.
    + intros c Hc. rewrite (Q c Hc). now apply Q1.
Qed.

Lemma aggregate_from_raises (articles : list Dict.t) :
  forall agg0 e,
    fold_left (add_article py_eqb) articles (Ok agg0) = Raise e ->
    e = TypeError.
Proof.
  induction articles as [|a articles IH]; intros agg0 e; cbn [fold_left];
    [discriminate|].
  destruct (add_article py_eqb (Ok agg0) a) as [agg1|e1] eqn:Ha.
  - apply IH.
  - rewrite fold_article_raise. intros E. inversion E. subst.
    eapply add_article_raises; eauto.
Qed.

Lemma in_category_tags (c : string) (articles : list Dict.t) (t : json) :
  In t (category_tags c articles) <->
  exists article tags l,
    In article articles /\ article_tags article = Some tags
    /\ category_list c tags = Some l /\ In t l.
Proof.
  unfold category_tags. rewrite in_flat_map. split.
  - intros [article [Ha Ht]].
    destruct (article_tags article) as [tags|] eqn:E1; [|destruct Ht].
    destruct (category_list c tags) as [l|] eqn:E2; [|destruct Ht].
    exists article, tags, l. auto.
  - intros [article [tags [l [Ha [E1 [E2 Ht]]]]]].
    exists article. split; [exact Ha|]. now rewrite E1, E2.
Qed.

(** X14. When [_aggregate_tags_v50] gets through its loop, the list it
    has built for a category holds no tag twice: no entry equals an
    earlier one. Every entry is a true, hashable tag that some article
    has in its list of that category, and a name outside the three
    categories gets nothing. *)
Theorem aggregated_tags_are_distinct
    (articles : list Dict.t) (agg : tag_lists) (category : string) :
  aggregate_tags py_eqb articles = Ok agg ->
  ForallOrdPairs (fun x y => py_eqb x y = false) (agg category)
  /\ (forall t, In t (agg category) ->
        In category CATEGORIES
        /\ PyVal.truthy t = true /\ PyVal.hashable t = true
        /\ exists article tags l,
             In article articles /\ article_tags article = Some tags
             /\ category_list category tags = Some l /\ In t l).
Proof.
  unfold aggregate_tags. intros H.
  destruct (aggregate_from_ok _ _ _ H) as [P Q].
  destruct (in_dec string_dec category CATEGORIES) as [Hc|Hc].
  - destruct (add_tags_ok _ _ _ (P category Hc)) as [H1 [H2 _]]. split.
    + apply H1. constructor.
    + intros t Ht. destruct (H2 t Ht) as [[]|[Hin [Htr Hh]]].
      repeat split; try assumption. now apply in_category_tags.
  - rewrite (Q category Hc). unfold no_tags. split; [constructor|].
    intros t [].
Qed.

(** X15. When [_aggregate_tags_v50] gets through its loop, no tag of an
    article is lost: a true tag in the list that an article has for one
    of the three categories is in the list built for the category, or
    equals an entry of it. *)
Theorem aggregated_tags_cover_the_articles
    (articles : list Dict.t) (agg : tag_lists) (category : string)
    (article tags : Dict.t) (l : list json) (t : json) :
  aggregate_tags py_eqb articles = Ok agg ->
  In category CATEGORIES ->
  In article articles -> article_tags article = Some tags ->
  category_list category tags = Some l -> In t l ->
  PyVal.truthy t = true ->
  In t (agg category)
  \/ exists x, In x (agg category) /\ py_eqb x t = true.
Proof.
  unfold aggregate_tags. intros H Hc Ha E1 E2 Ht Htr.
  destruct (aggregate_from_ok _ _ _ H) as [P _].
  destruct (add_tags_ok _ _ _ (P category Hc)) as [_ [_ [_ H4]]].
  apply H4; [|exact Htr].
  apply in_category_tags. exists article, tags, l. auto.
Qed.

Variable DB : Type.
Variable select_tags : string -> DB -> result (list Dict.t) * DB.
Variable update_tags : string -> json -> DB -> result unit * DB.

(** X16. A tag that is a non-empty list or object stops the
    aggregation: when an article selected for the law has one in the
    list of one of the three categories, [_aggregate_tags_v50] raises
    [TypeError] and the law is not updated, the store being left as
    the selection left it. *)
Theorem unhashable_tag_stops_aggregation
    (law_id : string) (db db1 : DB) (articles : list Dict.t)
    (category : string) (article tags : Dict.t) (l : list json) (t : json) :
  select_tags law_id db = (Ok articles, db1) ->
  In category CATEGORIES ->
  In article articles -> article_tags article = Some tags ->
  category_list category tags = Some l -> In t l ->
  PyVal.truthy t = true -> PyVal.hashable t = false ->
  aggregate_tags py_eqb articles = Raise TypeError
  /\ _aggregate_tags_v50 py_eqb DB select_tags update_tags law_id db
     = (Raise TypeError, db1).
Proof.
  intros Hs Hc Ha E1 E2 Ht Htr Hh.
  assert (Hr : aggregate_tags py_eqb articles = Raise TypeError).
  { unfold aggregate_tags.
    destruct (fold_left _ articles (Ok no_tags)) as [agg|e] eqn:H.
    - destruct (aggregate_from_ok _ _ _ H) as [P _].
      specialize (P category Hc).
      rewrite (add_tags_unhashable _ _ t) in P;
        [discriminate|..|exact Htr|exact Hh].
      apply in_category_tags. exists article, tags, l. auto.
    - now rewrite (aggregate_from_raises _ _ _ H). }
  split; [exact Hr|].
  unfold _aggregate_tags_v50. now rewrite Hs, Hr.
Qed.

End AggregateFacts.

Lemma aggregated_tags_are_distinct_witness :
  let agg := match aggregate_tags scalar_eqb
                     [ExTags.article_a; ExTags.article_b] with
             | Ok agg => agg
             | Raise _ => no_tags
             end in
  agg "person" = [JStr "Ana"; JStr "Rui"]
  /\ agg "concept" = [JStr "imposto"; JStr "Ana"]
  /\ ForallOrdPairs (fun x y => scalar_eqb x y = false) (agg "person").
Proof.
  cbv zeta. split; [reflexivity|]. split; [reflexivity|].
  apply (aggregated_tags_are_distinct
           scalar_eqb [ExTags.article_a; ExTags.article_b] _ "person").
  reflexivity.
Defined.

Lemma aggregated_tags_cover_the_articles_witness :
  let agg := match aggregate_tags scalar_eqb
                     [ExTags.article_a; ExTags.article_b] with
             | Ok agg => agg
             | Raise _ => no_tags
             end in
  In (JStr "Ana") (agg "person")
  \/ exists x, In x (agg "person") /\ scalar_eqb x (JStr "Ana") = true.
Proof.
  cbv zeta.
  apply (aggregated_tags_cover_the_articles
           scalar_eqb [ExTags.article_a; ExTags.article_b] _ "person"
           ExTags.article_b
           [("person", JArr [JStr "Rui"; JStr "Ana"; JNull]);
            ("organization", JStr "AT");
            ("concept", JArr [JStr "imposto"])]
           [JStr "Rui"; JStr "Ana"; JNull] (JStr "Ana")).
  - reflexivity.
  - simpl. auto.
  - simpl. auto.
  - reflexivity.
  - reflexivity.
  - simpl. auto.
  - reflexivity.
Defined.

Lemma unhashable_tag_stops_aggregation_witness :
  _aggregate_tags_v50 scalar_eqb tag_rows
    (fun law_id db => (Ok (rows_of law_id db), db))
    (fun _ _ db => (Ok tt, db))
    "law-1" [("law-1", [ExTags.article_a; ExTags.article_bad])]
  = (Raise TypeError, [("law-1", [ExTags.article_a; ExTags.article_bad])]).
Proof.
  apply (proj2 (unhashable_tag_stops_aggregation
                  scalar_eqb tag_rows
                  (fun law_id db => (Ok (rows_of law_id db), db))
                  (fun _ _ db => (Ok tt, db))
                  "law-1" [("law-1", [ExTags.article_a; ExTags.article_bad])]
                  [("law-1", [ExTags.article_a; ExTags.article_bad])]
                  [ExTags.article_a; ExTags.article_bad]
                  "person" ExTags.article_bad
                  [("person", JArr [JArr [JStr "Ana"]])]
                  [JArr [JStr "Ana"]] (JArr [JStr "Ana"])
                  eq_refl ltac:(simpl; auto) ltac:(simpl; auto)
                  eq_refl eq_refl ltac:(simpl; auto) eq_refl eq_refl)).
Defined.

(* ================================================================== *)
(** * The retry wrapper of V6.0 *)

Section RetryFacts.

Variable A : Type.
Variable exn_text : exn -> string.
Variable callee : nat -> result A.
Variable max_retries : Z.

Local Abbreviation run := (attempts A exn_text callee max_retries).

Lemma attempts_slept_logged (todo : nat) :
  forall attempt,
    List.length (snd (fst (run todo attempt)))
    = List.length (snd (run todo attempt))
    /\ (List.length (snd (fst (run todo attempt))) <= todo)%nat
    /\ ((0 < List.length (snd (fst (run todo attempt))))%nat ->
        Z.of_nat attempt
        + Z.of_nat (List.length (snd (fst (run todo attempt))))
        < max_retries).
Proof.
  induction todo as [|todo IH]; intros attempt; cbn [attempts].
  - simpl. split; [reflexivity|]. split; [lia|]. intros H. inversion H.
  - destruct (callee attempt) as [a|e].
    + simpl. split; [reflexivity|]. split; [lia|]. intros H. inversion H.
    + destruct (PyStr.contains "429" (exn_text e)
                && (Z.of_nat attempt <? max_retries - 1)) eqn:Hc.
      * specialize (IH (S attempt)).
        destruct (run todo (S attempt)) as [[r slept] logged].
        cbn [fst snd List.length] in *.
        destruct IH as [H1 [H2 H3]].
        split; [congruence|]. split; [lia|]. intros _.
        apply andb_true_iff in Hc. destruct Hc as [_ Hc].
        apply Z.ltb_lt in Hc.
        destruct slept as [|d slept]; [simpl; lia|].
        assert (0 < List.length (d :: slept))%nat by (simpl; lia).
        specialize (H3 H). simpl in *. lia.
      * simpl. split; [reflexivity|]. split; [lia|].
        intros H. inversion H.
Qed.

Lemma attempts_exhausted (todo : nat) :
  forall attempt,
    (Z.of_nat attempt + Z.of_nat todo = max_retries)%Z ->
    fst (fst (run todo attempt)) = MaxRetriesExceeded -> todo = O.
Proof.
  induction todo as [|todo IH]; intros attempt Hm; [reflexivity|].
  cbn [attempts]. destruct (callee attempt) as [a|e]; [discriminate|].
  destruct (PyStr.contains "429" (exn_text e)
            && (Z.of_nat attempt <? max_retries - 1)) eqn:Hc;
    [|discriminate].
  apply andb_true_iff in Hc. destruct Hc as [_ Hc]. apply Z.ltb_lt in Hc.
  specialize (IH (S attempt)).
  destruct (run todo (S attempt)) as [[r slept] logged].
  cbn [fst snd] in *. intros Hr.
  assert (todo = O) by (apply IH; [lia|exact Hr]). lia.
Qed.

(** X17. The wrapper, whatever the call it wraps does. It ends with
    "Max retries exceeded" exactly when [max_retries] is not positive,
    and then without making a call; it sleeps once for each warning it
    logs, and fewer times than [max_retries]. *)
Theorem retry_is_bounded :
  (fst (fst (with_retry A exn_text callee max_retries)) = MaxRetriesExceeded
   <-> max_retries <= 0)
  /\ (max_retries <= 0 ->
      with_retry A exn_text callee max_retries = (MaxRetriesExceeded, [], []))
  /\ List.length (snd (fst (with_retry A exn_text callee max_retries)))
     = List.length (snd (with_retry A exn_text callee max_retries))
  /\ (0 < max_retries ->
      Z.of_nat (List.length
                  (snd (fst (with_retry A exn_text callee max_retries))))
      < max_retries).
Proof.
  unfold with_retry.
  assert (Hz : max_retries <= 0 ->
               run (Z.to_nat max_retries) O = (MaxRetriesExceeded, [], [])).
  { intros H. replace (Z.to_nat max_retries) with O by lia. reflexivity. }
  split; [|split; [exact Hz|split]].
  - split.
    + intros H. destruct (Z_le_gt_dec max_retries 0) as [Hle|Hgt];
        [exact Hle|].
      apply attempts_exhausted in H; lia.
    + intros H. now rewrite (Hz H).
  - apply attempts_slept_logged.
  - intros Hpos.
    destruct (attempts_slept_logged (Z.to_nat max_retries) O)
      as [_ [H2 H3]].
    destruct (snd (fst (run (Z.to_nat max_retries) O))) as [|d l];
      [simpl; lia|].
    assert (0 < List.length (d :: l))%nat by (simpl; lia).
    specialize (H3 H). simpl in *. lia.
Qed.

End RetryFacts.

Section MapPhaseRetryFacts.

Variable exn_text : exn -> string.
Variable backend : nat -> string -> result string.
Variable json_loads : string -> option json.
Variables head tail : string.

(** X18. The retry of the map phase never happens. The function it
    wraps handles every exception itself, so for a positive
    [max_retries] the wrapper makes one call of the model, does not
    sleep, logs nothing, and returns what that call gives: when the
    model raises at its first call, a rate-limit error included, this
    is the fallback, whatever the model would answer afterwards. *)
Theorem map_phase_is_never_retried
    (content content_type : string) (article_number : option string)
    (max_retries : Z) :
  0 < max_retries ->
  _analyze_content_v6_map_with_retry exn_text backend json_loads head tail
                                     content content_type article_number
                                     max_retries
  = (Returned (_analyze_content_v6_map (backend O) json_loads head tail
                                       content content_type article_number),
     [], [])
  /\ (forall e,
        backend O (analysis_prompt head tail content) = Raise e ->
        _analyze_content_v6_map_with_retry exn_text backend json_loads
                                           head tail content content_type
                                           article_number max_retries
        = (Returned (FALLBACK_V6, [(ERROR, MsgV6MapAnalysisFailed e)]),
           [], [])).
Proof.
  intros Hpos.
  assert (H : _analyze_content_v6_map_with_retry
                exn_text backend json_loads head tail
                content content_type article_number max_retries
              = (Returned (_analyze_content_v6_map
                             (backend O) json_loads head tail
                             content content_type article_number), [], [])).
  { unfold _analyze_content_v6_map_with_retry, with_retry.
    destruct (Z.to_nat max_retries) as [|n] eqn:Hn; [lia|]. reflexivity. }
  split; [exact H|].
  intros e He. rewrite H.
  unfold _analyze_content_v6_map, analyze_v6_map_try. now rewrite He.
Qed.

End MapPhaseRetryFacts.

(** A model that is rate-limited once and would answer at the second
    call: with three attempts allowed, the fallback is returned. *)
Lemma map_phase_is_never_retried_witness :
  _analyze_content_v6_map_with_retry error_text
    (limited_once response_conforming) JsonLite.loads "head " " tail"
    "Artigo 1" "article" None 3
  = (Returned (FALLBACK_V6, [(ERROR, MsgV6MapAnalysisFailed BackendError)]),
     [], []).
Proof.
  apply (proj2 (map_phase_is_never_retried
                  error_text (limited_once response_conforming)
                  JsonLite.loads "head " " tail" "Artigo 1" "article" None 3
                  ltac:(lia)) BackendError).
  reflexivity.
Defined.

(** The wrapper around a call that raises: one sleep of the seconds named
    in the error text, then the answer of the second attempt. *)
Example retry_of_a_raising_call :
  with_retry json error_text
             (fun attempt => match attempt with
                             | O => Raise BackendError
                             | S _ => Ok JNull
                             end) 3
  = (Returned JNull, [7], [(WARNING, MsgRateLimitHit 7 1 3)]).
Proof. reflexivity. Qed.

(* ================================================================== *)
(** * What the linker does to the store, for any transport behaviour *)

Lemma effect_refl (P : relationship_row -> Prop) (Q : reference_row -> Prop)
    (st : Store) (n : LinkStats) :
  linker_effect P Q st n st n.
Proof.
  unfold linker_effect. split; [reflexivity|].
  split; [apply Forall2_refl_on, article_later_refl|].
  exists [], []. rewrite !app_nil_r.
  repeat (split; [solve [reflexivity|constructor]|]).
  unfold counted.
        cbn [List.length law_relationships_count article_references_count].
        lia.
Qed.

Lemma effect_trans (P : relationship_row -> Prop) (Q : reference_row -> Prop)
    (a b c : Store) (na nb nc : LinkStats) :
  linker_effect P Q a na b nb -> linker_effect P Q b nb c nc ->
  linker_effect P Q a na c nc.
Proof.
  intros [L1 [K1 [r1 [x1 [R1 [F1 [X1 [G1 C1]]]]]]]]
         [L2 [K2 [r2 [x2 [R2 [F2 [X2 [G2 C2]]]]]]]].
  unfold linker_effect. split; [congruence|].
  split; [eapply Forall2_trans_on; eauto; exact article_later_trans|].
  exists (r1 ++ r2), (x1 ++ x2).
  rewrite R2, R1, X2, X1, !app_assoc.
  split; [reflexivity|]. split; [now apply Forall_app|].
  split; [reflexivity|]. split; [now apply Forall_app|].
  unfold counted in *. rewrite !List.length_app, !Nat2Z.inj_add. lia.
Qed.

(** A step that only reads: the tables are the same and the plan has
    gone on. *)
Lemma effect_same_tables (P : relationship_row -> Prop)
    (Q : reference_row -> Prop) (st st' : Store) (n : LinkStats) :
  same_tables st st' -> lost_replies st' <= lost_replies st ->
  linker_effect P Q st n st' n.
Proof.
  intros [L [A [R X]]] Hl. unfold linker_effect.
  split; [congruence|].
  split; [rewrite <- A; apply Forall2_refl_on, article_later_refl|].
  exists [], []. rewrite !app_nil_r.
  split; [congruence|]. split; [constructor|].
  split; [congruence|]. split; [constructor|].
  unfold counted.
        cbn [List.length law_relationships_count article_references_count].
        lia.
Qed.

Lemma effect_impl (P P' : relationship_row -> Prop)
    (Q Q' : reference_row -> Prop) (st st' : Store) (n n' : LinkStats) :
  (forall r, P r -> P' r) -> (forall r, Q r -> Q' r) ->
  linker_effect P Q st n st' n' -> linker_effect P' Q' st n st' n'.
Proof.
  intros HP HQ [L [K [r [x [R [F [X [G C]]]]]]]].
  unfold linker_effect. split; [exact L|]. split; [exact K|].
  exists r, x. split; [exact R|].
  split; [eapply Forall_impl; [exact HP|exact F]|]. split; [exact X|].
  split; [eapply Forall_impl; [exact HQ|exact G]|exact C].
Qed.

(** An insert of a law-to-law link touches no other table. It answers
    with its row added; or it raises with the table as it was; or it
    raises with its row added, the reply being lost. *)
Lemma insert_relationship_cases (row : relationship_row) (st : Store) :
  let r := Db.insert_relationship row st in
  laws (snd r) = laws st
  /\ law_articles (snd r) = law_articles st
  /\ law_article_references (snd r) = law_article_references st
  /\ ((fst r = Ok tt
       /\ law_relationships (snd r) = law_relationships st ++ [row]
       /\ lost_replies (snd r) <= lost_replies st)
      \/ ((exists e, fst r = Raise e)
          /\ law_relationships (snd r) = law_relationships st
          /\ lost_replies (snd r) <= lost_replies st)
      \/ ((exists e, fst r = Raise e)
          /\ law_relationships (snd r) = law_relationships st ++ [row]
          /\ lost_replies (snd r) + 1 <= lost_replies st)).
Proof.
  cbv zeta. unfold Db.insert_relationship, Db.call, lost_replies.
  destruct (faults st) as [|[| |] rest] eqn:Hf; simpl;
    try (destruct (existsb _ _)); simpl; rewrite ?Hf; simpl;
    (repeat (split; [reflexivity|]));
    first [ left; repeat split; solve [reflexivity|lia]
          | right; left; split; [eauto|split; [reflexivity|lia]]
          | right; right; split; [eauto|split; [reflexivity|lia]] ].
Qed.

Lemma insert_reference_cases (row : reference_row) (st : Store) :
  let r := Db.insert_reference row st in
  laws (snd r) = laws st
  /\ law_articles (snd r) = law_articles st
  /\ law_relationships (snd r) = law_relationships st
  /\ ((fst r = Ok tt
       /\ law_article_references (snd r) = law_article_references st ++ [row]
       /\ lost_replies (snd r) <= lost_replies st)
      \/ ((exists e, fst r = Raise e)
          /\ law_article_references (snd r) = law_article_references st
          /\ lost_replies (snd r) <= lost_replies st)
      \/ ((exists e, fst r = Raise e)
          /\ law_article_references (snd r) = law_article_references st ++ [row]
          /\ lost_replies (snd r) + 1 <= lost_replies st)).
Proof.
  cbv zeta. unfold Db.insert_reference, Db.call, lost_replies.
  destruct (faults st) as [|[| |] rest] eqn:Hf; simpl;
    try (destruct (existsb _ _)); simpl; rewrite ?Hf; simpl;
    (repeat (split; [reflexivity|]));
    first [ left; repeat split; solve [reflexivity|lia]
          | right; left; split; [eauto|split; [reflexivity|lia]]
          | right; right; split; [eauto|split; [reflexivity|lia]] ].
Qed.

(** A status update changes no key, makes no row ACTIVE and changes no
    other table, whether it is applied or not. *)
Lemma articles_update_frame (id status valid_to : string) (st : Store) :
  status <> "ACTIVE" ->
  let st' := snd (Db.articles_update id status valid_to st) in
  laws st' = laws st
  /\ Forall2 article_later (law_articles st) (law_articles st')
  /\ law_relationships st' = law_relationships st
  /\ law_article_references st' = law_article_references st
  /\ lost_replies st' <= lost_replies st.
Proof.
  intros Hs. unfold Db.articles_update, Db.call, lost_replies.
  assert (K : Forall2 article_later (law_articles st)
                (map (Db.update_article id status valid_to) (law_articles st)))
    by (apply Forall2_map_right; intros a; now apply article_later_update).
  assert (K0 : Forall2 article_later (law_articles st) (law_articles st))
    by apply Forall2_refl_on, article_later_refl.
  destruct (faults st) as [|[| |] rest] eqn:Hf; simpl; rewrite ?Hf; simpl;
    repeat (split; [solve [reflexivity|assumption]|]); lia.
Qed.

Lemma update_status_frame (fromisoformat_other : string -> result PyDate.date)
    (id rel d : string) (w : World) :
  let st' := store (_update_target_article_status_v50 fromisoformat_other
      id rel d w) in
  laws st' = laws (store w)
  /\ Forall2 article_later (law_articles (store w)) (law_articles st')
  /\ law_relationships st' = law_relationships (store w)
  /\ law_article_references st' = law_article_references (store w)
  /\ lost_replies st' <= lost_replies (store w).
Proof.
  assert (K0 : Forall2 article_later (law_articles (store w))
                       (law_articles (store w)))
    by apply Forall2_refl_on, article_later_refl.
  unfold _update_target_article_status_v50.
  destruct (new_status_of rel) as [ns|] eqn:Hns;
    [|simpl; repeat (split; [solve [reflexivity|assumption]|]); lia].
  destruct (valid_to_of fromisoformat_other d) as [vt|e];
    [|simpl; repeat (split; [solve [reflexivity|assumption]|]); lia].
  pose proof (articles_update_frame id ns vt (store w)
                (new_status_not_active _ _ Hns)) as H.
  destruct (Db.articles_update id ns vt (store w)) as [[u|e] st]; exact H.
Qed.

Section LinkerEffect.

Variable str_upper : string -> string.
Variable ilike : string -> string -> bool.
Variable fromisoformat_other : string -> result PyDate.date.
Variables source_article source_law : string.
Variable source_enactment_date : option string.

Lemma link_law_effect (ref : CrossReference) (tgt : string)
    (td : option string) (w : World) (n : LinkStats) :
  let r := link_law str_upper source_law source_enactment_date
                    (relationship_of ref) tgt td (w, n) in
  linker_effect (link_of str_upper source_law [ref])
                (reference_of str_upper source_article [ref])
                (store w) n (store (fst r)) (snd r).
Proof.
  cbv zeta. unfold link_law.
  set (row := mkRelationship source_law tgt
                             (str_upper (relationship_of ref))).
  assert (Hrow : Forall (link_of str_upper source_law [ref]) [row]).
  { constructor; [|constructor]. split; [reflexivity|].
    exists ref. split; [now left|reflexivity]. }
  pose proof (insert_relationship_cases row
                (store (temporal_check source_law source_enactment_date
                                       (relationship_of ref) tgt td w)))
    as H.
  cbv zeta in H. rewrite temporal_check_store in H.
  rewrite temporal_check_store.
  destruct H as [L [A [X H]]].
  unfold linker_effect.
  destruct (Db.insert_relationship row (store w)) as [[u|e] st];
    cbn [fst snd store logger with_store] in *;
    (split; [exact L|]);
    (split; [rewrite A; apply Forall2_refl_on, article_later_refl|]).
  - destruct H as [[_ [R Hl]]|[[[e He] _]|[[e He] _]]];
      try discriminate He.
    exists [row], []. rewrite app_nil_r.
    split; [exact R|]. split; [exact Hrow|]. split; [exact X|].
    split; [constructor|]. unfold counted.
      cbn [List.length law_relationships_count article_references_count].
      lia.
  - destruct H as [[He _]|[[_ [R Hl]]|[_ [R Hl]]]]; [discriminate He| |].
    + exists [], []. rewrite !app_nil_r.
      split; [exact R|]. split; [constructor|]. split; [exact X|].
      split; [constructor|]. unfold counted.
      cbn [List.length law_relationships_count article_references_count].
      lia.
    + exists [row], []. rewrite app_nil_r.
      split; [exact R|]. split; [exact Hrow|]. split; [exact X|].
      split; [constructor|]. unfold counted.
      cbn [List.length law_relationships_count article_references_count].
      lia.
Qed.

Lemma link_article_effect (ref : CrossReference) (id : string)
    (w : World) (n : LinkStats) :
  let r := link_article str_upper fromisoformat_other
                        source_article source_enactment_date
                        (relationship_of ref) id (w, n) in
  linker_effect (link_of str_upper source_law [ref])
                (reference_of str_upper source_article [ref])
                (store w) n (store (fst r)) (snd r).
Proof.
  cbv zeta. unfold link_article.
  set (row := mkReference source_article id
                          (str_upper (relationship_of ref))).
  assert (Hrow : Forall (reference_of str_upper source_article [ref]) [row]).
  { constructor; [|constructor]. split; [reflexivity|].
    exists ref. split; [now left|reflexivity]. }
  pose proof (insert_reference_cases row (store w)) as H.
  cbv zeta in H. destruct H as [L [A [R H]]].
  destruct (Db.insert_reference row (store w)) as [[u|e] st];
    cbn [fst snd] in *.
  - destruct H as [[_ [X Hl]]|[[[e He] _]|[[e He] _]]];
      try discriminate He.
    set (w1 := logger DEBUG _ (with_store st w)).
    set (n1 := mkStats _ _).
    assert (H1 : linker_effect (link_of str_upper source_law [ref])
                               (reference_of str_upper source_article [ref])
                               (store w) n (store w1) n1).
    { unfold linker_effect. subst w1 n1.
      cbn [store logger with_store].
      split; [exact L|].
      split; [rewrite A; apply Forall2_refl_on, article_later_refl|].
      exists [], [row]. rewrite app_nil_r.
      split; [exact R|]. split; [constructor|]. split; [exact X|].
      split; [exact Hrow|]. unfold counted.
      cbn [List.length law_relationships_count article_references_count].
      lia. }
    assert (H2 : forall d,
               linker_effect (link_of str_upper source_law [ref])
                             (reference_of str_upper source_article [ref])
                             (store w) n
                             (store (_update_target_article_status_v50
                                       fromisoformat_other
                                       id (relationship_of ref) d w1)) n1).
    { intros d. eapply effect_trans; [exact H1|].
      destruct (update_status_frame fromisoformat_other id
                                   (relationship_of ref) d w1)
        as [L2 [K2 [R2 [X2 Hl2]]]].
      unfold linker_effect. split; [exact L2|]. split; [exact K2|].
      exists [], []. rewrite !app_nil_r.
      split; [exact R2|]. split; [constructor|]. split; [exact X2|].
      split; [constructor|]. unfold counted.
      cbn [List.length law_relationships_count article_references_count].
      lia. }
    destruct source_enactment_date as [d|]; [|exact H1].
    destruct (is_amends_or_revokes (relationship_of ref) && PyStr.truthy d);
      [apply H2|exact H1].
  - unfold linker_effect. cbn [store logger with_store].
    split; [exact L|].
    split; [rewrite A; apply Forall2_refl_on, article_later_refl|].
    destruct H as [[He _]|[[_ [X Hl]]|[_ [X Hl]]]]; [discriminate He| |].
    + exists [], []. rewrite !app_nil_r.
      split; [exact R|]. split; [constructor|]. split; [exact X|].
      split; [constructor|]. unfold counted.
      cbn [List.length law_relationships_count article_references_count].
      lia.
    + exists [], [row]. rewrite app_nil_r.
      split; [exact R|]. split; [constructor|]. split; [exact X|].
      split; [exact Hrow|]. unfold counted.
      cbn [List.length law_relationships_count article_references_count].
      lia.
Qed.

(** One reference. *)
Lemma link_reference_effect (ref : CrossReference) (w : World)
    (n : LinkStats) :
  let r := link_reference str_upper ilike fromisoformat_other
                          source_article source_law
                          source_enactment_date (w, n) ref in
  linker_effect (link_of str_upper source_law [ref])
                (reference_of str_upper source_article [ref])
                (store w) n (store (fst r)) (snd r).
Proof.
  cbv zeta. unfold link_reference.
  destruct (is_internal ref); [apply effect_refl|]. cbn [fst snd].
  pose proof (find_target_law_same_tables ilike (url ref) (number ref) w)
    as Hf.
  pose proof (find_target_law_lost ilike (url ref) (number ref) w) as Hfl.
  destruct (_find_target_law_v50 ilike (url ref) (number ref) w)
    as [[target|] w1]; cbn [fst snd] in *;
    [|now apply effect_same_tables].
  pose proof (link_law_effect ref (law_id target)
                              (law_enactment_date target) w1 n) as Hl.
  cbv zeta in Hl.
  assert (H2 : linker_effect
                 (link_of str_upper source_law [ref])
                 (reference_of str_upper source_article [ref])
                 (store w) n
                 (store (fst (link_law str_upper source_law
                                       source_enactment_date
                                       (relationship_of ref) (law_id target)
                                       (law_enactment_date target) (w1, n))))
                 (snd (link_law str_upper source_law source_enactment_date
                                (relationship_of ref) (law_id target)
                                (law_enactment_date target) (w1, n)))).
  { eapply effect_trans; [apply effect_same_tables; [exact Hf|exact Hfl]|exact Hl]. }
  destruct (link_law _ _ _ _ _ _ _) as [w2 n2]. cbn [fst snd] in *.
  destruct (article_number ref) as [art|]; [|exact H2].
  destruct (PyStr.truthy art); [|exact H2].
  pose proof (find_target_article_same_tables (law_id target) art w2) as Ha.
  pose proof (find_target_article_lost (law_id target) art w2) as Hal.
  destruct (_find_target_article_v50 (law_id target) art w2)
    as [[id|] w3]; cbn [fst snd] in *.
  - assert (H3 : linker_effect
                   (link_of str_upper source_law [ref])
                   (reference_of str_upper source_article [ref])
                   (store w) n (store w3) n2)
      by (eapply effect_trans;
          [exact H2|apply effect_same_tables; [exact Ha|exact Hal]]).
    destruct (PyStr.truthy id); [|exact H3].
    eapply effect_trans; [exact H3|apply link_article_effect].
  - eapply effect_trans;
      [exact H2|apply effect_same_tables; [exact Ha|exact Hal]].
Qed.

(** A run over a list of references. *)
Lemma run_effect (refs : list CrossReference) :
  forall (w : World) (n : LinkStats),
    let r := fold_left (link_reference str_upper ilike fromisoformat_other
                                       source_article
                                       source_law source_enactment_date)
                       refs (w, n) in
    linker_effect (link_of str_upper source_law refs)
                  (reference_of str_upper source_article refs)
                  (store w) n (store (fst r)) (snd r).
Proof.
  induction refs as [|ref refs IH]; intros w n; cbv zeta; cbn [fold_left].
  - apply effect_refl.
  - pose proof (link_reference_effect ref w n) as H1. cbv zeta in H1.
    destruct (link_reference _ _ _ _ _ _ (w, n) ref) as [w1 n1].
    cbn [fst snd] in H1.
    eapply effect_trans.
    + eapply effect_impl; [| |exact H1].
      * intros r [Hs [x [[Hx0|[]] Hx]]]. split; [exact Hs|].
        exists x. split; [now left|exact Hx].
      * intros r [Hs [x [[Hx0|[]] Hx]]]. split; [exact Hs|].
        exists x. split; [now left|exact Hx].
    + eapply effect_impl; [| |apply IH].
      * intros r [Hs [x [Hin Hx]]]. split; [exact Hs|].
        exists x. split; [now right|exact Hx].
      * intros r [Hs [x [Hin Hx]]]. split; [exact Hs|].
        exists x. split; [now right|exact Hx].
Qed.

Lemma lost_replies_nonneg (st : Store) : 0 <= lost_replies st.
Proof. unfold lost_replies. lia. Qed.

(** X19. The counters that [_process_and_link_references] returns
    count the inserts that returned. Each of the two link tables is the
    table before the call followed by the rows added, and each counter
    is at most the number of rows added to its table. A row that no
    counter counts was added by an insert that the store applied and
    whose reply was lost: the rows not counted are at most as many as
    the lost replies of the plan. When the plan has no lost reply, each
    counter is the number of rows added to its table, whichever store
    calls are refused. *)
Theorem link_counts_miss_only_lost_replies
    (refs : list CrossReference) (w : World) :
  let r := _process_and_link_references str_upper ilike fromisoformat_other
                                        source_article
             source_law source_enactment_date refs w in
  exists links references,
    law_relationships (store (fst r)) = law_relationships (store w) ++ links
    /\ law_article_references (store (fst r))
       = law_article_references (store w) ++ references
    /\ 0 <= law_relationships_count (snd r) <= Z.of_nat (List.length links)
    /\ 0 <= article_references_count (snd r)
       <= Z.of_nat (List.length references)
    /\ (Z.of_nat (List.length links) - law_relationships_count (snd r))
       + (Z.of_nat (List.length references)
          - article_references_count (snd r))
       <= lost_replies (store w)
    /\ (lost_replies (store w) = 0 ->
        law_relationships_count (snd r) = Z.of_nat (List.length links)
        /\ article_references_count (snd r)
           = Z.of_nat (List.length references)).
Proof.
  cbv zeta. unfold _process_and_link_references.
  destruct (run_effect refs w (mkStats 0 0))
    as [_ [_ [r [x [R [_ [X [_ C]]]]]]]].
  pose proof (lost_replies_nonneg
                (store (fst (fold_left
                               (link_reference str_upper ilike
                                               fromisoformat_other
                                               source_article
                                  source_law source_enactment_date)
                               refs (w, mkStats 0 0))))) as H0.
  exists r, x. unfold counted in C. simpl in C.
  split; [exact R|]. split; [exact X|]. repeat split; lia.
Qed.

(** X20. [_process_and_link_references] writes links of its source
    only and rewrites nothing else. Whatever the store holds and
    whichever calls fail: the laws are left as they are; no article is
    added, removed or given another id, law or ordinal, no article
    becomes ACTIVE and an article that is ACTIVE afterwards is as it
    was; no link is removed or changed; every law-to-law link added
    starts at the source law, every article-to-article link added
    starts at the source article, and the kind of each is the
    upper-case form of the kind of one of the references. *)
Theorem linker_writes_only_links_of_its_source
    (refs : list CrossReference) (w : World) :
  let st := store w in
  let st' := store (fst (_process_and_link_references
                           str_upper ilike fromisoformat_other
                           source_article source_law
                           source_enactment_date refs w)) in
  laws st' = laws st
  /\ Forall2 article_later (law_articles st) (law_articles st')
  /\ (exists added,
         law_relationships st' = law_relationships st ++ added
         /\ Forall (link_of str_upper source_law refs) added)
  /\ (exists added,
         law_article_references st' = law_article_references st ++ added
         /\ Forall (reference_of str_upper source_article refs) added).
Proof.
  cbv zeta. unfold _process_and_link_references.
  destruct (run_effect refs w (mkStats 0 0))
    as [L [K [r [x [R [F [X [G _]]]]]]]].
  split; [exact L|]. split; [exact K|]. split; eauto.
Qed.

(** One reference of the preamble pass. *)
Lemma preamble_reference_effect (ref : CrossReference) (w : World) (n : Z) :
  let r := link_preamble_reference str_upper ilike source_law
                                   source_enactment_date (w, n) ref in
  laws (store (fst r)) = laws (store w)
  /\ law_articles (store (fst r)) = law_articles (store w)
  /\ law_article_references (store (fst r))
     = law_article_references (store w)
  /\ exists added,
       law_relationships (store (fst r))
       = law_relationships (store w) ++ added
       /\ Forall (link_of str_upper source_law [ref]) added
       /\ n <= snd r <= n + Z.of_nat (List.length added)
       /\ n + Z.of_nat (List.length added) - snd r
          <= lost_replies (store w) - lost_replies (store (fst r)).
Proof.
  cbv zeta. unfold link_preamble_reference.
  assert (Same : forall w', same_tables (store w) (store w') ->
            lost_replies (store w') <= lost_replies (store w) ->
            laws (store w') = laws (store w)
            /\ law_articles (store w') = law_articles (store w)
            /\ law_article_references (store w')
               = law_article_references (store w)
            /\ exists added,
                 law_relationships (store w')
                 = law_relationships (store w) ++ added
                 /\ Forall (link_of str_upper source_law [ref]) added
                 /\ n <= n <= n + Z.of_nat (List.length added)
                 /\ n + Z.of_nat (List.length added) - n
                    <= lost_replies (store w) - lost_replies (store w')).
  { intros w' [L [A [R X]]] Hl. repeat split; try congruence.
    exists []. rewrite app_nil_r. split; [congruence|].
    split; [constructor|cbn [List.length]; lia]. }
  destruct (is_internal ref);
    [apply Same; [apply same_tables_refl|apply Z.le_refl]|].
  cbn [fst snd].
  pose proof (find_target_law_same_tables ilike (url ref) (number ref) w)
    as Hf.
  pose proof (find_target_law_lost ilike (url ref) (number ref) w) as Hfl.
  destruct (_find_target_law_v50 ilike (url ref) (number ref) w)
    as [[target|] w1]; cbn [fst snd] in *; [|now apply Same].
  unfold link_law_preamble.
  set (row := mkRelationship source_law (law_id target)
                             (str_upper (relationship_of ref))).
  assert (Hrow : Forall (link_of str_upper source_law [ref]) [row]).
  { constructor; [|constructor]. split; [reflexivity|].
    exists ref. split; [now left|reflexivity]. }
  pose proof (insert_relationship_cases row
                (store (temporal_check source_law source_enactment_date
                                       (relationship_of ref) (law_id target)
                                       (law_enactment_date target) w1)))
    as H.
  cbv zeta in H. rewrite temporal_check_store in H.
  rewrite temporal_check_store.
  destruct Hf as [L0 [A0 [R0 X0]]]. destruct H as [L [A [X H]]].
  destruct (Db.insert_relationship row (store w1)) as [[u|e] st];
    cbn [fst snd store logger with_store] in *;
    (split; [congruence|]); (split; [congruence|]);
    (split; [congruence|]).
  - destruct H as [[_ [R Hl]]|[[[e He] _]|[[e He] _]]];
      try discriminate He.
    exists [row]. split; [rewrite R, <- R0; reflexivity|].
    split; [exact Hrow|cbn [List.length]; lia].
  - destruct H as [[He _]|[[_ [R Hl]]|[_ [R Hl]]]]; [discriminate He| |].
    + exists []. rewrite app_nil_r. split; [congruence|].
      split; [constructor|cbn [List.length]; lia].
    + exists [row]. split; [rewrite R, <- R0; reflexivity|].
      split; [exact Hrow|cbn [List.length]; lia].
Qed.

(** A run of the preamble pass. *)
Lemma preamble_run_effect (refs : list CrossReference) :
  forall (w : World) (n : Z),
    let r := fold_left (link_preamble_reference
                          str_upper ilike source_law source_enactment_date)
                       refs (w, n) in
    laws (store (fst r)) = laws (store w)
    /\ law_articles (store (fst r)) = law_articles (store w)
    /\ law_article_references (store (fst r))
       = law_article_references (store w)
    /\ exists added,
         law_relationships (store (fst r))
         = law_relationships (store w) ++ added
         /\ Forall (link_of str_upper source_law refs) added
         /\ n <= snd r <= n + Z.of_nat (List.length added)
         /\ n + Z.of_nat (List.length added) - snd r
            <= lost_replies (store w) - lost_replies (store (fst r)).
Proof.
  induction refs as [|ref refs IH]; intros w n; cbv zeta; cbn [fold_left].
  - repeat split. exists []. rewrite app_nil_r. split; [reflexivity|].
    split; [constructor|cbn [fst snd List.length]; lia].
  - pose proof (preamble_reference_effect ref w n) as H1. cbv zeta in H1.
    destruct (link_preamble_reference _ _ _ _ (w, n) ref) as [w1 n1].
    cbn [fst snd] in H1.
    destruct H1 as [L1 [A1 [X1 [r1 [R1 [F1 C1]]]]]].
    destruct (IH w1 n1) as [L2 [A2 [X2 [r2 [R2 [F2 C2]]]]]].
    repeat split; try congruence.
    exists (r1 ++ r2).
    rewrite R2, R1, app_assoc, List.length_app, Nat2Z.inj_add.
    split; [reflexivity|]. split; [|lia].
    apply Forall_app. split.
    + eapply Forall_impl; [|exact F1].
      intros r [Hs [x [[Hx0|[]] Hx]]]. split; [exact Hs|].
      exists x. split; [now left|exact Hx].
    + eapply Forall_impl; [|exact F2].
      intros r [Hs [x [Hin Hx]]]. split; [exact Hs|].
      exists x. split; [now right|exact Hx].
Qed.

(** X21. [_process_preamble_references] touches the law-to-law links
    only. Whatever the store holds and whichever calls fail, it leaves
    the laws, the articles and the article-to-article links as they
    are; it adds law-to-law links at the end of their table, each from
    the source law and of the upper-case kind of one of the
    references. The count it returns is the number of inserts that
    returned: it is at most the number of rows added, the rows not
    counted being at most as many as the lost replies of the plan, and
    it is the number of rows added when the plan has no lost reply. *)
Theorem preamble_pass_adds_law_links_only
    (refs : list CrossReference) (w : World) :
  let r := _process_preamble_references str_upper ilike source_law
             source_enactment_date refs w in
  laws (store (fst r)) = laws (store w)
  /\ law_articles (store (fst r)) = law_articles (store w)
  /\ law_article_references (store (fst r))
     = law_article_references (store w)
  /\ exists added,
       law_relationships (store (fst r))
       = law_relationships (store w) ++ added
       /\ Forall (link_of str_upper source_law refs) added
       /\ 0 <= snd r <= Z.of_nat (List.length added)
       /\ Z.of_nat (List.length added) - snd r <= lost_replies (store w)
       /\ (lost_replies (store w) = 0 ->
           snd r = Z.of_nat (List.length added)).
Proof.
  cbv zeta. unfold _process_preamble_references.
  destruct (preamble_run_effect refs w 0) as [L [A [X [r [R [F C]]]]]].
  pose proof (lost_replies_nonneg
                (store (fst (fold_left
                               (link_preamble_reference str_upper ilike
                                  source_law source_enactment_date)
                               refs (w, 0))))) as H0.
  repeat (split; [assumption|]).
  exists r. split; [exact R|]. split; [exact F|]. repeat split; lia.
Qed.

End LinkerEffect.

(** A reply lost on the insert of a link: the row is in the table and
    the counter has not counted it. Here the lookup of the number is
    delivered and the reply to the insert is lost. *)
Example lost_reply_leaves_a_row_uncounted :
  let w := mkWorld (Db.set_faults [Delivered; ReplyLost] Ex.st0) [] in
  let r := _process_and_link_references PyStr.ascii_upper Like.ilike
             PyDate.no_other_format
             Ex.source_article Ex.source_law (Some "2024-01-01")
             [Ex.ref_amends] w in
  law_relationships (store (fst r))
  = [mkRelationship Ex.source_law "law-41-2023" "AMENDS"]
  /\ snd r = mkStats 0 0
  /\ lost_replies (store w) = 1.
Proof. cbv zeta. repeat split. Qed.

(* ================================================================== *)
(** * The linker of V6.0 beside the linker of V5.0 *)

Lemma v6_find_by_number_no_faults (number : option string) (st : Store) :
  faults st = [] ->
  V6Linker.find_by_number number st
  = (Ok (match number with
         | Some n => if PyStr.truthy n
                     then hd_error (Db.number_matches n (laws st)) else None
         | None => None
         end), st).
Proof.
  intros Hf. unfold V6Linker.find_by_number.
  destruct number as [n|]; [|reflexivity].
  destruct (PyStr.truthy n); [|reflexivity].
  unfold Db.laws_eq_official_number. rewrite (call_no_faults _ _ Hf).
  now destruct (Db.number_matches n (laws st)).
Qed.

Lemma v6_find_target_law_no_faults (url number : option string)
    (s : V6Linker.State) :
  faults (V6Linker.db s) = [] ->
  V6Linker._find_target_law url number s
  = (V6Linker.resolve (laws (V6Linker.db s)) url number, s).
Proof.
  intros Hf.
  assert (Hs : V6Linker.with_db (V6Linker.db s) s = s) by now destruct s.
  unfold V6Linker._find_target_law, V6Linker.find_target_law_try,
    V6Linker.resolve, resolve_by_url.
  destruct url as [u|];
    [|now rewrite (v6_find_by_number_no_faults _ _ Hf), Hs].
  destruct (PyStr.truthy u) eqn:Hu.
  - destruct (Re.url_slug u) as [slug|];
      [|now rewrite (v6_find_by_number_no_faults _ _ Hf), Hs].
    unfold Db.laws_eq_slug. rewrite (call_no_faults _ _ Hf).
    destruct (Db.slug_matches slug (laws (V6Linker.db s))) as [|l ls];
      cbn [hd_error];
      [now rewrite (v6_find_by_number_no_faults _ _ Hf), Hs|now rewrite Hs].
  - destruct u; [|discriminate]. cbn [Re.url_slug Re.after_last_slash].
    now rewrite (v6_find_by_number_no_faults _ _ Hf), Hs.
Qed.

Lemma v6_find_target_article_no_faults (l art : string) (s : V6Linker.State) :
  faults (V6Linker.db s) = [] ->
  V6Linker._find_target_article l art s
  = (resolve_article (law_articles (V6Linker.db s)) l art, s).
Proof.
  intros Hf.
  assert (Hs : V6Linker.with_db (V6Linker.db s) s = s) by now destruct s.
  unfold V6Linker._find_target_article, resolve_article.
  destruct (Re.search_digits art) as [digits|]; [|reflexivity].
  unfold Db.articles_eq. rewrite (call_no_faults _ _ Hf).
  destruct (Db.article_matches _ _ _ _); simpl; now rewrite Hs.
Qed.

Lemma v6_update_status_agrees
    (fromisoformat_other : string -> result PyDate.date)
    (id rel d : string) (w : World) (s : V6Linker.State) :
  faults (store w) = [] -> V6Linker.db s = store w ->
  V6Linker.db (V6Linker._update_target_article_status fromisoformat_other
      id rel d s)
  = store (_update_target_article_status_v50 fromisoformat_other id rel d w)
  /\ faults (store (_update_target_article_status_v50 fromisoformat_other
      id rel d w)) = [].
Proof.
  intros Hf Hdb.
  unfold V6Linker._update_target_article_status,
    _update_target_article_status_v50.
  destruct (new_status_of rel) as [ns|]; [|auto].
  destruct (valid_to_of fromisoformat_other d) as [vt|e]; [|simpl; auto].
  unfold Db.articles_update. rewrite Hdb, (call_no_faults _ _ Hf). simpl. auto.
Qed.

Section V6AndV50.

Variable str_upper : string -> string.
Variable ilike : string -> string -> bool.
Variable fromisoformat_other : string -> result PyDate.date.
Variables source_article source_law : string.
Variable source_enactment_date : option string.

Lemma v6_link_law_agrees (rel tgt : string) (td : option string)
    (w : World) (s : V6Linker.State) (n : LinkStats) :
  faults (store w) = [] -> V6Linker.db s = store w ->
  let a := link_law str_upper source_law source_enactment_date rel tgt td
                    (w, n) in
  let b := V6Linker.link_law str_upper source_law rel tgt (s, n) in
  V6Linker.db (fst b) = store (fst a) /\ snd b = snd a
  /\ faults (store (fst a)) = []
  /\ laws (store (fst a)) = laws (store w).
Proof.
  intros Hf Hdb. cbv zeta.
  unfold link_law, V6Linker.link_law, Db.insert_relationship.
  rewrite Hdb, temporal_check_store, (call_no_faults _ _ Hf).
  destruct (existsb _ (law_relationships (store w))); simpl; auto.
Qed.

Lemma v6_link_article_agrees (rel id : string)
    (w : World) (s : V6Linker.State) (n : LinkStats) :
  faults (store w) = [] -> V6Linker.db s = store w ->
  let a := link_article str_upper fromisoformat_other
                        source_article source_enactment_date
                        rel id (w, n) in
  let b := V6Linker.link_article str_upper fromisoformat_other source_article
                                 source_enactment_date rel id (s, n) in
  V6Linker.db (fst b) = store (fst a) /\ snd b = snd a
  /\ faults (store (fst a)) = []
  /\ laws (store (fst a)) = laws (store w).
Proof.
  intros Hf Hdb. cbv zeta.
  unfold link_article, V6Linker.link_article, Db.insert_reference.
  rewrite Hdb, (call_no_faults _ _ Hf).
  destruct (existsb _ (law_article_references (store w))); [simpl; auto|].
  cbv zeta.
  set (w1 := logger DEBUG _ _). set (s1 := V6Linker.with_db _ s).
  assert (Hf1 : faults (store w1) = []) by exact Hf.
  assert (Hdb1 : V6Linker.db s1 = store w1) by reflexivity.
  assert (Hl1 : laws (store w1) = laws (store w)) by reflexivity.
  destruct source_enactment_date as [d|]; [|simpl; auto].
  destruct (is_amends_or_revokes rel && PyStr.truthy d); [|simpl; auto].
  destruct (v6_update_status_agrees fromisoformat_other id rel d w1 s1
                                     Hf1 Hdb1) as [H1 H2].
  cbn [fst snd]. repeat split; try assumption.
  destruct (update_status_frame fromisoformat_other
      id rel d w1) as [L _]. cbv zeta in L.
  now rewrite L.
Qed.

Lemma v6_step_agrees (ref : CrossReference) (w : World)
    (s : V6Linker.State) (n : LinkStats) :
  faults (store w) = [] -> V6Linker.db s = store w ->
  resolve_target ilike (laws (store w)) (url ref) (number ref)
  = V6Linker.resolve (laws (store w)) (url ref) (number ref) ->
  let a := link_reference str_upper ilike fromisoformat_other
                          source_article source_law
                          source_enactment_date (w, n) ref in
  let b := V6Linker.link_reference str_upper fromisoformat_other
                                   source_article source_law
                                   source_enactment_date (s, n) ref in
  V6Linker.db (fst b) = store (fst a) /\ snd b = snd a
  /\ faults (store (fst a)) = []
  /\ laws (store (fst a)) = laws (store w).
Proof.
  intros Hf Hdb Hres. cbv zeta.
  rewrite (link_reference_no_faults _ _ _ _ _ _ _ _ _ Hf).
  unfold V6Linker.link_reference.
  destruct (is_internal ref); [cbn [fst snd]; auto|]. cbn [fst snd].
  rewrite v6_find_target_law_no_faults by (rewrite Hdb; exact Hf).
  rewrite Hdb, <- Hres.
  destruct (resolve_target ilike (laws (store w)) (url ref) (number ref))
    as [target|]; [|cbn [fst snd]; auto].
  cbv zeta.
  destruct (v6_link_law_agrees (relationship_of ref) (law_id target)
              (law_enactment_date target) w s n Hf Hdb)
    as [D2 [N2 [F2 L2]]].
  destruct (link_law _ _ _ _ _ _ _) as [w2 n2].
  destruct (V6Linker.link_law _ _ _ _ _) as [s2 m2].
  cbn [fst snd] in *. subst m2.
  destruct (article_number ref) as [art|]; [|cbn [fst snd]; auto].
  destruct (PyStr.truthy art); [|cbn [fst snd]; auto].
  rewrite v6_find_target_article_no_faults by (rewrite D2; exact F2).
  rewrite D2.
  destruct (resolve_article (law_articles (store w2)) (law_id target) art)
    as [id|]; [|cbn [fst snd]; auto].
  destruct (PyStr.truthy id); [|cbn [fst snd]; auto].
  destruct (v6_link_article_agrees (relationship_of ref) id w2 s2 n2 F2 D2)
    as [D3 [N3 [F3 L3]]].
  repeat split; try assumption. congruence.
Qed.

Lemma v6_run_agrees (refs : list CrossReference) :
  forall (w : World) (s : V6Linker.State) (n : LinkStats),
    faults (store w) = [] -> V6Linker.db s = store w ->
    (forall ref, In ref refs ->
       resolve_target ilike (laws (store w)) (url ref) (number ref)
       = V6Linker.resolve (laws (store w)) (url ref) (number ref)) ->
    let a := fold_left (link_reference str_upper ilike fromisoformat_other
                                       source_article
                                       source_law source_enactment_date)
                       refs (w, n) in
    let b := fold_left (V6Linker.link_reference
                          str_upper fromisoformat_other
                          source_article source_law
                          source_enactment_date) refs (s, n) in
    V6Linker.db (fst b) = store (fst a) /\ snd b = snd a.
Proof.
  induction refs as [|ref refs IH]; intros w s n Hf Hdb Hres; cbv zeta;
    cbn [fold_left]; [cbn [fst snd]; auto|].
  destruct (v6_step_agrees ref w s n Hf Hdb (Hres ref (or_introl eq_refl)))
    as [D1 [N1 [F1 L1]]].
  destruct (link_reference _ _ _ _ _ _ (w, n) ref) as [w1 n1].
  destruct (V6Linker.link_reference _ _ _ _ _ (s, n) ref) as [s1 m1].
  cbn [fst snd] in *. subst m1.
  apply IH; [exact F1|exact D1|].
  intros r Hr. rewrite L1. apply Hres. now right.
Qed.

(** X22. On a store that answers, the linker of V6.0 records what the
    linker of V5.0 records, as long as no reference needs the partial
    match of the number, which V6.0 does not have: when each reference
    resolves to the same law with and without it, the two linkers leave
    the same store and return the same counters. *)
Theorem v6_linker_records_what_v50_records
    (refs : list CrossReference) (w : World) (s : V6Linker.State) :
  faults (store w) = [] -> V6Linker.db s = store w ->
  (forall ref, In ref refs ->
     resolve_target ilike (laws (store w)) (url ref) (number ref)
     = V6Linker.resolve (laws (store w)) (url ref) (number ref)) ->
  let a := _process_and_link_references str_upper ilike fromisoformat_other
                                        source_article
             source_law source_enactment_date refs w in
  let b := V6Linker._process_and_link_references str_upper fromisoformat_other
                                                 source_article
             source_law source_enactment_date refs s in
  V6Linker.db (fst b) = store (fst a) /\ snd b = snd a.
Proof.
  intros Hf Hdb Hres.
  apply (v6_run_agrees refs w s (mkStats 0 0) Hf Hdb Hres).
Qed.

End V6AndV50.

Lemma v6_linker_records_what_v50_records_witness :
  V6Linker.db
    (fst (V6Linker._process_and_link_references
            PyStr.ascii_upper PyDate.no_other_format
            Ex.source_article Ex.source_law
            (Some "2024-01-01") [Ex.ref_revokes; Ex.ref_url_and_number]
            (V6Linker.mkState Ex.st0 [])))
  = store (fst (_process_and_link_references
                  PyStr.ascii_upper Like.ilike PyDate.no_other_format
                  Ex.source_article
                  Ex.source_law (Some "2024-01-01")
                  [Ex.ref_revokes; Ex.ref_url_and_number] Ex.w0)).
Proof.
  apply (proj1 (v6_linker_records_what_v50_records
                  PyStr.ascii_upper Like.ilike PyDate.no_other_format
                  Ex.source_article
                  Ex.source_law (Some "2024-01-01")
                  [Ex.ref_revokes; Ex.ref_url_and_number] Ex.w0
                  (V6Linker.mkState Ex.st0 []) eq_refl eq_refl
                  ltac:(intros ref [<-|[<-|[]]]; reflexivity))).
Defined.

(** The hypothesis is needed: a number that matches only as a part is
    linked by V5.0 and skipped by V6.0. *)
Example v6_has_no_partial_match :
  let ref := mkRef (Some "cites") None (Some "41/20") None None in
  snd (_process_and_link_references PyStr.ascii_upper Like.ilike
         PyDate.no_other_format
         Ex.source_article Ex.source_law None [ref] Ex.w0) = mkStats 1 0
  /\ snd (V6Linker._process_and_link_references PyStr.ascii_upper
            PyDate.no_other_format Ex.source_article Ex.source_law None [ref]
            (V6Linker.mkState Ex.st0 [])) = mkStats 0 0.
Proof. split; reflexivity. Qed.

(* ================================================================== *)
(** * Stage 3: what processing the articles does to the store *)

Lemma grows_refl (st : Store) (n : LinkStats) : grows st n [] st n.
Proof.
  unfold grows. rewrite app_nil_r. split; [reflexivity|].
  split; [apply Forall2_refl_on, article_later_refl|].
  exists [], []. rewrite !app_nil_r. split; [reflexivity|].
  split; [reflexivity|]. unfold counted. cbn [List.length]. lia.
Qed.

Lemma grows_trans (a b c : Store) (na nb nc : LinkStats)
    (r1 r2 : list article_row) :
  grows a na r1 b nb -> grows b nb r2 c nc -> grows a na (r1 ++ r2) c nc.
Proof.
  intros [L1 [K1 [x1 [y1 [R1 [X1 C1]]]]]] [L2 [K2 [x2 [y2 [R2 [X2 C2]]]]]].
  unfold grows. split; [congruence|]. split.
  - eapply Forall2_trans_on; [exact article_later_trans| |exact K2].
    rewrite app_assoc. apply Forall2_app; [exact K1|].
    apply Forall2_refl_on, article_later_refl.
  - exists (x1 ++ x2), (y1 ++ y2). rewrite R2, R1, X2, X1, !app_assoc.
    split; [reflexivity|]. split; [reflexivity|].
    unfold counted in *. rewrite !List.length_app, !Nat2Z.inj_add. lia.
Qed.

(** A step that adds the article rows [rows] and no link. *)
Lemma grows_rows (st st' : Store) (n : LinkStats) (rows : list article_row) :
  laws st' = laws st ->
  law_articles st' = law_articles st ++ rows ->
  law_relationships st' = law_relationships st ->
  law_article_references st' = law_article_references st ->
  lost_replies st' <= lost_replies st ->
  grows st n rows st' n.
Proof.
  intros L A R X Hl. unfold grows. split; [exact L|].
  split; [rewrite A; apply Forall2_refl_on, article_later_refl|].
  exists [], []. rewrite !app_nil_r. split; [exact R|]. split; [exact X|].
  unfold counted. cbn [List.length]. lia.
Qed.

(** A run of the linker, its counters added to [n]. *)
Lemma grows_of_effect (P : relationship_row -> Prop)
    (Q : reference_row -> Prop) (st st' : Store) (n stats : LinkStats) :
  linker_effect P Q st (mkStats 0 0) st' stats ->
  grows st n [] st'
        (mkStats (law_relationships_count n + law_relationships_count stats)
                 (article_references_count n + article_references_count stats)).
Proof.
  intros [L [K [r [x [R [_ [X [_ C]]]]]]]]. unfold grows.
  rewrite app_nil_r. split; [exact L|]. split; [exact K|].
  exists r, x. split; [exact R|]. split; [exact X|].
  unfold counted in *.
  cbn [law_relationships_count article_references_count] in *. lia.
Qed.

(** The insert of an article touches no other table. It answers with
    its row added; or it raises with the table as it was; or it raises
    with its row added, the reply being lost. *)
Lemma insert_law_article_cases (row : article_row) (st : Store) :
  let r := insert_law_article row st in
  laws (snd r) = laws st
  /\ law_relationships (snd r) = law_relationships st
  /\ law_article_references (snd r) = law_article_references st
  /\ lost_replies (snd r) <= lost_replies st
  /\ ((fst r = Ok tt /\ law_articles (snd r) = law_articles st ++ [row])
      \/ ((exists e, fst r = Raise e)
          /\ law_articles (snd r) = law_articles st)
      \/ ((exists e, fst r = Raise e)
          /\ law_articles (snd r) = law_articles st ++ [row])).
Proof.
  cbv zeta. unfold insert_law_article, Db.call, lost_replies.
  destruct (faults st) as [|[| |] rest] eqn:Hf; simpl; rewrite ?Hf; simpl;
    (repeat (split; [solve [reflexivity|lia]|]));
    first [ left; split; reflexivity
          | right; left; split; [eauto|reflexivity]
          | right; right; split; [eauto|reflexivity] ].
Qed.

Section Stage3Facts.

Variable str_upper : string -> string.
Variable ilike : string -> string -> bool.
Variable fromisoformat_other : string -> result PyDate.date.
Variable uuid4 : nat -> string.
Variable law_id : string.
Variable law_enactment_date : option string.
Variable articles : list (option string).

Local Abbreviation article_step :=
  (process_article str_upper ilike fromisoformat_other
                   uuid4 law_id law_enactment_date articles).
Local Abbreviation preamble_step :=
  (process_preamble str_upper ilike law_id law_enactment_date).
Local Abbreviation rows_from := (new_rows uuid4 law_id).

Lemma article_step_raised (items : list AnalysisItem) (s : Stage3) :
  s3_raised s <> None -> fold_left article_step items s = s.
Proof.
  intros H. induction items as [|item items IH]; [reflexivity|].
  cbn [fold_left]. unfold process_article at 2.
  destruct (s3_raised s); [exact IH|congruence].
Qed.

Lemma preamble_step_raised (items : list AnalysisItem) (s : Stage3) :
  s3_raised s <> None -> fold_left preamble_step items s = s.
Proof.
  intros H. induction items as [|item items IH]; [reflexivity|].
  cbn [fold_left]. unfold process_preamble at 2.
  destruct (s3_raised s); [exact IH|congruence].
Qed.

(** One item of the first loop: an item that is not an article is
    passed over; an article item ends the call with an exception, its
    row added or not, or adds its row and runs the linker. *)
Lemma article_step_grows (s : Stage3) (item : AnalysisItem) :
  s3_raised s = None ->
  let s' := article_step s item in
  (String.eqb (item_content_type item) "article" = false /\ s' = s)
  \/ (String.eqb (item_content_type item) "article" = true
      /\ s3_raised s' <> None
      /\ (grows (store (s3_world s)) (s3_counts s) []
                (store (s3_world s')) (s3_counts s')
          \/ grows (store (s3_world s)) (s3_counts s)
                   (rows_from (s3_drawn s) [item])
                   (store (s3_world s')) (s3_counts s')))
  \/ (String.eqb (item_content_type item) "article" = true
      /\ s3_raised s' = None
      /\ s3_drawn s' = S (s3_drawn s)
      /\ grows (store (s3_world s)) (s3_counts s) (rows_from (s3_drawn s) [item])
               (store (s3_world s')) (s3_counts s')).
Proof.
  intros Hr. cbv zeta. unfold process_article. rewrite Hr.
  destruct (String.eqb (item_content_type item) "article") eqn:Hc;
    cbn [negb]; [|left; auto].
  right.
  destruct (official_text_of articles (item_article_order item)) as [t|e].
  2:{ left. split; [reflexivity|]. split; [discriminate|].
      left. apply grows_refl. }
  destruct (item_cross_references item) as [refs|].
  2:{ left. split; [reflexivity|]. split; [discriminate|].
      left. apply grows_refl. }
  set (row := mkArticle (uuid4 (s3_drawn s)) law_id
                        (item_article_order item) "ACTIVE" None).
  pose proof (insert_law_article_cases row (store (s3_world s))) as Hi.
  cbv zeta in Hi. destruct Hi as [L [R [X [Hl Hi]]]].
  destruct (insert_law_article row (store (s3_world s))) as [[u|e] st];
    cbn [fst snd] in *.
  - destruct Hi as [[_ A]|[[[e He] _]|[[e He] _]]]; try discriminate He.
    right.
    pose proof (run_effect str_upper ilike fromisoformat_other
                           (uuid4 (s3_drawn s)) law_id
                           law_enactment_date refs
                           (with_store st (s3_world s)) (mkStats 0 0)) as He.
    cbv zeta in He. unfold _process_and_link_references.
    destruct (fold_left _ refs _) as [w stats]. cbn [fst snd] in He.
    cbn [s3_raised s3_drawn s3_world s3_counts].
    split; [reflexivity|]. split; [reflexivity|]. split; [reflexivity|].
    replace (rows_from (s3_drawn s) [item]) with ([row] ++ [])
      by reflexivity.
    eapply grows_trans; [|eapply grows_of_effect; exact He].
    now apply grows_rows.
  - left. split; [reflexivity|]. split; [discriminate|].
    cbn [s3_world s3_counts store with_store].
    destruct Hi as [[He _]|[[_ A]|[_ A]]]; [discriminate He| |].
    + left. apply grows_rows; try assumption.
      rewrite app_nil_r. exact A.
    + right. now apply grows_rows.
Qed.

(** The first loop. *)
Lemma article_loop_grows (items : list AnalysisItem) :
  forall s,
    s3_raised s = None ->
    let s' := fold_left article_step items s in
    exists m,
      (m <= List.length (article_items items))%nat
      /\ grows (store (s3_world s)) (s3_counts s)
               (rows_from (s3_drawn s) (firstn m (article_items items)))
               (store (s3_world s')) (s3_counts s')
      /\ (s3_raised s' = None -> m = List.length (article_items items)).
Proof.
  induction items as [|item items IH]; intros s Hr; cbv zeta;
    cbn [fold_left].
  - exists O. split; [simpl; lia|]. split; [apply grows_refl|reflexivity].
  - unfold article_items. cbn [filter]. fold (article_items items).
    destruct (article_step_grows s item Hr)
      as [[Hc Hs]|[[Hc [Hx [Hg|Hg]]]|[Hc [Hn [Hd Hg]]]]]; cbv zeta in *;
      rewrite Hc.
    + rewrite Hs. apply IH. exact Hr.
    + rewrite (article_step_raised items _ Hx).
      exists O. split; [simpl; lia|]. split; [exact Hg|].
      intros H. contradiction.
    + rewrite (article_step_raised items _ Hx).
      exists (S O). split; [simpl; lia|]. split.
      * cbn [firstn]. exact Hg.
      * intros H. contradiction.
    + destruct (IH _ Hn) as [m [Hm [Hg2 Hall]]]. cbv zeta in *.
      exists (S m). split; [simpl; lia|]. split.
      * cbn [firstn new_rows]. rewrite Hd in Hg2.
        apply (grows_trans _ _ _ _ _ _ _ _ Hg Hg2).
      * intros H. rewrite (Hall H). reflexivity.
Qed.

(** The second loop. *)
Lemma preamble_loop_grows (items : list AnalysisItem) :
  forall s,
    let s' := fold_left preamble_step items s in
    grows (store (s3_world s)) (s3_counts s) []
          (store (s3_world s')) (s3_counts s')
    /\ law_articles (store (s3_world s')) = law_articles (store (s3_world s)).
Proof.
  induction items as [|item items IH]; intros s; cbv zeta; cbn [fold_left].
  - split; [apply grows_refl|reflexivity].
  - assert (Step : grows (store (s3_world s)) (s3_counts s) []
                         (store (s3_world (preamble_step s item)))
                         (s3_counts (preamble_step s item))
                   /\ law_articles (store (s3_world (preamble_step s item)))
                      = law_articles (store (s3_world s))).
    { unfold process_preamble.
      destruct (s3_raised s); [split; [apply grows_refl|reflexivity]|].
      destruct (String.eqb (item_content_type item) "preamble");
        [|split; [apply grows_refl|reflexivity]].
      destruct (item_cross_references item) as [[|ref refs]|];
        try (split; [apply grows_refl|reflexivity]).
      pose proof (preamble_run_effect str_upper ilike law_id
                    law_enactment_date (ref :: refs) (s3_world s) 0) as H.
      cbv zeta in H. unfold _process_preamble_references.
      destruct (fold_left _ (ref :: refs) _) as [w count].
      cbn [fst snd] in H. destruct H as [L [A [X [r [R [_ C]]]]]].
      cbn [s3_world s3_counts]. split; [|exact A].
      unfold grows. rewrite app_nil_r. split; [exact L|].
      split; [rewrite A; apply Forall2_refl_on, article_later_refl|].
      exists r, []. rewrite app_nil_r. split; [exact R|]. split; [exact X|].
      unfold counted.
      cbn [List.length law_relationships_count article_references_count].
      lia. }
    destruct Step as [G1 A1].
    destruct (IH (preamble_step s item)) as [G2 A2]. cbv zeta in *.
    split; [|congruence].
    apply (grows_trans _ _ _ _ _ _ [] [] G1 G2).
Qed.

(** The whole call. *)
Lemma stage3_grows (analysis_results : list AnalysisItem) (w : World)
    (drawn : nat) :
  let s := _process_articles_with_relationships_v50
             str_upper ilike fromisoformat_other
             uuid4 law_id law_enactment_date articles
             analysis_results w drawn in
  exists m,
    (m <= List.length (article_items analysis_results))%nat
    /\ grows (store w) (mkStats 0 0)
             (rows_from drawn (firstn m (article_items analysis_results)))
             (store (s3_world s)) (s3_counts s)
    /\ (s3_raised s = None ->
        m = List.length (article_items analysis_results)).
Proof.
  cbv zeta. unfold _process_articles_with_relationships_v50.
  set (s0 := mkStage3 w drawn (mkStats 0 0) [] None).
  destruct (article_loop_grows analysis_results s0 eq_refl)
    as [m [Hm [Hg Hall]]]. cbv zeta in *.
  set (s1 := fold_left article_step analysis_results s0) in *.
  destruct (preamble_loop_grows analysis_results s1) as [G2 _].
  cbv zeta in G2.
  exists m. split; [exact Hm|]. split.
  - rewrite <- (app_nil_r (rows_from drawn _)).
    apply (grows_trans _ _ _ _ _ _ _ _ Hg G2).
  - intros Hn. apply Hall.
    destruct (s3_raised s1) eqn:Hr1; [|reflexivity].
    rewrite preamble_step_raised in Hn by (rewrite Hr1; discriminate).
    congruence.
Qed.

(** X23. What [_process_articles_with_relationships_v50] leaves in the
    store, whether it returns or raises and whichever store calls
    fail. The laws are as before. The articles are those of before
    followed by one row for each article item processed, in the order
    of the items: the row has a fresh UUID, the law, the ordinal of the
    item, status ACTIVE and no validity end, up to the status updates
    that the linker has made since. The items processed are the first
    [m] article items, all of them when the call returns. Each link
    table has grown at its end, and each counter is at most the number
    of rows added to its table: a row that no counter counts was added
    by an insert whose reply was lost, so these rows are at most as
    many as the lost replies of the plan, and there is none when the
    plan has no lost reply. *)
Theorem stage3_adds_one_article_per_item
    (analysis_results : list AnalysisItem) (w : World) (drawn : nat) :
  let s := _process_articles_with_relationships_v50
             str_upper ilike fromisoformat_other
             uuid4 law_id law_enactment_date articles
             analysis_results w drawn in
  exists m links references,
    (m <= List.length (article_items analysis_results))%nat
    /\ (s3_raised s = None ->
        m = List.length (article_items analysis_results))
    /\ laws (store (s3_world s)) = laws (store w)
    /\ Forall2 article_later
         (law_articles (store w)
          ++ new_rows uuid4 law_id drawn
                      (firstn m (article_items analysis_results)))
         (law_articles (store (s3_world s)))
    /\ law_relationships (store (s3_world s))
       = law_relationships (store w) ++ links
    /\ law_article_references (store (s3_world s))
       = law_article_references (store w) ++ references
    /\ 0 <= law_relationships_count (s3_counts s)
       <= Z.of_nat (List.length links)
    /\ 0 <= article_references_count (s3_counts s)
       <= Z.of_nat (List.length references)
    /\ (Z.of_nat (List.length links)
        - law_relationships_count (s3_counts s))
       + (Z.of_nat (List.length references)
          - article_references_count (s3_counts s))
       <= lost_replies (store w)
    /\ (lost_replies (store w) = 0 ->
        law_relationships_count (s3_counts s)
        = Z.of_nat (List.length links)
        /\ article_references_count (s3_counts s)
           = Z.of_nat (List.length references)).
Proof.
  cbv zeta.
  destruct (stage3_grows analysis_results w drawn)
    as [m [Hm [[L [K [r [x [R [X C]]]]]] Hall]]]. cbv zeta in *.
  assert (H0 : 0 <= lost_replies
                      (store (s3_world
                                (_process_articles_with_relationships_v50
                                   str_upper ilike fromisoformat_other
                                   uuid4 law_id
                                   law_enactment_date articles
                                   analysis_results w drawn))))
    by (unfold lost_replies; lia).
  exists m, r, x. unfold counted in C.
  cbn [law_relationships_count article_references_count] in C.
  split; [exact Hm|]. split; [exact Hall|]. split; [exact L|].
  split; [exact K|]. split; [exact R|]. split; [exact X|].
  repeat split; lia.
Qed.

Lemma new_rows_in (items : list AnalysisItem) :
  forall drawn a,
    In a (rows_from drawn items) ->
    article_law_id a = law_id
    /\ exists k item,
         nth_error items k = Some item
         /\ a = mkArticle (uuid4 (drawn + k)) law_id
                          (item_article_order item) "ACTIVE" None.
Proof.
  induction items as [|item items IH]; intros drawn a; [intros []|].
  cbn [new_rows]. intros [<-|Hin].
  - split; [reflexivity|]. exists O, item. rewrite Nat.add_0_r. auto.
  - destruct (IH _ _ Hin) as [Hl [k [it [Hk Ha]]]]. split; [exact Hl|].
    exists (S k), it. split; [exact Hk|].
    now rewrite Nat.add_succ_r in *.
Qed.

Lemma firstn_nth_error {A : Type} (l : list A) :
  forall m k x, nth_error (firstn m l) k = Some x -> nth_error l k = Some x.
Proof.
  induction l as [|a l IH]; intros m k x.
  - rewrite firstn_nil. destruct k; discriminate.
  - destruct m as [|m]; [destruct k; discriminate|].
    destruct k as [|k]; [exact (fun H => H)|]. cbn. apply IH.
Qed.

(** X24. Stage 3 keeps each law with one ACTIVE article at an ordinal.
    When this holds of the store before the call, the law has no
    article yet and the ordinals of the article items are pairwise
    different, as the positions that the analyst phase numbers them by
    are, then it holds of the store that
    [_process_articles_with_relationships_v50] leaves, whether it
    returns or raises and whichever store calls fail. *)
Theorem stage3_keeps_one_active_article_per_ordinal
    (analysis_results : list AnalysisItem) (w : World) (drawn : nat) :
  articles_keyed (law_articles (store w)) ->
  (forall a, In a (law_articles (store w)) -> article_law_id a <> law_id) ->
  NoDup (map item_article_order (article_items analysis_results)) ->
  articles_keyed
    (law_articles
       (store (s3_world (_process_articles_with_relationships_v50
                           str_upper ilike fromisoformat_other
                           uuid4 law_id law_enactment_date
                           articles analysis_results w drawn)))).
Proof.
  intros Hk Hfresh Hnd.
  destruct (stage3_grows analysis_results w drawn)
    as [m [Hm [[_ [K _]] _]]]. cbv zeta in K.
  eapply keyed_evolves; [exact K|].
  intros a b Ha Hb Hsa Hsb Hl Ho.
  apply in_app_or in Ha. apply in_app_or in Hb.
  destruct Ha as [Ha|Ha], Hb as [Hb|Hb].
  - now apply Hk.
  - destruct (new_rows_in _ _ _ Hb) as [Hlb _].
    exfalso. apply (Hfresh a Ha). congruence.
  - destruct (new_rows_in _ _ _ Ha) as [Hla _].
    exfalso. apply (Hfresh b Hb). congruence.
  - destruct (new_rows_in _ _ _ Ha) as [_ [i [x [Hi Hx]]]].
    destruct (new_rows_in _ _ _ Hb) as [_ [j [y [Hj Hy]]]].
    apply firstn_nth_error in Hi, Hj. subst a b. cbn in Ho |- *.
    assert (Hij : i = j).
    { rewrite NoDup_nth_error in Hnd. apply Hnd.
      - rewrite length_map. apply nth_error_Some. congruence.
      - rewrite !nth_error_map, Hi, Hj. cbn. now rewrite Ho. }
    now subst j.
Qed.

End Stage3Facts.

(** Witness: two article items for a new law, in the store of the worked
    examples. *)
Lemma stage3_keeps_one_active_article_per_ordinal_witness :
  articles_keyed
    (law_articles
       (store (s3_world (_process_articles_with_relationships_v50
                           PyStr.ascii_upper Like.ilike PyDate.no_other_format
                           ExStage3.uuid4
                           Ex.source_law (Some "2024-01-01") ExStage3.articles
                           ExStage3.analysis_results Ex.w0 0)))).
Proof.
  apply (stage3_keeps_one_active_article_per_ordinal
           PyStr.ascii_upper Like.ilike PyDate.no_other_format
           ExStage3.uuid4 Ex.source_law
           (Some "2024-01-01") ExStage3.articles ExStage3.analysis_results
           Ex.w0 0).
  - intros a b Ha Hb _ _ Hl Ho. simpl in Ha, Hb.
    destruct Ha as [<-|[<-|[]]]; destruct Hb as [<-|[<-|[]]];
      try reflexivity; discriminate.
  - intros a Ha. simpl in Ha. destruct Ha as [<-|[<-|[]]]; discriminate.
  - simpl. repeat constructor; simpl; intuition discriminate.
Defined.

(** The call of the witness: two rows are added, the law cited by the
    preamble and the law of the revoked article are linked, and
    article 5 of law 41/2023 is revoked. *)
Example stage3_example :
  let s := _process_articles_with_relationships_v50
             PyStr.ascii_upper Like.ilike PyDate.no_other_format ExStage3.uuid4
             Ex.source_law (Some "2024-01-01") ExStage3.articles
             ExStage3.analysis_results Ex.w0 0 in
  s3_raised s = None
  /\ s3_counts s = mkStats 2 1
  /\ law_articles (store (s3_world s))
     = [mkArticle "art-41-2023-5" "law-41-2023" 5 "REVOKED"
                  (Some "2023-12-31");
        Ex.article_6;
        mkArticle "uuid-0" "law-new" 1 "ACTIVE" None;
        mkArticle "uuid-1" "law-new" 2 "ACTIVE" None].
Proof. cbv zeta. repeat split; reflexivity. Qed.

(* ================================================================== *)
(** * The analyst phase *)

Section AnalystFacts.

Variable generate_content : string -> result string.
Variable json_loads : string -> option json.
Variables head tail : string.

Local Abbreviation loop :=
  (analyze_articles generate_content json_loads head tail).
Local Abbreviation stored :=
  (results_of generate_content json_loads head tail).

(** The loop over the articles: what it appends and what it counts. *)
Lemma analyze_articles_spec (articles : list ExtractedArticle) :
  forall (i : nat) (a : Analyst),
    analysis_results (loop i articles a)
    = analysis_results a ++ stored i articles
    /\ total_items (loop i articles a)
       = total_items a + Z.of_nat (List.length articles)
    /\ successful_analyses (loop i articles a)
       = successful_analyses a + Z.of_nat (List.length (stored i articles))
    /\ Z.of_nat (List.length articles)
       = Z.of_nat (List.length (stored i articles)) + without_text articles.
Proof.
  unfold without_text.
  induction articles as [|x articles IH]; intros i a.
  - cbn. rewrite app_nil_r. repeat split; lia.
  - cbn [analyze_articles results_of filter].
    destruct (IH (S i) (analyze_article generate_content json_loads head tail
                                        a i x)) as [R [T [S0 W]]].
    rewrite R, T, S0. clear R T S0. unfold analyze_article.
    destruct (ex_official_text x) as [text|].
    + unfold result_of.
      destruct (_analyze_content_v50 _ _ _ _ text "article" _)
        as [analysis l].
      cbn [analysis_results total_items successful_analyses fst].
      rewrite <- app_assoc. cbn [app List.length].
      repeat split; lia.
    + cbn [analysis_results total_items successful_analyses List.length].
      repeat split; lia.
Qed.

Lemma stored_are_articles (articles : list ExtractedArticle) :
  forall i, article_results (stored i articles) = stored i articles.
Proof.
  unfold article_results.
  induction articles as [|x articles IH]; intros i; [reflexivity|].
  cbn [results_of]. destruct (ex_official_text x); [|apply IH].
  cbn [filter result_of ar_content_type]. cbn. now rewrite IH.
Qed.

(** Each stored article result is numbered by the position of its
    article, which has the text that was analysed. *)
Lemma stored_positions (articles : list ExtractedArticle) :
  forall i r,
    In r (stored i articles) ->
    exists k article text,
      nth_error articles k = Some article
      /\ ex_official_text article = Some text
      /\ r = result_of generate_content json_loads head tail
                       (i + k) article text.
Proof.
  induction articles as [|x articles IH]; intros i r; [intros []|].
  cbn [results_of].
  assert (Rest : In r (stored (S i) articles) ->
                 exists k article text,
                   nth_error (x :: articles) k = Some article
                   /\ ex_official_text article = Some text
                   /\ r = result_of generate_content json_loads head tail
                                    (i + k) article text).
  { intros H. destruct (IH _ _ H) as [k [y [t [Hk [Ht Hr]]]]].
    exists (S k), y, t. rewrite Nat.add_succ_r. auto. }
  destruct (ex_official_text x) as [text|] eqn:Hx; [|exact Rest].
  intros [<-|H]; [|now apply Rest].
  exists O, x, text. rewrite Nat.add_0_r. auto.
Qed.

Lemma stored_orders_increase (articles : list ExtractedArticle) :
  forall i,
    NoDup (map ar_article_order (stored i articles))
    /\ Forall (fun o => Z.of_nat i < o)
              (map ar_article_order (stored i articles)).
Proof.
  induction articles as [|x articles IH]; intros i.
  - split; constructor.
  - cbn [results_of]. destruct (IH (S i)) as [Hn Hf].
    assert (Hf' : Forall (fun o => Z.of_nat i < o)
                         (map ar_article_order (stored (S i) articles))).
    { eapply Forall_impl; [|exact Hf]. intros o Ho. cbv beta in *. lia. }
    destruct (ex_official_text x) as [text|]; [|auto].
    cbn [map result_of ar_article_order]. split.
    + constructor; [|exact Hn]. intros Hin.
      rewrite Forall_forall in Hf. specialize (Hf _ Hin). cbv beta in Hf.
      lia.
    + constructor; [lia|exact Hf'].
Qed.

Lemma analyst_counts (data : ExtractionData) :
  let a := analyze_extraction generate_content json_loads head tail data in
  successful_analyses a = Z.of_nat (List.length (analysis_results a))
  /\ total_items a
     = (if PyStr.truthy (PyStr.strip (ex_preamble_text data)) then 1 else 0)
       + Z.of_nat (List.length (ex_articles data))
  /\ total_items a - successful_analyses a = without_text (ex_articles data).
Proof.
  cbv zeta. unfold analyze_extraction.
  destruct (analyze_articles_spec
              (ex_articles data) O
              (analyze_preamble generate_content json_loads head tail data
                                (mkAnalyst [] 0 0 [])))
    as [R [T [S0 W]]].
  rewrite R, T, S0, List.length_app, Nat2Z.inj_add. clear R T S0.
  unfold analyze_preamble.
  destruct (PyStr.truthy (PyStr.strip (ex_preamble_text data))).
  - destruct (_analyze_content_v50 _ _ _ _ _ "preamble" None) as [pa l].
    cbn [analysis_results total_items successful_analyses app List.length].
    repeat split; lia.
  - cbn [analysis_results total_items successful_analyses List.length].
    repeat split; lia.
Qed.

(** X25. The counts of the analyst phase. An item counts as successful
    whenever its analysis was called, whatever the analysis returned,
    the fallback included: the successes are the results stored; the
    total is the number of articles, plus one when the preamble is not
    blank; the difference is the number of articles without the key
    ['official_text']. When every article has that key, the two counts
    are equal whatever the model does. *)
Theorem analyst_phase_counts (data : ExtractionData) :
  let a := analyze_extraction generate_content json_loads head tail data in
  successful_analyses a = Z.of_nat (List.length (analysis_results a))
  /\ total_items a
     = (if PyStr.truthy (PyStr.strip (ex_preamble_text data)) then 1 else 0)
       + Z.of_nat (List.length (ex_articles data))
  /\ total_items a - successful_analyses a = without_text (ex_articles data)
  /\ (without_text (ex_articles data) = 0 ->
      successful_analyses a = total_items a).
Proof.
  cbv zeta. destruct (analyst_counts data) as [H1 [H2 H3]]. cbv zeta in *.
  repeat split; try assumption. lia.
Qed.

(** X26. The analyst phase numbers the articles by position. Each
    article result carries the position, from 1, that its article has
    in the extraction data, the number of that article and the analysis
    of its text; no two article results have the same ordinal; and
    for the ordinal of a result "Get official text" of Stage 3 finds
    the text that was analysed. *)
Theorem analyst_phase_numbers_articles_by_position (data : ExtractionData) :
  let a := analyze_extraction generate_content json_loads head tail data in
  NoDup (map ar_article_order (article_results (analysis_results a)))
  /\ forall r,
       In r (article_results (analysis_results a)) ->
       exists k article text,
         nth_error (ex_articles data) k = Some article
         /\ ex_official_text article = Some text
         /\ r = result_of generate_content json_loads head tail
                          k article text
         /\ ar_article_order r = Z.of_nat k + 1
         /\ official_text_of (map ex_official_text (ex_articles data))
                             (ar_article_order r)
            = inl (Text text).
Proof.
  cbv zeta. unfold analyze_extraction.
  destruct (analyze_articles_spec
              (ex_articles data) O
              (analyze_preamble generate_content json_loads head tail data
                                (mkAnalyst [] 0 0 [])))
    as [R _].
  rewrite R. clear R.
  assert (Hp : article_results
                 (analysis_results
                    (analyze_preamble generate_content json_loads head tail
                                      data (mkAnalyst [] 0 0 []))) = []).
  { unfold analyze_preamble.
    destruct (PyStr.truthy _); [|reflexivity].
    now destruct (_analyze_content_v50 _ _ _ _ _ "preamble" None). }
  assert (Ha : forall l1 l2, article_results (l1 ++ l2)
                             = article_results l1 ++ article_results l2)
    by (intros; apply filter_app).
  rewrite Ha, Hp, stored_are_articles. cbn [app].
  split; [apply stored_orders_increase|].
  intros r Hr. destruct (stored_positions _ _ _ Hr) as [k [x [t [Hk [Ht E]]]]].
  cbn [Nat.add] in E.
  exists k, x, t. split; [exact Hk|]. split; [exact Ht|].
  split; [exact E|]. subst r. cbn [result_of ar_article_order].
  split; [reflexivity|].
  unfold official_text_of.
  assert (Hlen : (k < List.length (ex_articles data))%nat)
    by (apply nth_error_Some; congruence).
  rewrite length_map.
  replace (Z.of_nat k + 1 - 1) with (Z.of_nat k) by lia.
  replace (Z.of_nat k <? Z.of_nat (List.length (ex_articles data)))
    with true by (symmetry; apply Z.ltb_lt; lia).
  assert (E0 : (0 <=? Z.of_nat k) = true) by (apply Z.leb_le; lia).
  rewrite E0. cbv iota. rewrite E0, Nat2Z.id, nth_error_map, Hk. cbn.
  now rewrite Ht.
Qed.

Variable DB : Type.
Variable select_extraction :
  string -> DB -> result (option ExtractionData) * DB.
Variable delete_analysis : string -> DB -> result unit * DB.
Variable insert_analysis :
  string -> list AnalysisResult -> string -> Z -> Z -> completion_rate ->
  DB -> result unit * DB.
Variable utcnow : string.

(** X27. What [run_kritis_v50_analyst_phase] returns and stores when
    the store answers and every article of the extraction data has its
    text. The select gives the extraction data, the delete answers,
    and the one insert that the phase makes answers. Then the total
    and the successes returned are both the number of articles, plus
    one for a preamble that is not blank, the rate is computed from
    them, and the row given to the store carries the same numbers.
    This holds whatever the model does, so a source is reported with
    as many successes as items even when every call of the model
    failed. *)
Theorem analyst_phase_reports_every_item_as_a_success
    (source_id : string) (db db1 db2 : DB) (data : ExtractionData) :
  select_extraction source_id db = (Ok (Some data), db1) ->
  delete_analysis source_id db1 = (Ok tt, db2) ->
  fst (insert_analysis
         source_id
         (analysis_results
            (analyze_extraction generate_content json_loads head tail data))
         utcnow
         (total_items
            (analyze_extraction generate_content json_loads head tail data))
         (successful_analyses
            (analyze_extraction generate_content json_loads head tail data))
         (rate_of
            (analyze_extraction generate_content json_loads head tail data))
         db2)
  = Ok tt ->
  without_text (ex_articles data) = 0 ->
  let n := (if PyStr.truthy (PyStr.strip (ex_preamble_text data))
            then 1 else 0)
           + Z.of_nat (List.length (ex_articles data)) in
  let rate := if n >? 0 then RateOf n n else RateZero in
  fst (run_kritis_v50_analyst_phase
         generate_content json_loads head tail DB select_extraction
         delete_analysis insert_analysis utcnow source_id db)
  = (Ok (n, n, rate),
     snd (insert_analysis
            source_id
            (analysis_results
               (analyze_extraction generate_content json_loads head tail
                                   data))
            utcnow n n rate db2)).
Proof.
  intros Hs Hd Hi Hw n rate.
  unfold run_kritis_v50_analyst_phase. cbv zeta. rewrite Hs, Hd.
  destruct (analyst_counts data) as [_ [H2 H3]]. cbv zeta in *.
  unfold rate_of in *.
  set (a := analyze_extraction generate_content json_loads head tail data)
    in *.
  assert (Ht : total_items a = n) by exact H2.
  assert (Hc : successful_analyses a = n) by lia.
  rewrite Ht, Hc in *. fold rate in Hi |- *.
  destruct (insert_analysis source_id (analysis_results a) utcnow n n rate
                            db2) as [[u|e] db3];
    [destruct u; reflexivity|discriminate Hi].
Qed.

End AnalystFacts.

(** Witness: a second run on a source with a preamble and one article,
    in a store that records its rows, with a model that fails at every
    call. The row of the first run is deleted and the row inserted
    reports two successes out of two. *)
Lemma analyst_phase_reports_every_item_as_a_success_witness :
  fst (run_kritis_v50_analyst_phase
         unreachable JsonLite.loads "head " " tail" ExAnalyst.db
         ExAnalyst.select_extraction ExAnalyst.delete_analysis
         ExAnalyst.insert_analysis "2024-01-02T00:00:00" "source-1"
         ExAnalyst.db0)
  = (Ok (2, 2, RateOf 2 2),
     snd (ExAnalyst.insert_analysis
            "source-1"
            (analysis_results
               (analyze_extraction unreachable JsonLite.loads "head " " tail"
                                   ExAnalyst.data_with_texts))
            "2024-01-02T00:00:00" 2 2 (RateOf 2 2)
            (ExAnalyst.mkDb [("source-1", ExAnalyst.data_with_texts)] []))).
Proof.
  apply (analyst_phase_reports_every_item_as_a_success
           unreachable JsonLite.loads "head " " tail" ExAnalyst.db
           ExAnalyst.select_extraction ExAnalyst.delete_analysis
           ExAnalyst.insert_analysis "2024-01-02T00:00:00" "source-1"
           ExAnalyst.db0 ExAnalyst.db0
           (ExAnalyst.mkDb [("source-1", ExAnalyst.data_with_texts)] [])
           ExAnalyst.data_with_texts eq_refl eq_refl eq_refl eq_refl).
Defined.

(** The row that the witness leaves in the store. *)
Example analyst_phase_stores_the_counts :
  ExAnalyst.source_ai_analysis
    (snd (fst (run_kritis_v50_analyst_phase
                 unreachable JsonLite.loads "head " " tail" ExAnalyst.db
                 ExAnalyst.select_extraction ExAnalyst.delete_analysis
                 ExAnalyst.insert_analysis "2024-01-02T00:00:00" "source-1"
                 ExAnalyst.db0)))
  = [ExAnalyst.mkAnalysisRow
       "source-1"
       [mkResult "preamble" 0 None FALLBACK_V50;
        mkResult "article" 1 None FALLBACK_V50]
       "2024-01-02T00:00:00" 2 2 (RateOf 2 2)].
Proof. reflexivity. Qed.

(** An article without its text is counted but not analysed, and the
    articles after it keep their positions. *)
Example analyst_phase_example :
  let a := analyze_extraction unreachable JsonLite.loads "head " " tail"
                              ExAnalyst.data in
  total_items a = 4 /\ successful_analyses a = 3
  /\ map ar_article_order (analysis_results a) = [0; 1; 3]
  /\ map ar_analysis (analysis_results a)
     = [FALLBACK_V50; FALLBACK_V50; FALLBACK_V50].
Proof. cbv zeta. repeat split; reflexivity. Qed.
